(** * Windows screen-lock agents: device registry, policy store and policy
      resolver of the Django back end, embedded in Rocq.

    The development follows the Django applications of the repository:
    [devices] (models, serializers, views), [policies] (models, serializers,
    views), [events] (models) and the JSON endpoints of [dashboard/views.py].

    Conventions of the embedding.
    - A database table is the list of its rows in storage order (ascending
      primary key).  A [QuerySet] is the list of rows it yields.
    - [timezone.now()] is an explicit argument [now]; instants and durations
      are integers counting microseconds, the resolution of [datetime].
    - A view is a function from the database (and the request) to a response
      and the database it leaves behind.  Requests are taken after the
      [IsAuthenticated] / [login_required] gate: they carry a user.
    - A Python exception is a value of type [Exc]; code that can raise returns
      [Exc + A]. *)

From Stdlib Require Import ZArith Lia.
From stdpp Require Import base option list sorting gmap strings pretty.

Local Open Scope Z_scope.

(** ** Values *)

(** JSON leaves as they reach the views ([request.data], [json.loads]) and as
    they are kept in [JSONField]s. *)
Inductive Json :=
| JNull
| JBool (b : bool)
| JInt (n : Z)
| JStr (s : string).

#[global] Instance Json_eq_dec : EqDecision Json.
Proof. solve_decision. Defined.


(** Instants and durations in microseconds. *)
Definition timedelta_minutes (m : Z) : Z := m * 60 * 1000000.

(** A Python [float]: a finite binary fraction [m * 2^e], an infinity or
    NaN. *)
Inductive PyFloat :=
| FNum (m e : Z)
| FInf (negative : bool)
| FNaN.

(** A text is kept as the bytes of its UTF-8 encoding.  [len(s)] counts
    characters: every character has exactly one byte that is not a
    continuation byte [10xxxxxx]. *)
Definition is_continuation_byte (c : Ascii.ascii) : bool :=
  let n := Ascii.nat_of_ascii c in Nat.leb 128 n && Nat.ltb n 192.

Fixpoint len (s : string) : nat :=
  match s with
  | EmptyString => 0%nat
  | String c s => ((if is_continuation_byte c then 0 else 1) + len s)%nat
  end.

(** The character [c] occurs in [s]. *)
Fixpoint has_char (c : Ascii.ascii) (s : string) : bool :=
  match s with
  | EmptyString => false
  | String c' s => Ascii.eqb c' c || has_char c s
  end.

(** The NUL character. *)
Definition NUL : Ascii.ascii := Ascii.ascii_of_nat 0.

(** The blanks that [str.strip] removes, each by the bytes of its UTF-8
    encoding: the characters for which [str.isspace] holds. *)
Definition blanks : list (list nat) :=
  [[9]; [10]; [11]; [12]; [13]; [28]; [29]; [30]; [31]; [32];
   [194; 133]; [194; 160]; [225; 154; 128];
   [226; 128; 128]; [226; 128; 129]; [226; 128; 130]; [226; 128; 131];
   [226; 128; 132]; [226; 128; 133]; [226; 128; 134]; [226; 128; 135];
   [226; 128; 136]; [226; 128; 137]; [226; 128; 138];
   [226; 128; 168]; [226; 128; 169]; [226; 128; 175]; [226; 129; 159];
   [227; 128; 128]]%nat.

Definition text_of (bytes : list nat) : string :=
  foldr (λ n s, String (Ascii.ascii_of_nat n) s) EmptyString bytes.

(** A text that [str.strip] leaves as it is: it neither begins nor ends
    with a blank. *)
Definition trimmed (s : string) : bool :=
  forallb (λ b, negb (String.prefix (text_of b) s)
                && negb (String.prefix (text_of (rev b)) (String.rev s)))
          blanks.

(** Python exceptions that the modelled code can raise. *)
Inductive Exc :=
| TypeError (msg : string)
| ValueError (msg : string)
| AttributeError (msg : string)
| KeyError (key : string)
| IntegrityError (msg : string)
| ValidationError (msg : string)
| DatabaseError (msg : string)
| OverflowError (msg : string)
| DoesNotExist.

(** ** Models *)

Module User.
Record t := mk {
  id : nat;
  username : string;
  role : string
}.
End User.

Module Policy.
(** [policies/models.py], class [Policy].  [wallpaper_image] and
    [created_by] play no part in the modelled views and are left out. *)
Record t := mk {
  id : nat;
  name : string;
  description : string;
  scope : string;
  idle_timeout_seconds : Z;
  manual_lock_enabled : bool;
  lock_hotkey : string;
  require_password : bool;
  allow_windows_auth : bool;
  max_unlock_attempts : Z;
  lockout_duration_minutes : Z;
  lock_message : string;
  show_clock : bool;
  show_company_logo : bool;
  enable_screenshot : bool;
  enable_activity_logging : bool;
  log_retention_days : Z;
  heartbeat_interval_seconds : Z;
  offline_mode_enabled : bool;
  auto_update_enabled : bool;
  is_active : bool;
  priority : Z;
  created_at : Z;
  updated_at : Z
}.
End Policy.

Module PolicyAssignment.
(** [policies/models.py], class [PolicyAssignment]: the foreign keys hold
    the primary key of the row they point to; [device] and [device_group]
    are nullable. *)
Record t := mk {
  id : nat;
  policy : nat;
  device : option nat;
  device_group : option nat;
  assigned_at : Z;
  assigned_by : option nat;
  is_active : bool
}.
End PolicyAssignment.

Module Device.
(** [devices/models.py], class [Device]. *)
Record t := mk {
  id : nat;
  device_id : N;
  name : string;
  hostname : string;
  ip_address : option string;
  mac_address : string;
  os_version : string;
  agent_version : string;
  status : string;
  is_locked : bool;
  last_seen : option Z;
  registered_at : Z;
  last_lock_time : option Z;
  last_unlock_time : option Z;
  hardware_info : gmap string Json;
  location : string;
  department : string;
  is_active : bool
}.

(** Assignments to single attributes. *)
Definition set_status (v : string) (d : t) : t :=
  mk (id d) (device_id d) (name d) (hostname d) (ip_address d) (mac_address d)
     (os_version d) (agent_version d) v (is_locked d) (last_seen d)
     (registered_at d) (last_lock_time d) (last_unlock_time d)
     (hardware_info d) (location d) (department d) (is_active d).
Definition set_is_locked (v : bool) (d : t) : t :=
  mk (id d) (device_id d) (name d) (hostname d) (ip_address d) (mac_address d)
     (os_version d) (agent_version d) (status d) v (last_seen d)
     (registered_at d) (last_lock_time d) (last_unlock_time d)
     (hardware_info d) (location d) (department d) (is_active d).
Definition set_last_seen (v : option Z) (d : t) : t :=
  mk (id d) (device_id d) (name d) (hostname d) (ip_address d) (mac_address d)
     (os_version d) (agent_version d) (status d) (is_locked d) v
     (registered_at d) (last_lock_time d) (last_unlock_time d)
     (hardware_info d) (location d) (department d) (is_active d).
Definition set_last_lock_time (v : option Z) (d : t) : t :=
  mk (id d) (device_id d) (name d) (hostname d) (ip_address d) (mac_address d)
     (os_version d) (agent_version d) (status d) (is_locked d) (last_seen d)
     (registered_at d) v (last_unlock_time d)
     (hardware_info d) (location d) (department d) (is_active d).
Definition set_last_unlock_time (v : option Z) (d : t) : t :=
  mk (id d) (device_id d) (name d) (hostname d) (ip_address d) (mac_address d)
     (os_version d) (agent_version d) (status d) (is_locked d) (last_seen d)
     (registered_at d) (last_lock_time d) v
     (hardware_info d) (location d) (department d) (is_active d).
End Device.

Module DeviceGroup.
(** [devices/models.py], class [DeviceGroup]; [devices] is the
    many-to-many relation, as the primary keys of the member devices. *)
Record t := mk {
  id : nat;
  name : string;
  devices : list nat
}.
End DeviceGroup.

Module DeviceToken.
Record t := mk {
  device : nat;
  token : string
}.
End DeviceToken.

Module DeviceAction.
(** [devices/models.py], class [DeviceAction]. *)
Record t := mk {
  id : nat;
  device : nat;
  action_type : string;
  initiated_by : option nat;
  status : string;
  reason : string;
  metadata : gmap string Json;
  created_at : Z;
  completed_at : option Z
}.

Definition set_status (v : string) (a : t) : t :=
  mk (id a) (device a) (action_type a) (initiated_by a) v (reason a)
     (metadata a) (created_at a) (completed_at a).
End DeviceAction.

Module Event.
(** [events/models.py], class [Event]. *)
Record t := mk {
  event_type : string;
  device : option nat;
  user : option nat;
  timestamp : Z;
  severity : string;
  message : string;
  source : string
}.
End Event.

Module DeviceHeartbeat.
(** [events/models.py], class [DeviceHeartbeat]. *)
Record t := mk {
  device : nat;
  timestamp : Z;
  status : string;
  is_locked : bool;
  cpu_usage : option PyFloat;
  memory_usage : option PyFloat;
  disk_usage : option PyFloat;
  agent_version : string;
  metadata : gmap string Json
}.
End DeviceHeartbeat.

(** ** The database *)

Record Store := mkStore {
  users : list User.t;
  devices : list Device.t;
  device_groups : list DeviceGroup.t;
  device_tokens : list DeviceToken.t;
  device_actions : list DeviceAction.t;
  policies : list Policy.t;
  policy_assignments : list PolicyAssignment.t;
  events : list Event.t;
  device_heartbeats : list DeviceHeartbeat.t
}.

Definition empty_store : Store := mkStore [] [] [] [] [] [] [] [] [].

(** The primary key of a new row: a value above every key of the table.  The
    database also passes over the keys of rows that were deleted, of which
    the tables keep no trace; the properties below therefore say of a new
    key that it is not in use, and not which number it is. *)
Definition next_pk (ids : list nat) : nat := S (foldr Nat.max 0%nat ids).

(** Column updates ([obj.field = value] followed by [save]). *)
Definition set_devices (f : list Device.t → list Device.t) (db : Store) : Store :=
  mkStore (users db) (f (devices db)) (device_groups db) (device_tokens db)
          (device_actions db) (policies db) (policy_assignments db) (events db)
          (device_heartbeats db).

Definition set_device_tokens (f : list DeviceToken.t → list DeviceToken.t)
    (db : Store) : Store :=
  mkStore (users db) (devices db) (device_groups db) (f (device_tokens db))
          (device_actions db) (policies db) (policy_assignments db) (events db)
          (device_heartbeats db).

Definition set_device_actions (f : list DeviceAction.t → list DeviceAction.t)
    (db : Store) : Store :=
  mkStore (users db) (devices db) (device_groups db) (device_tokens db)
          (f (device_actions db)) (policies db) (policy_assignments db) (events db)
          (device_heartbeats db).

Definition set_policies (f : list Policy.t → list Policy.t) (db : Store) : Store :=
  mkStore (users db) (devices db) (device_groups db) (device_tokens db)
          (device_actions db) (f (policies db)) (policy_assignments db) (events db)
          (device_heartbeats db).

Definition set_policy_assignments
    (f : list PolicyAssignment.t → list PolicyAssignment.t) (db : Store) : Store :=
  mkStore (users db) (devices db) (device_groups db) (device_tokens db)
          (device_actions db) (policies db) (f (policy_assignments db)) (events db)
          (device_heartbeats db).

Definition set_events (f : list Event.t → list Event.t) (db : Store) : Store :=
  mkStore (users db) (devices db) (device_groups db) (device_tokens db)
          (device_actions db) (policies db) (policy_assignments db) (f (events db))
          (device_heartbeats db).

Definition set_device_heartbeats
    (f : list DeviceHeartbeat.t → list DeviceHeartbeat.t) (db : Store) : Store :=
  mkStore (users db) (devices db) (device_groups db) (device_tokens db)
          (device_actions db) (policies db) (policy_assignments db) (events db)
          (f (device_heartbeats db)).

(** ** Code that writes to the database and may raise *)

Definition M (A : Type) : Type := Store → Store * (Exc + A).

#[global] Instance M_ret : MRet M := λ A a db, (db, inr a).
#[global] Instance M_bind : MBind M := λ A B f m db,
  match m db with
  | (db', inl e) => (db', inl e)
  | (db', inr a) => f a db'
  end.

Definition raise {A} (e : Exc) : M A := λ db, (db, inl e).
Definition lift {A} (r : Exc + A) : M A := λ db, (db, r).
Definition modify (f : Store → Store) : M unit := λ db, (f db, inr tt).
Definition gets {A} (f : Store → A) : M A := λ db, (db, inr (f db)).

(** ** Python values crossing the untyped calls of [devices/views.py] *)

Inductive PyVal :=
| PyJson (j : Json)
| PyUser (u : User.t)
| PyDevice (d : Device.t).

Definition PyNone : PyVal := PyJson JNull.
Definition PyStr (s : string) : PyVal := PyJson (JStr s).

(** [authentication/models.py]: [User.__str__] with [get_role_display]. *)
Definition get_role_display (role : string) : string :=
  if String.eqb role "superadmin" then "Super Administrator"
  else if String.eqb role "security" then "Security Officer"
  else if String.eqb role "it_admin" then "IT Administrator"
  else if String.eqb role "auditor" then "Auditor"
  else if String.eqb role "unlock_user" then "Unlock User"
  else role.

Definition get_status_display (status : string) : string :=
  if String.eqb status "online" then "Online"
  else if String.eqb status "offline" then "Offline"
  else if String.eqb status "locked" then "Locked"
  else if String.eqb status "unlocked" then "Unlocked"
  else if String.eqb status "error" then "Error"
  else status.

(** Python's [str]. *)
Definition py_str (v : PyVal) : string :=
  match v with
  | PyJson JNull => "None"
  | PyJson (JBool true) => "True"
  | PyJson (JBool false) => "False"
  | PyJson (JInt n) => pretty n
  | PyJson (JStr s) => s
  | PyUser u => User.username u +:+ " (" +:+ get_role_display (User.role u) +:+ ")"
  | PyDevice d =>
      Device.name d +:+ " (" +:+ Device.hostname d +:+ ") - "
        +:+ get_status_display (Device.status d)
  end.

(** Binding of positional arguments to the parameters of a method (after
    [self]); a parameter without argument keeps its default. *)
Definition bind_args (params : list (string * PyVal)) (args : list PyVal)
  : Exc + list (string * PyVal) :=
  if decide (length params < length args)%nat
  then inl (TypeError "too many positional arguments")
  else inr (zip_with (λ p v, (p.1, v)) params args ++ drop (length args) params).

(** The value bound to a keyword or parameter name. *)
Definition kwarg (name : string) (kwargs : list (string * PyVal)) : option PyVal :=
  snd <$> find (λ kv, String.eqb kv.1 name) kwargs.

Definition arg (name : string) (bound : list (string * PyVal)) : PyVal :=
  default PyNone (kwarg name bound).

(** Assignment to a foreign key to [User]: an instance or [None]. *)
Definition as_user_fk (field : string) (v : option PyVal) : Exc + option nat :=
  match v with
  | None | Some (PyJson JNull) => inr None
  | Some (PyUser u) => inr (Some (User.id u))
  | Some _ => inl (ValueError (field +:+ " must be a User instance"))
  end.

Definition as_device_fk (field : string) (v : option PyVal) : Exc + option nat :=
  match v with
  | None | Some (PyJson JNull) => inr None
  | Some (PyDevice d) => inr (Some (Device.id d))
  | Some _ => inl (ValueError (field +:+ " must be a Device instance"))
  end.

(** A [CharField] / [TextField] column: [None] violates NOT NULL, any other
    value is stored as its [str]; an absent keyword takes the field default. *)
Definition as_text (field : string) (dflt : string) (v : option PyVal) : Exc + string :=
  match v with
  | None => inr dflt
  | Some (PyJson JNull) => inl (IntegrityError ("NOT NULL constraint failed: " +:+ field))
  | Some v => inr (py_str v)
  end.

Definition unexpected_kwargs (fields : list string) (kwargs : list (string * PyVal))
  : list string :=
  filter (λ k, k ∉ fields) (kwargs.*1).

(** ** Query sets *)

(** [order_by('-key')]: rows by descending key.  The query names no other
    column, so rows with equal keys come in the order the table yields them:
    the sort is stable. *)
Fixpoint insert_desc {A} (key : A → Z) (x : A) (l : list A) : list A :=
  match l with
  | [] => [x]
  | y :: ys => if key x <? key y then y :: insert_desc key x ys else x :: y :: ys
  end.

Definition order_by_desc {A} (key : A → Z) (l : list A) : list A :=
  foldr (insert_desc key) [] l.

(** [Model.objects.get(pk=...)] / [get_object_or_404]. *)
Definition get_policy (db : Store) (pk : nat) : option Policy.t :=
  find (λ p, Nat.eqb (Policy.id p) pk) (policies db).

Definition get_device_by_uuid (db : Store) (device_id : N) : option Device.t :=
  find (λ d, N.eqb (Device.device_id d) device_id) (devices db).

Definition get_device (db : Store) (pk : nat) : option Device.t :=
  find (λ d, Nat.eqb (Device.id d) pk) (devices db).

Definition get_group (db : Store) (pk : nat) : option DeviceGroup.t :=
  find (λ g, Nat.eqb (DeviceGroup.id g) pk) (device_groups db).

(** [select_related('policy')]: the inner join of an assignment with the
    policy row its foreign key names. *)
Definition select_related_policy (db : Store) (a : PolicyAssignment.t)
  : option (PolicyAssignment.t * Policy.t) :=
  p ← get_policy db (PolicyAssignment.policy a); Some (a, p).

Definition is_some_eqb (o : option nat) (n : nat) : bool :=
  match o with Some m => Nat.eqb m n | None => false end.

(** [device_group__devices=device]: the assignment names a group and the
    device is a member of it. *)
Definition device_group__devices (db : Store) (a : PolicyAssignment.t)
    (device : Device.t) : bool :=
  match PolicyAssignment.device_group a with
  | Some g =>
      match get_group db g with
      | Some grp => existsb (Nat.eqb (Device.id device)) (DeviceGroup.devices grp)
      | None => false
      end
  | None => false
  end.

(** ** events/models.py and devices/models.py *)

(** A response: its status code and the leaves of its JSON body. *)
Record HttpResponse := mkResponse {
  status_code : nat;
  content : list (string * Json)
}.

Module events_models.

(** Names that the constructor of [Event] accepts as keywords: the fields
    of the model, the column names of its foreign keys, and [pk]. *)
Definition Event_fields : list string :=
  ["id"; "pk"; "event_id"; "event_type"; "device"; "device_id"; "user";
   "user_id"; "timestamp"; "severity"; "message"; "metadata"; "ip_address";
   "user_agent"; "source"].

(** [Event.objects.create(...)].  [Model.__init__] assigns the fields in
    declaration order (a foreign key given a value of another class raises
    [ValueError]), then rejects the keywords that name no field with
    [TypeError]; the row is inserted after that, and a [None] in a NOT NULL
    column fails there.  The columns [metadata], [ip_address] and
    [user_agent] are not kept in [Event.t]. *)
Definition Event_objects_create (kwargs : list (string * PyVal)) (now : Z) : M Event.t :=
  device ← lift (as_device_fk "Event.device" (kwarg "device" kwargs));
  user ← lift (as_user_fk "Event.user" (kwarg "user" kwargs));
  match unexpected_kwargs Event_fields kwargs with
  | k :: _ =>
      raise (TypeError ("Event() got unexpected keyword arguments: " +:+ k))
  | [] =>
      event_type ← lift (as_text "events.event_type" "" (kwarg "event_type" kwargs));
      severity ← lift (as_text "events.severity" "info" (kwarg "severity" kwargs));
      message ← lift (as_text "events.message" "" (kwarg "message" kwargs));
      source ← lift (as_text "events.source" "agent" (kwarg "source" kwargs));
      let row := Event.mk event_type device user now severity message source in
      modify (set_events (λ l, l ++ [row])) ;; mret row
  end.

End events_models.

Module devices_models.

(** [Device.is_online]: a property of the row and the clock. *)
Definition is_online (self : Device.t) (now : Z) : bool :=
  match Device.last_seen self with
  | None => false
  | Some last_seen => now - last_seen <? timedelta_minutes 5
  end.

(** [self.save(update_fields=...)]: the row of [self] takes the listed
    columns from [self]; [cols self row] is the row after the write.  When
    the table has no row with the primary key of [self], the update affects
    no row and [save] raises [DatabaseError]. *)
Definition save_device (cols : Device.t → Device.t → Device.t) (self : Device.t)
  : M unit :=
  rows ← gets devices;
  if existsb (λ row, Nat.eqb (Device.id row) (Device.id self)) rows
  then modify (set_devices
         (map (λ row, if Nat.eqb (Device.id row) (Device.id self)
                      then cols self row else row)))
  else raise (DatabaseError "Save with update_fields did not affect any rows.").



Definition DeviceAction_fields : list string :=
  ["id"; "pk"; "device"; "device_id"; "action_type"; "initiated_by";
   "initiated_by_id"; "status"; "reason"; "metadata"; "created_at";
   "updated_at"; "completed_at"].

(** [DeviceAction.objects.create(...)], as [Event.objects.create] above.
    None of the modelled callers passes [metadata]; the new row has the
    default, an empty dictionary. *)
Definition DeviceAction_objects_create (kwargs : list (string * PyVal)) (now : Z)
  : M DeviceAction.t :=
  device ← lift (as_device_fk "DeviceAction.device" (kwarg "device" kwargs));
  initiated_by ← lift (as_user_fk "DeviceAction.initiated_by" (kwarg "initiated_by" kwargs));
  match unexpected_kwargs DeviceAction_fields kwargs with
  | k :: _ =>
      raise (TypeError ("DeviceAction() got unexpected keyword arguments: " +:+ k))
  | [] =>
      action_type ← lift (as_text "device_actions.action_type" ""
                            (kwarg "action_type" kwargs));
      status ← lift (as_text "device_actions.status" "pending" (kwarg "status" kwargs));
      reason ← lift (as_text "device_actions.reason" "" (kwarg "reason" kwargs));
      match device with
      | None => raise (IntegrityError "NOT NULL constraint failed: device_actions.device_id")
      | Some d =>
          pk ← gets (λ db, next_pk (DeviceAction.id <$> device_actions db));
          let row := DeviceAction.mk pk d action_type initiated_by status reason ∅ now None in
          modify (set_device_actions (λ l, l ++ [row])) ;; mret row
      end
  end.

(** [Device.lock_screen(self, reason="Manual lock", admin_user=None)]. *)
Definition lock_screen_params : list (string * PyVal) :=
  [("reason", PyStr "Manual lock"); ("admin_user", PyNone)].

Definition lock_screen (self : Device.t) (reason admin_user : PyVal) (now : Z)
  : M PyVal :=
  let self := Device.set_status "locked"
                (Device.set_last_lock_time (Some now)
                  (Device.set_is_locked true self)) in
  save_device (λ s row,
      Device.set_status (Device.status s)
        (Device.set_last_lock_time (Device.last_lock_time s)
          (Device.set_is_locked (Device.is_locked s) row))) self ;;
  DeviceAction_objects_create
    [("device", PyDevice self); ("action_type", PyStr "lock");
     ("initiated_by", admin_user); ("reason", reason);
     ("status", PyStr "pending")] now ;;
  events_models.Event_objects_create
    [("device", PyDevice self); ("user", admin_user);
     ("event_type", PyStr "lock");
     ("details", PyStr ("Screen locked: " +:+ py_str reason));
     ("severity", PyStr "info")] now ;;
  mret (PyJson (JBool true)).

(** [Device.unlock_screen(self, admin_user=None)]. *)
Definition unlock_screen_params : list (string * PyVal) :=
  [("admin_user", PyNone)].

Definition unlock_screen (self : Device.t) (admin_user : PyVal) (now : Z)
  : M PyVal :=
  let self := Device.set_last_unlock_time (Some now)
                (Device.set_is_locked false self) in
  let self := Device.set_status (if is_online self now then "online" else "offline")
                self in
  save_device (λ s row,
      Device.set_status (Device.status s)
        (Device.set_last_unlock_time (Device.last_unlock_time s)
          (Device.set_is_locked (Device.is_locked s) row))) self ;;
  DeviceAction_objects_create
    [("device", PyDevice self); ("action_type", PyStr "unlock");
     ("initiated_by", admin_user); ("status", PyStr "pending")] now ;;
  events_models.Event_objects_create
    [("device", PyDevice self); ("user", admin_user);
     ("event_type", PyStr "unlock");
     ("details", PyStr "Screen unlocked by administrator");
     ("severity", PyStr "info")] now ;;
  mret (PyJson (JBool true)).

(** A call [device.method(args...)] with positional arguments. *)
Definition call_lock_screen (self : Device.t) (args : list PyVal) (now : Z) : M PyVal :=
  bound ← lift (bind_args lock_screen_params args);
  lock_screen self (arg "reason" bound) (arg "admin_user" bound) now.

Definition call_unlock_screen (self : Device.t) (args : list PyVal) (now : Z) : M PyVal :=
  bound ← lift (bind_args unlock_screen_params args);
  unlock_screen self (arg "admin_user" bound) now.




End devices_models.

(** ** devices/serializers.py and devices/views.py

    Request bodies are taken after JSON decoding, as records of optional
    fields of the type the serializer field converts to; an absent key is
    [None].  Leading and trailing blanks are taken as already stripped, and
    column lengths are enforced by the serializers only. *)

(** [str(e)] of a caught exception. *)
Definition exc_str (e : Exc) : string :=
  match e with
  | TypeError m | ValueError m | AttributeError m | IntegrityError m
  | ValidationError m | DatabaseError m | OverflowError m => m
  | KeyError k => "'" +:+ k +:+ "'"
  | DoesNotExist => "matching query does not exist."
  end.

(** Attribute access [v.name] on a value of the untyped calls. *)
Definition getattr (v : PyVal) (name : string) : Exc + Json :=
  match v with
  | PyUser u =>
      if String.eqb name "id" then inr (JInt (Z.of_nat (User.id u)))
      else if String.eqb name "username" then inr (JStr (User.username u))
      else if String.eqb name "role" then inr (JStr (User.role u))
      else inl (AttributeError ("'User' object has no attribute '" +:+ name +:+ "'"))
  | PyDevice d =>
      if String.eqb name "id" then inr (JInt (Z.of_nat (Device.id d)))
      else if String.eqb name "status" then inr (JStr (Device.status d))
      else if String.eqb name "name" then inr (JStr (Device.name d))
      else inl (AttributeError ("'Device' object has no attribute '" +:+ name +:+ "'"))
  | PyJson _ =>
      inl (AttributeError ("object has no attribute '" +:+ name +:+ "'"))
  end.

Definition not_found : HttpResponse := mkResponse 404 [("detail", JStr "Not found.")].

Module devices_serializers.

(** A [CharField], on the text it is left with once it has stripped the
    blanks at both ends: it refuses a text with a NUL character and, when it
    has a [max_length], a text of more characters. *)
Definition char_field (max_length : option nat) (s : string) : bool :=
  negb (has_char NUL s)
  && match max_length with
     | Some n => bool_decide (len s ≤ n)%nat
     | None => true
     end.

(** A required [CharField(max_length=n)], one declared [blank=True], and a
    [CharField(required=False)], which may be absent but not blank. *)
Definition required_char (n : nat) (v : option string) : bool :=
  match v with
  | Some s => negb (String.eqb s "") && char_field (Some n) s
  | None => false
  end.

Definition optional_char (n : nat) (v : option string) : bool :=
  match v with
  | Some s => char_field (Some n) s
  | None => true
  end.

Definition present_char (v : option string) : bool :=
  match v with
  | Some s => negb (String.eqb s "") && char_field None s
  | None => true
  end.

(** [FloatField(required=False)].  The value of a key that is present is
    taken after [float(...)]: [Some x] for the number [x], and [None] for a
    value that the field refuses (a text that is no number, a list, null). *)
Definition float_field (v : option (option PyFloat)) : bool :=
  match v with
  | Some None => false
  | _ => true
  end.

(** [DeviceHeartbeatSerializer]. *)
Record heartbeat_data := mk_heartbeat {
  status : option string;
  is_locked : option bool;
  cpu_usage : option (option PyFloat);
  memory_usage : option (option PyFloat);
  disk_usage : option (option PyFloat);
  agent_version : option string;
  metadata : option (gmap string Json)
}.

(** [serializer.is_valid()]: [status] and [is_locked] are required, a
    [CharField] refuses the empty string, and the three measurements must
    be numbers when they are given. *)
Definition heartbeat_is_valid (data : heartbeat_data) : bool :=
  match status data, is_locked data with
  | Some s, Some _ =>
      negb (String.eqb s "") && char_field None s
      && float_field (cpu_usage data)
      && float_field (memory_usage data)
      && float_field (disk_usage data)
      && present_char (agent_version data)
  | _, _ => false
  end.

(** [validated_data.get(key)] for a measurement, and the value that a
    [FloatField(null=True)] column then holds: SQLite stores NaN as NULL. *)
Definition float_column (v : option (option PyFloat)) : option PyFloat :=
  match v with
  | Some (Some FNaN) => None
  | Some x => x
  | None => None
  end.

(** [DeviceCreateSerializer]: the body of a registration. *)
Record registration := mk_registration {
  name : option string;
  hostname : option string;
  ip_address : option string;
  mac_address : option string;
  os_version : option string;
  reg_agent_version : option string;
  hardware_info : option (gmap string Json);
  location : option string;
  department : option string;
  pairing_token : option string
}.

Section Registration.
(** The address syntax accepted by [GenericIPAddressField]. *)
Variable valid_ip : string → bool.

(** [serializer.is_valid()]: the fields of the model with their lengths,
    and [pairing_token], declared as [CharField(required=False)]. *)
Definition registration_is_valid (data : registration) : bool :=
  required_char 255 (name data)
  && required_char 255 (hostname data)
  && match ip_address data with Some ip => valid_ip ip | None => true end
  && optional_char 17 (mac_address data)
  && required_char 255 (os_version data)
  && optional_char 50 (reg_agent_version data)
  && optional_char 255 (location data)
  && optional_char 100 (department data)
  && present_char (pairing_token data).
End Registration.

(** [DeviceCreateSerializer.create]: [pairing_token] is dropped and the
    model fills the columns that the body does not name with their
    defaults; [uuid] is the value [uuid.uuid4] draws for [device_id], a
    unique column. *)
Definition create (data : registration) (uuid : N) (now : Z) : M Device.t :=
  db ← gets id;
  if existsb (λ d, N.eqb (Device.device_id d) uuid) (devices db)
  then raise (IntegrityError "UNIQUE constraint failed: devices.device_id")
  else
    let row :=
      Device.mk (next_pk (Device.id <$> devices db)) uuid
        (default "" (name data)) (default "" (hostname data))
        (ip_address data) (default "" (mac_address data))
        (default "" (os_version data)) (default "" (reg_agent_version data))
        "offline" false None now None None
        (default ∅ (hardware_info data))
        (default "" (location data)) (default "" (department data)) true in
    modify (set_devices (λ l, l ++ [row])) ;; mret row.

End devices_serializers.

Module devices_views.

Import devices_serializers.

(** [device_heartbeat]. *)
Definition device_heartbeat (db : Store) (device_id : N) (data : heartbeat_data)
    (now : Z) : Store * HttpResponse :=
  match get_device_by_uuid db device_id with
  | None => (db, not_found)
  | Some device =>
      if heartbeat_is_valid data then
        let device :=
          Device.set_last_seen (Some now)
            (Device.set_is_locked (default false (is_locked data))
              (Device.set_status (default "online" (status data)) device)) in
        let db := set_devices
          (map (λ row, if Nat.eqb (Device.id row) (Device.id device)
                       then device else row)) db in
        let beat :=
          DeviceHeartbeat.mk (Device.id device) now
            (default "online" (status data))
            (default false (is_locked data))
            (float_column (cpu_usage data)) (float_column (memory_usage data))
            (float_column (disk_usage data))
            (default "" (agent_version data))
            (default ∅ (metadata data)) in
        (set_device_heartbeats (λ l, l ++ [beat]) db,
         mkResponse 200 [("status", JStr "ok")])
      else (db, mkResponse 400 [("detail", JStr "invalid heartbeat")])
  end.

(** The body shared by [device_lock] and [device_unlock]: the permission
    check, then the [try] block with its blanket handler. *)
Definition command_view (call : Device.t → list PyVal → Z → M PyVal)
    (default_reason message : string)
    (db : Store) (user : User.t) (data : gmap string Json) (device_id : N)
    (now : Z) : Store * HttpResponse :=
  match get_device_by_uuid db device_id with
  | None => (db, not_found)
  | Some device =>
      if bool_decide (User.role user ∉ ["superadmin"; "security"; "it_admin"])
      then (db, mkResponse 403 [("error", JStr "Insufficient permissions")])
      else
        let reason := default (JStr default_reason) (data !! "reason") in
        let body : M HttpResponse :=
          result ← call device [PyUser user; PyJson reason] now;
          action_id ← lift (getattr result "id");
          status ← lift (getattr result "status");
          mret (mkResponse 200 [("success", JBool true);
                                ("message", JStr message);
                                ("action_id", action_id);
                                ("status", status)]) in
        match body db with
        | (db', inr response) => (db', response)
        | (db', inl e) => (db', mkResponse 500 [("error", JStr (exc_str e))])
        end
  end.

(** [device_lock]: [device.lock_screen(request.user, reason)]. *)
Definition device_lock : Store → User.t → gmap string Json → N → Z
                         → Store * HttpResponse :=
  command_view devices_models.call_lock_screen
    "Manual lock via API" "Device lock command sent successfully".

(** [device_unlock]: [device.unlock_screen(request.user, reason)]. *)
Definition device_unlock : Store → User.t → gmap string Json → N → Z
                           → Store * HttpResponse :=
  command_view devices_models.call_unlock_screen
    "Manual unlock via API" "Device unlock command sent successfully".

(** [DeviceListCreateView], POST: validation, [serializer.save()], then
    [perform_create] (token and registration event).  [token] is the value
    drawn by [secrets.token_urlsafe] and [client_ip] the result of
    [get_client_ip]; an exception is not caught by the view and becomes a 500
    response. *)
Definition DeviceListCreateView_post (valid_ip : string → bool) (db : Store)
    (user : User.t) (client_ip : option string) (data : registration) (uuid : N)
    (token : string) (now : Z) : Store * HttpResponse :=
  if registration_is_valid valid_ip data then
    let body : M Device.t :=
      device ← create data uuid now;
      tokens ← gets device_tokens;
      (if existsb (λ t, String.eqb (DeviceToken.token t) token) tokens
       then raise (IntegrityError "UNIQUE constraint failed: device_tokens.token")
       else modify (set_device_tokens
                      (λ l, l ++ [DeviceToken.mk (Device.id device) token]))) ;;
      events_models.Event_objects_create
        [("event_type", PyStr "device_registered"); ("device", PyDevice device);
         ("user", PyUser user);
         ("message", PyStr ("Device " +:+ Device.name device +:+ " registered"));
         ("ip_address", from_option PyStr PyNone client_ip);
         ("source", PyStr "api")] now ;;
      mret device in
    match body db with
    | (db', inr device) =>
        (db', mkResponse 201 [("name", JStr (Device.name device));
                              ("hostname", JStr (Device.hostname device))])
    | (db', inl e) => (db', mkResponse 500 [("error", JStr (exc_str e))])
    end
  else (db, mkResponse 400 [("detail", JStr "invalid registration")]).



End devices_views.

(** ** policies/serializers.py *)

Module PolicyData.
(** The body of a request that creates or updates a policy: the fields of
    [PolicyCreateUpdateSerializer] (without [wallpaper_image]); the JSON
    endpoints of the dashboard read a subset of them. *)
Record t := mk {
  name : option string;
  description : option string;
  scope : option string;
  idle_timeout_seconds : option Z;
  manual_lock_enabled : option bool;
  lock_hotkey : option string;
  require_password : option bool;
  allow_windows_auth : option bool;
  max_unlock_attempts : option Z;
  lockout_duration_minutes : option Z;
  lock_message : option string;
  show_clock : option bool;
  show_company_logo : option bool;
  enable_screenshot : option bool;
  enable_activity_logging : option bool;
  log_retention_days : option Z;
  heartbeat_interval_seconds : option Z;
  offline_mode_enabled : option bool;
  auto_update_enabled : option bool;
  is_active : option bool;
  priority : option Z
}.
End PolicyData.

Definition default_lock_message : string :=
  "This computer is locked. Please contact IT support if you need assistance.".

(** The row written from a body [data], a column that the body does not name
    taking the value [base] has for it. *)
Definition policy_of_data (data : PolicyData.t) (base : Policy.t) : Policy.t :=
  Policy.mk (Policy.id base)
    (default (Policy.name base) (PolicyData.name data))
    (default (Policy.description base) (PolicyData.description data))
    (default (Policy.scope base) (PolicyData.scope data))
    (default (Policy.idle_timeout_seconds base) (PolicyData.idle_timeout_seconds data))
    (default (Policy.manual_lock_enabled base) (PolicyData.manual_lock_enabled data))
    (default (Policy.lock_hotkey base) (PolicyData.lock_hotkey data))
    (default (Policy.require_password base) (PolicyData.require_password data))
    (default (Policy.allow_windows_auth base) (PolicyData.allow_windows_auth data))
    (default (Policy.max_unlock_attempts base) (PolicyData.max_unlock_attempts data))
    (default (Policy.lockout_duration_minutes base) (PolicyData.lockout_duration_minutes data))
    (default (Policy.lock_message base) (PolicyData.lock_message data))
    (default (Policy.show_clock base) (PolicyData.show_clock data))
    (default (Policy.show_company_logo base) (PolicyData.show_company_logo data))
    (default (Policy.enable_screenshot base) (PolicyData.enable_screenshot data))
    (default (Policy.enable_activity_logging base) (PolicyData.enable_activity_logging data))
    (default (Policy.log_retention_days base) (PolicyData.log_retention_days data))
    (default (Policy.heartbeat_interval_seconds base) (PolicyData.heartbeat_interval_seconds data))
    (default (Policy.offline_mode_enabled base) (PolicyData.offline_mode_enabled data))
    (default (Policy.auto_update_enabled base) (PolicyData.auto_update_enabled data))
    (default (Policy.is_active base) (PolicyData.is_active data))
    (default (Policy.priority base) (PolicyData.priority data))
    (Policy.created_at base)
    (Policy.updated_at base).

(** The field defaults of [policies/models.py], for a row created at [now]
    under primary key [pk]. *)
Definition policy_defaults (pk : nat) (now : Z) : Policy.t :=
  Policy.mk pk "" "" "global" 300 true "Win+Alt+S" true false 3 15
    default_lock_message true true false true 90 60 true true true 0 now now.

Module policies_serializers.

(** [MinValueValidator(lo)] and [MaxValueValidator(hi)] on a field. *)
Definition in_range (lo hi : Z) (v : option Z) : bool :=
  match v with
  | Some n => (lo <=? n) && (n <=? hi)
  | None => true
  end.

Definition SCOPE_CHOICES : list string := ["global"; "group"; "device"].

(** Validation by [PolicyCreateUpdateSerializer], a [ModelSerializer]: its
    fields carry the validators, choices and lengths of the model fields.
    With [partial] (PATCH) a required field may be absent. *)
Definition policy_is_valid (partial : bool) (data : PolicyData.t) : bool :=
  match PolicyData.name data with
  | Some s => negb (String.eqb s "") && bool_decide (len s ≤ 200)%nat
  | None => partial
  end
  && match PolicyData.scope data with
     | Some s => bool_decide (s ∈ SCOPE_CHOICES)
     | None => true
     end
  && in_range 30 86400 (PolicyData.idle_timeout_seconds data)
  && match PolicyData.lock_hotkey data with
     | Some s => negb (String.eqb s "") && bool_decide (len s ≤ 50)%nat
     | None => true
     end
  && in_range 1 10 (PolicyData.max_unlock_attempts data)
  && in_range 1 1440 (PolicyData.lockout_duration_minutes data)
  && match PolicyData.lock_message data with
     | Some s => negb (String.eqb s "")
     | None => true
     end
  && in_range 1 365 (PolicyData.log_retention_days data)
  && in_range 30 3600 (PolicyData.heartbeat_interval_seconds data).

(** The body of a request that creates a policy assignment
    ([PolicyAssignmentCreateSerializer]); the relations are primary keys. *)
Record assignment_data := mk_assignment_data {
  policy : option nat;
  device : option nat;
  device_group : option nat;
  is_active : option bool
}.

(** [PolicyAssignmentCreateSerializer.validate]. *)
Definition validate (attrs : assignment_data) : Exc + assignment_data :=
  let device := device attrs in
  let device_group := device_group attrs in
  if negb (bool_decide (is_Some device)) && negb (bool_decide (is_Some device_group))
  then inl (ValidationError "Either device or device_group must be specified")
  else if bool_decide (is_Some device) && bool_decide (is_Some device_group)
  then inl (ValidationError "Cannot specify both device and device_group")
  else inr attrs.

End policies_serializers.

(** The constraints of [PolicyAssignment.Meta.unique_together]: a row with
    the same policy and the same (non-null) device, or the same policy and
    the same (non-null) group, as an existing row other than [self_pk]. *)
Definition violates_unique_together (rows : list PolicyAssignment.t)
    (self_pk : option nat) (policy : nat) (device device_group : option nat) : bool :=
  existsb (λ r,
      negb (bool_decide (self_pk = Some (PolicyAssignment.id r)))
      && Nat.eqb (PolicyAssignment.policy r) policy
      && (match device with
          | Some d => is_some_eqb (PolicyAssignment.device r) d
          | None => false
          end
          || match device_group with
             | Some g => is_some_eqb (PolicyAssignment.device_group r) g
             | None => false
             end)) rows.

(** [auto_now] on [updated_at]. *)
Definition policy_with_updated_at (now : Z) (p : Policy.t) : Policy.t :=
  Policy.mk (Policy.id p) (Policy.name p) (Policy.description p) (Policy.scope p)
    (Policy.idle_timeout_seconds p) (Policy.manual_lock_enabled p)
    (Policy.lock_hotkey p) (Policy.require_password p) (Policy.allow_windows_auth p)
    (Policy.max_unlock_attempts p) (Policy.lockout_duration_minutes p)
    (Policy.lock_message p) (Policy.show_clock p) (Policy.show_company_logo p)
    (Policy.enable_screenshot p) (Policy.enable_activity_logging p)
    (Policy.log_retention_days p) (Policy.heartbeat_interval_seconds p)
    (Policy.offline_mode_enabled p) (Policy.auto_update_enabled p)
    (Policy.is_active p) (Policy.priority p) (Policy.created_at p) now.

(** [policy.delete()]: [PolicyAssignment.policy] is declared with
    [on_delete=models.CASCADE], so the assignments that point to the policy
    are deleted with it. *)
Definition Policy_delete (policy : Policy.t) (db : Store) : Store :=
  set_policies (filter (λ p, Policy.id p ≠ Policy.id policy))
    (set_policy_assignments
       (filter (λ a, PolicyAssignment.policy a ≠ Policy.id policy)) db).

(** ** policies/views.py: [device_policy] *)

Module policies_views.

Definition device_policies (db : Store) (device : Device.t)
  : list (PolicyAssignment.t * Policy.t) :=
  order_by_desc (λ ap, Policy.priority ap.2)
    (filter (λ ap, is_some_eqb (PolicyAssignment.device ap.1) (Device.id device)
                   && PolicyAssignment.is_active ap.1
                   && Policy.is_active ap.2 = true)
            (omap (select_related_policy db) (policy_assignments db))).

(** The group tier.  The query joins the assignments with the members of
    their groups and sorts on the priority alone: among rows of equal
    priority the order is that of the join, which the query leaves to the
    database.  Such rows are taken here in the order of the assignments, and
    no property below says which of them comes first. *)
Definition group_policies (db : Store) (device : Device.t)
  : list (PolicyAssignment.t * Policy.t) :=
  order_by_desc (λ ap, Policy.priority ap.2)
    (filter (λ ap, device_group__devices db ap.1 device
                   && PolicyAssignment.is_active ap.1
                   && Policy.is_active ap.2 = true)
            (omap (select_related_policy db) (policy_assignments db))).

Definition global_policies (db : Store) : list Policy.t :=
  order_by_desc Policy.priority
    (filter (λ p, String.eqb (Policy.scope p) "global" && Policy.is_active p = true)
            (policies db)).

(** [policy in all_policies]: Django compares model instances by primary
    key. *)
Definition policy_in (p : Policy.t) (l : list Policy.t) : bool :=
  existsb (λ q, Nat.eqb (Policy.id q) (Policy.id p)) l.

Definition append_if_new (all_policies : list Policy.t) (p : Policy.t)
  : list Policy.t :=
  if policy_in p all_policies then all_policies else all_policies ++ [p].

Definition all_policies (db : Store) (device : Device.t) : list Policy.t :=
  let l0 := foldl (λ acc ap, acc ++ [ap.2]) [] (device_policies db device) in
  let l1 := foldl (λ acc ap, append_if_new acc ap.2) l0 (group_policies db device) in
  foldl append_if_new l1 (global_policies db).

Record response_data := mk_response {
  device_id : N;
  effective_policy : option Policy.t;
  applied_policies : list Policy.t;
  last_updated : Z
}.

Inductive Response :=
| Http404
| Http200 (data : response_data).

Definition device_policy (db : Store) (device_id : N) : Response :=
  match get_device_by_uuid db device_id with
  | None => Http404
  | Some device =>
      let all := all_policies db device in
      match head all with
      | Some effective =>
          Http200 (mk_response device_id (Some effective) all
                               (Device.registered_at device))
      | None =>
          Http200 (mk_response device_id None [] (Device.registered_at device))
      end
  end.

Import policies_serializers.

(** [PolicyListCreateView], POST. *)
Definition PolicyListCreateView_post (db : Store) (data : PolicyData.t) (now : Z)
  : Store * HttpResponse :=
  if policy_is_valid false data then
    let pk := next_pk (Policy.id <$> policies db) in
    let policy := policy_of_data data (policy_defaults pk now) in
    (set_policies (λ l, l ++ [policy]) db,
     mkResponse 201 [("name", JStr (Policy.name policy))])
  else (db, mkResponse 400 [("detail", JStr "invalid policy")]).

(** [PolicyDetailView], PUT ([partial] false) and PATCH ([partial] true). *)
Definition PolicyDetailView_update (partial : bool) (db : Store) (pk : nat)
    (data : PolicyData.t) (now : Z) : Store * HttpResponse :=
  match get_policy db pk with
  | None => (db, not_found)
  | Some policy =>
      if policy_is_valid partial data then
        let policy := policy_of_data data policy in
        let policy := policy_with_updated_at now policy in
        (set_policies
           (map (λ row, if Nat.eqb (Policy.id row) pk then policy else row)) db,
         mkResponse 200 [("name", JStr (Policy.name policy))])
      else (db, mkResponse 400 [("detail", JStr "invalid policy")])
  end.

(** [PolicyDetailView], DELETE. *)
Definition PolicyDetailView_delete (db : Store) (pk : nat) : Store * HttpResponse :=
  match get_policy db pk with
  | None => (db, not_found)
  | Some policy => (Policy_delete policy db, mkResponse 204 [])
  end.

(** [PolicyAssignmentListCreateView], POST: the related-field lookups, the
    validators that the serializer derives from [unique_together] (they
    pass when a compared value is null), [validate], then the insertion
    with [assigned_by=request.user]. *)
Definition PolicyAssignmentListCreateView_post (db : Store) (user : User.t)
    (data : assignment_data) (now : Z) : Store * HttpResponse :=
  let bad_request msg := (db, mkResponse 400 [("detail", JStr msg)]) in
  match policy data with
  | None => bad_request "policy: this field is required"
  | Some p =>
      if negb (bool_decide (is_Some (get_policy db p)))
      then bad_request "policy: object does not exist"
      else if negb (match device data with
                    | Some d => bool_decide (is_Some (get_device db d))
                    | None => true end)
      then bad_request "device: object does not exist"
      else if negb (match device_group data with
                    | Some g => bool_decide (is_Some (get_group db g))
                    | None => true end)
      then bad_request "device_group: object does not exist"
      else if violates_unique_together (policy_assignments db) None p
                (device data) None
      then bad_request "The fields policy, device must make a unique set."
      else if violates_unique_together (policy_assignments db) None p
                None (device_group data)
      then bad_request "The fields policy, device_group must make a unique set."
      else
        match validate data with
        | inl e => bad_request (exc_str e)
        | inr attrs =>
            let row :=
              PolicyAssignment.mk
                (next_pk (PolicyAssignment.id <$> policy_assignments db))
                p (device attrs) (device_group attrs) now (Some (User.id user))
                (default true (is_active attrs)) in
            (set_policy_assignments (λ l, l ++ [row]) db,
             mkResponse 201 [("policy", JInt (Z.of_nat p))])
        end
  end.

(** [PolicyAssignmentDetailView], PATCH with [PolicyAssignmentSerializer]:
    [policy], [device], [assigned_at] and [assigned_by] are read-only there,
    [device_group] and [is_active] are writable, and the serializer has no
    [validate].  [device_group] is [None] when the body does not name it and
    [Some None] when it sets it to null.  The database still checks
    [unique_together]; the view does not catch its [IntegrityError]. *)
Definition PolicyAssignmentDetailView_patch (db : Store) (pk : nat)
    (device_group : option (option nat)) (is_active : option bool)
  : Store * HttpResponse :=
  match find (λ a, Nat.eqb (PolicyAssignment.id a) pk) (policy_assignments db) with
  | None => (db, not_found)
  | Some a =>
      if negb (match device_group with
               | Some (Some g) => bool_decide (is_Some (get_group db g))
               | _ => true end)
      then (db, mkResponse 400 [("detail", JStr "device_group: object does not exist")])
      else
        let a' :=
          PolicyAssignment.mk (PolicyAssignment.id a) (PolicyAssignment.policy a)
            (PolicyAssignment.device a)
            (default (PolicyAssignment.device_group a) device_group)
            (PolicyAssignment.assigned_at a) (PolicyAssignment.assigned_by a)
            (default (PolicyAssignment.is_active a) is_active) in
        if violates_unique_together (policy_assignments db) (Some pk)
             (PolicyAssignment.policy a') (PolicyAssignment.device a')
             (PolicyAssignment.device_group a')
        then (db, mkResponse 500 [("error", JStr "UNIQUE constraint failed")])
        else
          (set_policy_assignments
             (map (λ row, if Nat.eqb (PolicyAssignment.id row) pk then a' else row)) db,
           mkResponse 200 [("id", JInt (Z.of_nat pk))])
  end.

End policies_views.

(** ** dashboard/views.py: the JSON endpoints for policies *)

(** An [IntegerField] column of SQLite holds a signed integer of 64 bits;
    saving a row with a value outside that range raises [OverflowError]. *)
Definition sqlite_integer (n : Z) : bool := (- 2 ^ 63 <=? n) && (n <? 2 ^ 63).

Definition Policy_integers (p : Policy.t) : list Z :=
  [Policy.idle_timeout_seconds p; Policy.max_unlock_attempts p;
   Policy.lockout_duration_minutes p; Policy.log_retention_days p;
   Policy.heartbeat_interval_seconds p; Policy.priority p].

Definition too_large : Exc :=
  OverflowError "Python int too large to convert to SQLite INTEGER".

Module dashboard_views.

(** [api_policies_list], POST: [Policy.objects.create(...)] with the values
    of the body; [data['name']] and [data['scope']] raise [KeyError] when
    absent, and the handler turns any exception into a 400 response.
    [objects.create] saves the row without running the validators of the
    model fields; only the range of the integer columns is enforced, by the
    database. *)
Definition api_policies_list_post (db : Store) (data : PolicyData.t) (now : Z)
  : Store * HttpResponse :=
  let failure e :=
    (db, mkResponse 400 [("success", JBool false); ("error", JStr (exc_str e))]) in
  match PolicyData.name data with
  | None => failure (KeyError "name")
  | Some name =>
      match PolicyData.scope data with
      | None => failure (KeyError "scope")
      | Some scope =>
          let pk := next_pk (Policy.id <$> policies db) in
          let policy :=
            Policy.mk pk name
              (default "" (PolicyData.description data))
              scope
              (default 300 (PolicyData.idle_timeout_seconds data))
              (default true (PolicyData.manual_lock_enabled data))
              (default "Win+Alt+S" (PolicyData.lock_hotkey data))
              (default true (PolicyData.require_password data))
              (default false (PolicyData.allow_windows_auth data))
              (default 3 (PolicyData.max_unlock_attempts data))
              (default 15 (PolicyData.lockout_duration_minutes data))
              (default default_lock_message (PolicyData.lock_message data))
              (default true (PolicyData.show_clock data))
              (default true (PolicyData.show_company_logo data))
              false true 90
              (default 60 (PolicyData.heartbeat_interval_seconds data))
              (default true (PolicyData.offline_mode_enabled data))
              (default true (PolicyData.auto_update_enabled data))
              (default true (PolicyData.is_active data))
              (default 0 (PolicyData.priority data))
              now now in
          if forallb sqlite_integer (Policy_integers policy) then
            (set_policies (λ l, l ++ [policy]) db,
             mkResponse 200 [("success", JBool true);
                             ("message", JStr "Policy created successfully");
                             ("policy_id", JInt (Z.of_nat pk))])
          else failure too_large
      end
  end.

Definition policy_not_found : HttpResponse :=
  mkResponse 404 [("success", JBool false); ("error", JStr "Policy not found")].

(** [api_policy_detail], PUT: each attribute takes [data.get(key, current)],
    then [policy.save()], which runs no validator either; an exception is
    answered 400.  The forensics settings are not among the attributes the
    view assigns. *)
Definition api_policy_detail_put (db : Store) (policy_id : nat)
    (data : PolicyData.t) (now : Z) : Store * HttpResponse :=
  match get_policy db policy_id with
  | None => (db, policy_not_found)
  | Some policy =>
      let policy :=
        Policy.mk (Policy.id policy)
          (default (Policy.name policy) (PolicyData.name data))
          (default (Policy.description policy) (PolicyData.description data))
          (default (Policy.scope policy) (PolicyData.scope data))
          (default (Policy.idle_timeout_seconds policy) (PolicyData.idle_timeout_seconds data))
          (default (Policy.manual_lock_enabled policy) (PolicyData.manual_lock_enabled data))
          (default (Policy.lock_hotkey policy) (PolicyData.lock_hotkey data))
          (default (Policy.require_password policy) (PolicyData.require_password data))
          (default (Policy.allow_windows_auth policy) (PolicyData.allow_windows_auth data))
          (default (Policy.max_unlock_attempts policy) (PolicyData.max_unlock_attempts data))
          (default (Policy.lockout_duration_minutes policy) (PolicyData.lockout_duration_minutes data))
          (default (Policy.lock_message policy) (PolicyData.lock_message data))
          (default (Policy.show_clock policy) (PolicyData.show_clock data))
          (default (Policy.show_company_logo policy) (PolicyData.show_company_logo data))
          (Policy.enable_screenshot policy)
          (Policy.enable_activity_logging policy)
          (Policy.log_retention_days policy)
          (default (Policy.heartbeat_interval_seconds policy) (PolicyData.heartbeat_interval_seconds data))
          (default (Policy.offline_mode_enabled policy) (PolicyData.offline_mode_enabled data))
          (default (Policy.auto_update_enabled policy) (PolicyData.auto_update_enabled data))
          (default (Policy.is_active policy) (PolicyData.is_active data))
          (default (Policy.priority policy) (PolicyData.priority data))
          (Policy.created_at policy)
          now in
      if forallb sqlite_integer (Policy_integers policy) then
        (set_policies
           (map (λ row, if Nat.eqb (Policy.id row) policy_id then policy else row)) db,
         mkResponse 200 [("success", JBool true);
                         ("message", JStr "Policy updated successfully")])
      else
        (db, mkResponse 400 [("success", JBool false);
                             ("error", JStr (exc_str too_large))])
  end.

(** [api_policy_detail], DELETE.  [Policy] has no attribute
    [is_system_policy], so the guard never fires and [policy.delete()]
    runs. *)
Definition api_policy_detail_delete (db : Store) (policy_id : nat)
  : Store * HttpResponse :=
  match get_policy db policy_id with
  | None => (db, policy_not_found)
  | Some policy =>
      (Policy_delete policy db,
       mkResponse 200 [("success", JBool true);
                       ("message", JStr "Policy deleted successfully")])
  end.

End dashboard_views.


(** * More of the same files *)

(** ** devices/models.py: restart and screenshot requests *)

(** [Device.restart_device(self, admin_user=None)]. *)
Definition restart_device_params : list (string * PyVal) :=
  [("admin_user", PyNone)].

Definition restart_device (self : Device.t) (admin_user : PyVal) (now : Z) : M PyVal :=
  devices_models.DeviceAction_objects_create
    [("device", PyDevice self); ("action_type", PyStr "restart");
     ("initiated_by", admin_user); ("status", PyStr "pending")] now ;;
  events_models.Event_objects_create
    [("device", PyDevice self); ("user", admin_user);
     ("event_type", PyStr "restart_requested");
     ("details", PyStr "Device restart requested by administrator");
     ("severity", PyStr "warning")] now ;;
  mret (PyJson (JBool true)).

Definition call_restart_device (self : Device.t) (args : list PyVal) (now : Z)
  : M PyVal :=
  bound ← lift (bind_args restart_device_params args);
  restart_device self (arg "admin_user" bound) now.

(** Names that the constructor of [forensics.models.Screenshot] accepts as
    keywords. *)
Definition Screenshot_fields : list string :=
  ["id"; "pk"; "screenshot_id"; "device"; "device_id"; "event"; "event_id";
   "image_file"; "thumbnail"; "file_hash"; "file_size"; "is_encrypted";
   "taken_at"; "taken_by_user"; "taken_by_user_id"; "screen_resolution";
   "metadata"; "retention_until"].

(** [DeviceAction.objects.create(...)] with a [metadata] dictionary. *)
Definition DeviceAction_objects_create_with (metadata : gmap string Json)
    (kwargs : list (string * PyVal)) (now : Z) : M DeviceAction.t :=
  device ← lift (as_device_fk "DeviceAction.device" (kwarg "device" kwargs));
  initiated_by ← lift (as_user_fk "DeviceAction.initiated_by"
                         (kwarg "initiated_by" kwargs));
  match unexpected_kwargs devices_models.DeviceAction_fields kwargs with
  | k :: _ =>
      raise (TypeError ("DeviceAction() got unexpected keyword arguments: " +:+ k))
  | [] =>
      action_type ← lift (as_text "device_actions.action_type" ""
                            (kwarg "action_type" kwargs));
      status ← lift (as_text "device_actions.status" "pending" (kwarg "status" kwargs));
      reason ← lift (as_text "device_actions.reason" "" (kwarg "reason" kwargs));
      match device with
      | None => raise (IntegrityError "NOT NULL constraint failed: device_actions.device_id")
      | Some d =>
          pk ← gets (λ db, next_pk (DeviceAction.id <$> device_actions db));
          let row := DeviceAction.mk pk d action_type initiated_by status reason
                       metadata now None in
          modify (set_device_actions (λ l, l ++ [row])) ;; mret row
      end
  end.

Section Screenshots.

(** [timezone.now().strftime('%Y%m%d_%H%M%S')], and the insertion of a
    [Screenshot] whose constructor accepted its keywords; it returns the
    primary key of the new row.  The table of screenshots is not part of
    [Store]. *)
Variable strftime : Z → string.
Variable Screenshot_save : list (string * PyVal) → M Z.

(** [Screenshot.objects.create(...)]: the constructor first, as for
    [Event]. *)
Definition Screenshot_objects_create (kwargs : list (string * PyVal)) : M Z :=
  lift (as_device_fk "Screenshot.device" (kwarg "device" kwargs)) ;;
  lift (as_user_fk "Screenshot.taken_by_user" (kwarg "taken_by_user" kwargs)) ;;
  match unexpected_kwargs Screenshot_fields kwargs with
  | k :: _ =>
      raise (TypeError ("Screenshot() got unexpected keyword arguments: " +:+ k))
  | [] => Screenshot_save kwargs
  end.

(** [Device.take_screenshot(self, admin_user=None)]; it returns the
    screenshot, here its primary key. *)
Definition take_screenshot_params : list (string * PyVal) :=
  [("admin_user", PyNone)].

Definition take_screenshot (self : Device.t) (admin_user : PyVal) (now : Z) : M Z :=
  screenshot_id ← Screenshot_objects_create
    [("device", PyDevice self); ("taken_by", admin_user);
     ("filename", PyStr ("screenshot_" +:+ Device.hostname self +:+ "_"
                           +:+ strftime now +:+ ".png"));
     ("status", PyStr "requested")];
  DeviceAction_objects_create_with {["screenshot_id" := JInt screenshot_id]}
    [("device", PyDevice self); ("action_type", PyStr "screenshot");
     ("initiated_by", admin_user); ("status", PyStr "pending")] now ;;
  events_models.Event_objects_create
    [("device", PyDevice self); ("user", admin_user);
     ("event_type", PyStr "screenshot_requested");
     ("details", PyStr ("Screenshot requested - ID: " +:+ pretty screenshot_id));
     ("severity", PyStr "info")] now ;;
  mret screenshot_id.

Definition call_take_screenshot (self : Device.t) (args : list PyVal) (now : Z)
  : M Z :=
  bound ← lift (bind_args take_screenshot_params args);
  take_screenshot self (arg "admin_user" bound) now.

End Screenshots.

(** ** devices/views.py: the other endpoints *)

(** Attribute access on a [Screenshot]: of the two attributes the view
    reads, [id] exists and [status] is no field of the model. *)
Definition Screenshot_getattr (pk : Z) (name : string) : Exc + Json :=
  if String.eqb name "id" then inr (JInt pk)
  else inl (AttributeError ("'Screenshot' object has no attribute '" +:+ name +:+ "'")).

(** The body shared by the command views, with the roles each one admits and
    the attribute access of the value its call returns. *)
Definition command_view_for {R} (roles : list string)
    (call : Device.t → list PyVal → Z → M R) (attr : R → string → Exc + Json)
    (default_reason message : string)
    (db : Store) (user : User.t) (data : gmap string Json) (device_id : N)
    (now : Z) : Store * HttpResponse :=
  match get_device_by_uuid db device_id with
  | None => (db, not_found)
  | Some device =>
      if bool_decide (User.role user ∉ roles)
      then (db, mkResponse 403 [("error", JStr "Insufficient permissions")])
      else
        let reason := default (JStr default_reason) (data !! "reason") in
        let body : M HttpResponse :=
          result ← call device [PyUser user; PyJson reason] now;
          action_id ← lift (attr result "id");
          status ← lift (attr result "status");
          mret (mkResponse 200 [("success", JBool true);
                                ("message", JStr message);
                                ("action_id", action_id);
                                ("status", status)]) in
        match body db with
        | (db', inr response) => (db', response)
        | (db', inl e) => (db', mkResponse 500 [("error", JStr (exc_str e))])
        end
  end.

(** [device_screenshot]: [device.take_screenshot(request.user, reason)]. *)
Definition device_screenshot (strftime : Z → string)
    (Screenshot_save : list (string * PyVal) → M Z)
  : Store → User.t → gmap string Json → N → Z → Store * HttpResponse :=
  command_view_for ["superadmin"; "security"; "it_admin"; "auditor"]
    (call_take_screenshot strftime Screenshot_save) Screenshot_getattr
    "Manual screenshot via API" "Screenshot command sent successfully".

(** [device_restart]: [device.restart_device(request.user, reason)]. *)
Definition device_restart
  : Store → User.t → gmap string Json → N → Z → Store * HttpResponse :=
  command_view_for ["superadmin"; "it_admin"] call_restart_device getattr
    "Manual restart via API" "Device restart command sent successfully".


(** [DeviceActionSerializer] and [device_action]: the body names an action of
    a fixed list; [message] and [force] are optional. *)
Module ActionRequest.
Record t := mk {
  action : option string;
  message : option string;
  force : option bool
}.
End ActionRequest.




(** [order_by] on several columns or on a nullable column: [before x y]
    holds when the ordering puts [x] strictly before [y]; rows that the
    ordering does not separate come in the order of the table. *)
Fixpoint insert_by {A} (before : A → A → bool) (x : A) (l : list A) : list A :=
  match l with
  | [] => [x]
  | y :: ys => if before y x then y :: insert_by before x ys else x :: y :: ys
  end.

Definition order_by {A} (before : A → A → bool) (l : list A) : list A :=
  foldr (insert_by before) [] l.

(** [str.lower()] on the letters A to Z; no other character becomes one of
    the letters of ['true']. *)
Definition ascii_lower (c : Ascii.ascii) : Ascii.ascii :=
  let n := Ascii.nat_of_ascii c in
  if Nat.leb 65 n && Nat.leb n 90 then Ascii.ascii_of_nat (n + 32) else c.

Fixpoint str_lower (s : string) : string :=
  match s with
  | EmptyString => EmptyString
  | String c s => String (ascii_lower c) (str_lower s)
  end.

(** The lookups [last_seen__gte] and [last_seen__lt]: a comparison with NULL
    selects nothing. *)
Definition last_seen__gte (cutoff : Z) (d : Device.t) : bool :=
  match Device.last_seen d with Some t => cutoff <=? t | None => false end.

Definition last_seen__lt (cutoff : Z) (d : Device.t) : bool :=
  match Device.last_seen d with Some t => t <? cutoff | None => false end.

(** [order_by('-last_seen')]; where the rows without [last_seen] go depends
    on the database ([nulls_first]). *)
Definition last_seen_before (nulls_first : bool) (a b : Device.t) : bool :=
  match Device.last_seen a, Device.last_seen b with
  | Some ta, Some tb => tb <? ta
  | None, Some _ => nulls_first
  | Some _, None => negb nulls_first
  | None, None => false
  end.

(** [DeviceListCreateView.get_queryset] with the query parameters [status]
    and [online]. *)
Definition DeviceListCreateView_get_queryset (nulls_first : bool) (db : Store)
    (status online : option string) (now : Z) : list Device.t :=
  let queryset := devices db in
  let queryset :=
    match status with
    | Some s =>
        if negb (String.eqb s "")
        then filter (λ d, Device.status d = s) queryset else queryset
    | None => queryset
    end in
  let queryset :=
    match online with
    | Some online =>
        let cutoff := now - timedelta_minutes 5 in
        if String.eqb (str_lower online) "true"
        then filter (λ d, last_seen__gte cutoff d = true) queryset
        else filter (λ d, last_seen__lt cutoff d = true) queryset
    | None => queryset
    end in
  order_by (last_seen_before nulls_first) queryset.

(** [get_client_ip]: the text before the first comma of [X-Forwarded-For]
    when that header is present and not empty, [REMOTE_ADDR] otherwise. *)
Definition comma : Ascii.ascii := Ascii.ascii_of_nat 44.

Fixpoint before_comma (s : string) : string :=
  match s with
  | EmptyString => EmptyString
  | String c s => if Ascii.eqb c comma then EmptyString else String c (before_comma s)
  end.

Definition get_client_ip (META : gmap string string) : option string :=
  match META !! "HTTP_X_FORWARDED_FOR" with
  | Some x_forwarded_for =>
      if negb (String.eqb x_forwarded_for "")
      then Some (before_comma x_forwarded_for)
      else META !! "REMOTE_ADDR"
  | None => META !! "REMOTE_ADDR"
  end.

(** [device_stats]; [percentage online total] stands for the floating-point
    value of [online / total * 100]. *)
Definition device_stats (percentage : nat → nat → Json) (db : Store) (now : Z)
  : HttpResponse :=
  let total_devices := length (devices db) in
  let online_cutoff := now - timedelta_minutes 5 in
  let online_devices :=
    length (filter (λ d, last_seen__gte online_cutoff d = true) (devices db)) in
  let locked_devices :=
    length (filter (λ d, Device.is_locked d = true) (devices db)) in
  let offline_devices := Z.of_nat total_devices - Z.of_nat online_devices in
  mkResponse 200
    [("total_devices", JInt (Z.of_nat total_devices));
     ("online_devices", JInt (Z.of_nat online_devices));
     ("offline_devices", JInt offline_devices);
     ("locked_devices", JInt (Z.of_nat locked_devices));
     ("online_percentage",
      if Nat.ltb 0 total_devices then percentage online_devices total_devices
      else JInt 0)].

(** [DeviceActionListCreateView]: the list, newest first, with the query
    parameters [device] (when present, the number it spells), [action_type]
    and [status]. *)
Definition keep_if {A} (param : option string) (field : A → string) (l : list A)
  : list A :=
  match param with
  | Some v => if negb (String.eqb v "") then filter (λ x, field x = v) l else l
  | None => l
  end.


(** [DeviceActionCreateSerializer] and the POST of
    [DeviceActionListCreateView]; [create] adds [initiated_by], the other
    columns take their defaults.  Of the serialized action that the answer
    carries, the action type is kept. *)
Module ActionCreate.
Record t := mk {
  device : option nat;
  action_type : option string;
  reason : option string;
  metadata : option (gmap string Json)
}.
End ActionCreate.



(** [device.delete()]: the rows that point to the device through a foreign
    key declared [on_delete=CASCADE] go with it (token, actions, policy
    assignments, events, heartbeats), and so do its memberships in groups.
    The tables not kept in [Store] (unlock attempts, incidents, screenshots,
    evidence) cascade in the same way. *)
Definition Device_delete (device : Device.t) (db : Store) : Store :=
  let pk := Device.id device in
  mkStore (users db)
    (filter (λ d, Device.id d ≠ pk) (devices db))
    ((λ g, DeviceGroup.mk (DeviceGroup.id g) (DeviceGroup.name g)
             (filter (λ d, d ≠ pk) (DeviceGroup.devices g))) <$> device_groups db)
    (filter (λ t, DeviceToken.device t ≠ pk) (device_tokens db))
    (filter (λ a, DeviceAction.device a ≠ pk) (device_actions db))
    (policies db)
    (filter (λ a, PolicyAssignment.device a ≠ Some pk) (policy_assignments db))
    (filter (λ e, Event.device e ≠ Some pk) (events db))
    (filter (λ h, DeviceHeartbeat.device h ≠ pk) (device_heartbeats db)).

(** [DeviceDetailView], DELETE: the device is looked up by primary key. *)
Definition DeviceDetailView_delete (db : Store) (pk : nat) : Store * HttpResponse :=
  match get_device db pk with
  | None => (db, not_found)
  | Some device => (Device_delete device db, mkResponse 204 [])
  end.

(** ** Code that may raise and does not write *)

#[global] Instance Exc_ret : MRet (sum Exc) := λ A a, inr a.
#[global] Instance Exc_bind : MBind (sum Exc) := λ A B f r,
  match r with
  | inl e => inl e
  | inr a => f a
  end.
#[global] Instance Exc_fmap : FMap (sum Exc) := λ A B f r,
  match r with
  | inl e => inl e
  | inr a => inr (f a)
  end.

(** ** policies/views.py and policies/serializers.py: lists and display *)

(** [order_by('-priority', '-created_at')]. *)
Definition policy_before (p q : Policy.t) : bool :=
  (Policy.priority q <? Policy.priority p)
  || ((Policy.priority p =? Policy.priority q)
      && (Policy.created_at q <? Policy.created_at p)).

(** [PolicyListCreateView.get_queryset] with the query parameters [scope] and
    [is_active]. *)
Definition PolicyListCreateView_get_queryset (db : Store)
    (scope is_active : option string) : list Policy.t :=
  let queryset := keep_if scope Policy.scope (policies db) in
  let queryset :=
    match is_active with
    | Some is_active =>
        let is_active := String.eqb (str_lower is_active) "true" in
        filter (λ p, Policy.is_active p = is_active) queryset
    | None => queryset
    end in
  order_by policy_before queryset.

(** [PolicyAssignmentListCreateView.get_queryset] with the query parameters
    [policy] and [device] (when present, the numbers they spell). *)
Definition PolicyAssignmentListCreateView_get_queryset (db : Store)
    (policy device : option nat) : list PolicyAssignment.t :=
  let queryset := policy_assignments db in
  let queryset :=
    match policy with
    | Some p => filter (λ a, PolicyAssignment.policy a = p) queryset
    | None => queryset
    end in
  let queryset :=
    match device with
    | Some d => filter (λ a, PolicyAssignment.device a = Some d) queryset
    | None => queryset
    end in
  order_by_desc PolicyAssignment.assigned_at queryset.

(** [PolicyAssignmentDetailView], DELETE. *)
Definition PolicyAssignmentDetailView_delete (db : Store) (pk : nat)
  : Store * HttpResponse :=
  match find (λ a, Nat.eqb (PolicyAssignment.id a) pk) (policy_assignments db) with
  | None => (db, not_found)
  | Some _ =>
      (set_policy_assignments (filter (λ a, PolicyAssignment.id a ≠ pk)) db,
       mkResponse 204 [])
  end.

(** Following a foreign key that is not null. *)
Definition related {A} (row : option A) : Exc + A :=
  match row with Some a => inr a | None => inl DoesNotExist end.

(** [PolicyAssignmentSerializer.get_target_name] and [get_target_type]. *)
Definition get_target_name (db : Store) (obj : PolicyAssignment.t) : Exc + string :=
  match PolicyAssignment.device obj with
  | Some d => Device.name <$> related (get_device db d)
  | None =>
      match PolicyAssignment.device_group obj with
      | Some g => DeviceGroup.name <$> related (get_group db g)
      | None => inr "Unknown"
      end
  end.

Definition get_target_type (obj : PolicyAssignment.t) : string :=
  if bool_decide (is_Some (PolicyAssignment.device obj)) then "device"
  else if bool_decide (is_Some (PolicyAssignment.device_group obj)) then "group"
  else "unknown".

(** [PolicyAssignment.__str__]: [self.device_group.name] on a row without
    group reads an attribute of [None]. *)
Definition PolicyAssignment_str (db : Store) (self : PolicyAssignment.t) : Exc + string :=
  target ← match PolicyAssignment.device self with
           | Some d => Device.name <$> related (get_device db d)
           | None =>
               match PolicyAssignment.device_group self with
               | Some g => DeviceGroup.name <$> related (get_group db g)
               | None =>
                   inl (AttributeError "'NoneType' object has no attribute 'name'")
               end
           end;
  policy ← related (get_policy db (PolicyAssignment.policy self));
  inr (Policy.name policy +:+ " -> " +:+ target).

(** ** dashboard/views.py: assignments and lists *)

(** A loop whose body writes to the database and may raise. *)
Fixpoint for_each {A} (body : A → M unit) (l : list A) : M unit :=
  match l with
  | [] => mret tt
  | x :: l => body x ;; for_each body l
  end.

(** [Model.objects.get(...)]. *)
Definition objects_get {A} (lookup : Store → option A) : M A :=
  λ db, (db, related (lookup db)).

(** [PolicyAssignment.objects.create(policy=..., device=... or
    device_group=..., assigned_by=...)]: the database checks
    [unique_together]; [is_active] takes its default. *)
Definition PolicyAssignment_objects_create (policy : nat)
    (device device_group : option nat) (assigned_by : option nat) (now : Z)
  : M PolicyAssignment.t :=
  rows ← gets policy_assignments;
  if violates_unique_together rows None policy device device_group
  then raise (IntegrityError "UNIQUE constraint failed: policy_assignments")
  else
    let row := PolicyAssignment.mk (next_pk (PolicyAssignment.id <$> rows)) policy
                 device device_group now assigned_by true in
    modify (set_policy_assignments (λ l, l ++ [row])) ;; mret row.

(** The body of a POST to [api_policy_assignments]. *)
Module AssignmentsBody.
Record t := mk {
  policy_id : option nat;
  devices : option (list nat);
  groups : option (list nat)
}.
End AssignmentsBody.

(** [api_policy_assignments], POST.  The view runs outside a transaction
    (Django's default, autocommit): what was written before an exception
    stays written. *)
Definition api_policy_assignments_post (db : Store) (user : User.t)
    (data : AssignmentsBody.t) (now : Z) : Store * HttpResponse :=
  let run : M unit :=
    policy_id ← lift (match AssignmentsBody.policy_id data with
                      | Some p => inr p
                      | None => inl (KeyError "policy_id")
                      end);
    let device_ids := default [] (AssignmentsBody.devices data) in
    let group_ids := default [] (AssignmentsBody.groups data) in
    policy ← objects_get (λ db, get_policy db policy_id);
    modify (set_policy_assignments
              (filter (λ a, PolicyAssignment.policy a ≠ Policy.id policy))) ;;
    for_each (λ device_id,
        device ← objects_get (λ db, get_device db device_id);
        PolicyAssignment_objects_create (Policy.id policy) (Some (Device.id device))
          None (Some (User.id user)) now ;;
        mret tt) device_ids ;;
    for_each (λ group_id,
        group ← objects_get (λ db, get_group db group_id);
        PolicyAssignment_objects_create (Policy.id policy) None
          (Some (DeviceGroup.id group)) (Some (User.id user)) now ;;
        mret tt) group_ids in
  match run db with
  | (db', inr _) =>
      (db', mkResponse 200 [("success", JBool true);
                            ("message", JStr "Policy assignments saved successfully")])
  | (db', inl e) =>
      (db', mkResponse 400 [("success", JBool false); ("error", JStr (exc_str e))])
  end.

(** Names that can be read on a [Device] instance: the fields, the column
    names of the foreign key, the properties, the methods and the reverse
    relations of [devices/models.py] and of the models that point to it.
    What every Django model has besides ([save], [delete], [objects], ...)
    is left out; the modelled views read none of it. *)
Definition Device_attributes : list string :=
  ["id"; "pk"; "device_id"; "name"; "hostname"; "owner_user"; "owner_user_id";
   "ip_address"; "mac_address"; "os_version"; "agent_version"; "status";
   "is_locked"; "last_seen"; "registered_at"; "last_lock_time";
   "last_unlock_time"; "hardware_info"; "location"; "department"; "is_active";
   "is_online"; "uptime_percentage"; "update_heartbeat"; "lock_screen";
   "unlock_screen"; "restart_device"; "take_screenshot"; "get_status_display";
   "groups"; "token"; "actions"; "policy_assignments"; "events";
   "unlock_attempts"; "heartbeats"; "security_incidents"; "screenshots";
   "forensic_evidence"].

(** The same for a [DeviceAction]. *)
Definition DeviceAction_attributes : list string :=
  ["id"; "pk"; "device"; "device_id"; "action_type"; "initiated_by";
   "initiated_by_id"; "status"; "reason"; "metadata"; "created_at";
   "updated_at"; "completed_at"; "mark_completed"; "mark_failed";
   "get_action_type_display"; "get_status_display"].

(** Reading the attribute [name], whose value is [value] when it exists. *)
Definition read_attr (class : string) (attributes : list string) (name : string)
    {A} (value : A) : Exc + A :=
  if bool_decide (name ∈ attributes) then inr value
  else inl (AttributeError
              ("'" +:+ class +:+ "' object has no attribute '" +:+ name +:+ "'")).

(** [x or y] on strings. *)
Definition str_or (x y : string) : string := if String.eqb x "" then y else x.

Section Lists.

(** The collation of the database on host names, the text of a date
    ([isoformat]) and the calendar day of an instant in the current time
    zone ([.date()] and the lookup [__date]). *)
Variable hostname_before : string → string → bool.
Variable isoformat : Z → string.
Variable date_of : Z → Z.

(** One entry of [api_devices_list]; the dictionary display evaluates its
    values in the order written. *)
Definition device_entry (device : Device.t) (now : Z) : Exc + list (string * Json) :=
  id ← read_attr "Device" Device_attributes "id" (Device.id device);
  name ← read_attr "Device" Device_attributes "name" (Device.name device);
  hostname ← read_attr "Device" Device_attributes "hostname" (Device.hostname device);
  is_online ← read_attr "Device" Device_attributes "is_online"
                (devices_models.is_online device now);
  operating_system ← read_attr "Device" Device_attributes "operating_system" JNull;
  last_seen ← read_attr "Device" Device_attributes "last_seen" (Device.last_seen device);
  inr [("id", JInt (Z.of_nat id));
       ("name", JStr (str_or name hostname));
       ("hostname", JStr hostname);
       ("is_online", JBool is_online);
       ("operating_system", operating_system);
       ("last_seen", from_option (λ t, JStr (isoformat t)) JNull last_seen)].

Fixpoint collect {A B} (f : A → Exc + B) (l : list A) : Exc + list B :=
  match l with
  | [] => inr []
  | x :: l => y ← f x; ys ← collect f l; inr (y :: ys)
  end.

(** [api_devices_list]: the JSON list of the answer, or the exception that
    leaves the view. *)
Definition api_devices_list (db : Store) (now : Z)
  : Exc + list (list (string * Json)) :=
  let devices := order_by (λ a b, hostname_before (Device.hostname a) (Device.hostname b))
                   (devices db) in
  collect (λ device, device_entry device now) devices.

(** [select_related('device', 'initiated_by')] on actions: the inner join
    with the device, which the foreign key requires, and the outer join with
    the user, which it does not. *)
Definition select_related_device (db : Store) (action : DeviceAction.t)
  : option (DeviceAction.t * Device.t * option User.t) :=
  device ← get_device db (DeviceAction.device action);
  Some (action, device,
        u ← DeviceAction.initiated_by action;
        find (λ r, Nat.eqb (User.id r) u) (users db)).

(** [action.initiated_by.username if action.initiated_by else 'System']. *)
Definition initiator (initiated_by : option User.t) : string :=
  from_option User.username "System" initiated_by.

(** [action_detail_api]: the answer, or the exception that leaves the view;
    only [DeviceAction.DoesNotExist] is caught. *)
Definition action_detail_api (db : Store) (action_id : nat) : Exc + HttpResponse :=
  match omap (select_related_device db)
          (filter (λ a, DeviceAction.id a = action_id) (device_actions db)) with
  | [] => inr (mkResponse 404 [("error", JStr "Action not found")])
  | (action, device, initiated_by) :: _ =>
      id ← read_attr "DeviceAction" DeviceAction_attributes "id" (DeviceAction.id action);
      name ← read_attr "Device" Device_attributes "name" (Device.name device);
      hostname ← read_attr "Device" Device_attributes "hostname" (Device.hostname device);
      device_uuid ← read_attr "Device" Device_attributes "device_uuid" JNull;
      action_type ← read_attr "DeviceAction" DeviceAction_attributes "action_type"
                      (DeviceAction.action_type action);
      status ← read_attr "DeviceAction" DeviceAction_attributes "status"
                 (DeviceAction.status action);
      created_at ← read_attr "DeviceAction" DeviceAction_attributes "created_at"
                     (DeviceAction.created_at action);
      sent_at ← read_attr "DeviceAction" DeviceAction_attributes "sent_at" JNull;
      acknowledged_at ← read_attr "DeviceAction" DeviceAction_attributes
                          "acknowledged_at" JNull;
      completed_at ← read_attr "DeviceAction" DeviceAction_attributes "completed_at"
                       (DeviceAction.completed_at action);
      error_message ← read_attr "DeviceAction" DeviceAction_attributes
                        "error_message" JNull;
      result_data ← read_attr "DeviceAction" DeviceAction_attributes "result_data" JNull;
      parameters ← read_attr "DeviceAction" DeviceAction_attributes "parameters" JNull;
      inr (mkResponse 200
             [("id", JInt (Z.of_nat id));
              ("device_name", JStr (str_or name hostname));
              ("device_hostname", JStr hostname);
              ("device_uuid", device_uuid);
              ("action_type", JStr action_type);
              ("status", JStr status);
              ("initiated_by", JStr (initiator initiated_by));
              ("created_at", JStr (isoformat created_at));
              ("sent_at", sent_at);
              ("acknowledged_at", acknowledged_at);
              ("completed_at", from_option (λ t, JStr (isoformat t)) JNull completed_at);
              ("error_message", error_message);
              ("result_data", result_data);
              ("parameters", parameters)])
  end.

(** [actions_api]: the fifty newest actions and the statistics of the day,
    or the exception that leaves the view.  A query set that has been sliced
    refuses [filter]. *)
Inductive ActionsResponse :=
| ActionsOk (actions : list (list (string * Json))) (statistics : list (string * Json))
    (timestamp : string)
| ActionsError (e : Exc).

Definition filter_sliced (param : option string) : Exc + unit :=
  match param with
  | Some v =>
      if negb (String.eqb v "")
      then inl (TypeError "Cannot filter a query once a slice has been taken.")
      else inr tt
  | None => inr tt
  end.

Definition action_entry (row : DeviceAction.t * Device.t * option User.t)
  : Exc + list (string * Json) :=
  let '(action, device, initiated_by) := row in
  id ← read_attr "DeviceAction" DeviceAction_attributes "id" (DeviceAction.id action);
  name ← read_attr "Device" Device_attributes "name" (Device.name device);
  hostname ← read_attr "Device" Device_attributes "hostname" (Device.hostname device);
  action_type ← read_attr "DeviceAction" DeviceAction_attributes "action_type"
                  (DeviceAction.action_type action);
  status ← read_attr "DeviceAction" DeviceAction_attributes "status"
             (DeviceAction.status action);
  created_at ← read_attr "DeviceAction" DeviceAction_attributes "created_at"
                 (DeviceAction.created_at action);
  completed_at ← read_attr "DeviceAction" DeviceAction_attributes "completed_at"
                   (DeviceAction.completed_at action);
  error_message ← read_attr "DeviceAction" DeviceAction_attributes "error_message" JNull;
  result_data ← read_attr "DeviceAction" DeviceAction_attributes "result_data" JNull;
  inr [("id", JInt (Z.of_nat id));
       ("device_name", JStr (str_or name hostname));
       ("device_hostname", JStr hostname);
       ("action_type", JStr action_type);
       ("status", JStr status);
       ("initiated_by", JStr (initiator initiated_by));
       ("created_at", JStr (isoformat created_at));
       ("completed_at", from_option (λ t, JStr (isoformat t)) JNull completed_at);
       ("error_message", error_message);
       ("result_data", result_data)].

Definition count_actions (P : DeviceAction.t → bool) (db : Store) : Json :=
  JInt (Z.of_nat (length (filter (λ a, P a = true) (device_actions db)))).

Definition actions_api (db : Store) (action_type status : option string) (now : Z)
  : ActionsResponse :=
  let actions_list :=
    take 50 (omap (select_related_device db)
               (order_by_desc DeviceAction.created_at (device_actions db))) in
  let run : Exc + list (list (string * Json)) :=
    filter_sliced action_type ;;
    filter_sliced status ;;
    collect action_entry actions_list in
  match run with
  | inl e => ActionsError e
  | inr actions_data =>
      let today := date_of now in
      ActionsOk actions_data
        [("total_actions", JInt (Z.of_nat (length (device_actions db))));
         ("pending_actions",
          count_actions (λ a, bool_decide (DeviceAction.status a
                                             ∈ ["pending"; "sent"; "acknowledged"])) db);
         ("completed_today",
          count_actions (λ a, (date_of (DeviceAction.created_at a) =? today)
                              && String.eqb (DeviceAction.status a) "completed") db);
         ("failed_today",
          count_actions (λ a, (date_of (DeviceAction.created_at a) =? today)
                              && bool_decide (DeviceAction.status a
                                                ∈ ["failed"; "timeout"])) db)]
        (isoformat now)
  end.

End Lists.

(** * Notions used in the statements *)

(** A computation that raises from every database. *)
Definition always_raises {A} (m : M A) : Prop :=
  ∀ db, ∃ db' e, m db = (db', inl e).



Definition with_device (pk : nat) (f : Device.t → Device.t) (db : Store) : Store :=
  mkStore (users db)
    ((λ row, if Nat.eqb (Device.id row) pk then f row else row) <$> devices db)
    (device_groups db) (device_tokens db) (device_actions db)
    (policies db) (policy_assignments db) (events db) (device_heartbeats db).





(** The texts of a body are those that the fields of the serializer work
    on: [trim_whitespace] has stripped the blanks at both ends. *)
Definition trimmed_text (v : option string) : bool :=
  match v with
  | Some s => trimmed s
  | None => true
  end.

Definition registration_trimmed (data : devices_serializers.registration) : bool :=
  trimmed_text (devices_serializers.name data)
  && trimmed_text (devices_serializers.hostname data)
  && trimmed_text (devices_serializers.ip_address data)
  && trimmed_text (devices_serializers.mac_address data)
  && trimmed_text (devices_serializers.os_version data)
  && trimmed_text (devices_serializers.reg_agent_version data)
  && trimmed_text (devices_serializers.location data)
  && trimmed_text (devices_serializers.department data)
  && trimmed_text (devices_serializers.pairing_token data).

Definition heartbeat_trimmed (data : devices_serializers.heartbeat_data) : bool :=
  trimmed_text (devices_serializers.status data)
  && trimmed_text (devices_serializers.agent_version data).

(** The row that [DeviceCreateSerializer.create] inserts. *)
Definition registered_device (db : Store) (data : devices_serializers.registration)
    (uuid : N) (now : Z) : Device.t :=
  Device.mk (next_pk (Device.id <$> devices db)) uuid
    (default "" (devices_serializers.name data))
    (default "" (devices_serializers.hostname data))
    (devices_serializers.ip_address data)
    (default "" (devices_serializers.mac_address data))
    (default "" (devices_serializers.os_version data))
    (default "" (devices_serializers.reg_agent_version data))
    "offline" false None now None None
    (default ∅ (devices_serializers.hardware_info data))
    (default "" (devices_serializers.location data))
    (default "" (devices_serializers.department data))
    true.

(** The device object after the assignments of [device_heartbeat]. *)
Definition after_heartbeat (device : Device.t)
    (data : devices_serializers.heartbeat_data) (now : Z) : Device.t :=
  Device.set_last_seen (Some now)
    (Device.set_is_locked (default false (devices_serializers.is_locked data))
      (Device.set_status (default "online" (devices_serializers.status data))
         device)).

(** The row of [DeviceHeartbeat] written for a heartbeat. *)
Definition heartbeat_row (device : Device.t)
    (data : devices_serializers.heartbeat_data) (now : Z) : DeviceHeartbeat.t :=
  DeviceHeartbeat.mk (Device.id device) now
    (default "online" (devices_serializers.status data))
    (default false (devices_serializers.is_locked data))
    (devices_serializers.float_column (devices_serializers.cpu_usage data))
    (devices_serializers.float_column (devices_serializers.memory_usage data))
    (devices_serializers.float_column (devices_serializers.disk_usage data))
    (default "" (devices_serializers.agent_version data))
    (default ∅ (devices_serializers.metadata data)).

(** An assignment with exactly one target. *)
Definition one_target (a : PolicyAssignment.t) : Prop :=
  (is_Some (PolicyAssignment.device a) ∧ PolicyAssignment.device_group a = None)
  ∨ (PolicyAssignment.device a = None ∧ is_Some (PolicyAssignment.device_group a)).

(** Rows come by descending key. *)
Definition descending {A} (key : A → Z) : list A → Prop :=
  StronglySorted (λ x y, key y ≤ key x).

(** The policy of an active assignment that targets the device, and the
    policy of an active assignment that targets a group with the device among
    its members.  Both are read off the tables: the policy is a row of
    [policies] whose key the assignment names, the group a row of
    [device_groups]. *)
Definition assigned_to_device (db : Store) (device : Device.t) (p : Policy.t)
  : Prop :=
  ∃ a, a ∈ policy_assignments db
       ∧ PolicyAssignment.device a = Some (Device.id device)
       ∧ PolicyAssignment.is_active a = true
       ∧ p ∈ policies db
       ∧ Policy.id p = PolicyAssignment.policy a.

Definition assigned_to_group_of (db : Store) (device : Device.t) (p : Policy.t)
  : Prop :=
  ∃ a grp, a ∈ policy_assignments db
       ∧ grp ∈ device_groups db
       ∧ PolicyAssignment.device_group a = Some (DeviceGroup.id grp)
       ∧ Device.id device ∈ DeviceGroup.devices grp
       ∧ PolicyAssignment.is_active a = true
       ∧ p ∈ policies db
       ∧ Policy.id p = PolicyAssignment.policy a.

(** The candidates of the three tiers: in the first two, the policy of such
    an assignment when the policy is active itself. *)
Definition device_candidate (db : Store) (device : Device.t) (p : Policy.t) : Prop :=
  assigned_to_device db device p ∧ Policy.is_active p = true.

Definition group_candidate (db : Store) (device : Device.t) (p : Policy.t) : Prop :=
  assigned_to_group_of db device p ∧ Policy.is_active p = true.

Definition global_candidate (db : Store) (p : Policy.t) : Prop :=
  p ∈ policies db ∧ Policy.scope p = "global" ∧ Policy.is_active p = true.

(** [unique_together = ('policy', 'device')]: no two rows with the same policy
    and the same non-null device. *)
Definition unique_policy_device (rows : list PolicyAssignment.t) : Prop :=
  NoDup (omap (λ a, d ← PolicyAssignment.device a;
                    Some (PolicyAssignment.policy a, d)) rows).

(** The policies of [l] appended by the loops of [device_policy] to the list
    [seen]: those whose primary key is not yet in the list. *)
Fixpoint fresh_from (seen l : list Policy.t) : list Policy.t :=
  match l with
  | [] => []
  | p :: l =>
      if policies_views.policy_in p seen then fresh_from seen l
      else p :: fresh_from (seen ++ [p]) l
  end.

(** The device as [lock_screen] stores it. *)
Definition locked_at (now : Z) (d : Device.t) : Device.t :=
  Device.set_status "locked"
    (Device.set_last_lock_time (Some now) (Device.set_is_locked true d)).

Definition save_locked (device : Device.t) (now : Z) (db : Store) : Store :=
  set_devices
    (map (λ row, if Nat.eqb (Device.id row) (Device.id device)
                 then locked_at now row else row)) db.

(** No row comes after a row that the ordering puts strictly behind it. *)
Definition ordered {A} (before : A → A → bool) : list A → Prop :=
  StronglySorted (λ x y, before y x = false).

(** A row that [api_policy_assignments] created for [policy] at [now] on
    behalf of [user]. *)
Definition assigned_by_request (policy : nat) (user : User.t) (now : Z)
    (a : PolicyAssignment.t) : Prop :=
  PolicyAssignment.policy a = policy ∧ PolicyAssignment.assigned_at a = now
  ∧ PolicyAssignment.assigned_by a = Some (User.id user)
  ∧ PolicyAssignment.is_active a = true.

(** The tables other than that of the assignments are the same. *)
Definition same_but_assignments (db db' : Store) : Prop :=
  db' = set_policy_assignments (λ _, policy_assignments db') db.

(** The body that the two loops of [api_policy_assignments] share: look the
    row of an identifier up, then create the assignment of the policy to
    it. *)
Definition assign_target {T} (lookup : Store → nat → option T) (pk : T → nat)
    (device device_group : nat → option nat) (policy : nat) (user : User.t) (now : Z)
    (x : nat) : M unit :=
  o ← objects_get (λ db, lookup db x);
  PolicyAssignment_objects_create policy (device (pk o)) (device_group (pk o))
    (Some (User.id user)) now ;;
  mret tt.

(** Referential integrity towards the devices: every foreign key to a device
    names a device of the table. *)
Definition device_refs_exist (db : Store) : Prop :=
  let known d := d ∈ Device.id <$> devices db in
  Forall (λ g, Forall known (DeviceGroup.devices g)) (device_groups db)
  ∧ Forall (λ t, known (DeviceToken.device t)) (device_tokens db)
  ∧ Forall (λ a, known (DeviceAction.device a)) (device_actions db)
  ∧ Forall (λ a, ∀ d, PolicyAssignment.device a = Some d → known d)
      (policy_assignments db)
  ∧ Forall (λ e, ∀ d, Event.device e = Some d → known d) (events db)
  ∧ Forall (λ h, known (DeviceHeartbeat.device h)) (device_heartbeats db).

(** * Sample data *)

Module Fixtures.

Definition admin : User.t := User.mk 1 "alice" "superadmin".

(** A workstation registered at instant 1000 and seen at instant 5000. *)
Definition pc1 : Device.t :=
  Device.mk 1 101 "PC-1" "pc1.corp" (Some "10.0.0.5") "AA:BB:CC:DD:EE:01"
    "Windows 11" "1.0.0" "online" false (Some 5000) 1000 None None
    {["cpu" := JStr "i7"]} "HQ" "IT" true.

Definition db_one_device : Store :=
  mkStore [admin] [pc1] [] [] [] [] [] [] [].



(** Two policies of equal priority, [strict] created before [relaxed]. *)
Definition strict : Policy.t :=
  Policy.mk 1 "Strict" "" "device" 60 true "Win+Alt+S" true false 3 15
    default_lock_message true true false true 90 60 true true true 5 100 100.

Definition relaxed : Policy.t :=
  Policy.mk 2 "Relaxed" "" "device" 900 true "Win+Alt+S" true false 5 5
    default_lock_message true true false true 90 60 true true true 5 200 200.

(** [strict] is assigned to [pc1] by an active assignment. *)
Definition strict_on_pc1 : PolicyAssignment.t :=
  PolicyAssignment.mk 1 1 (Some 1%nat) None 150 (Some 1%nat) true.

Definition db_assigned : Store :=
  mkStore [admin] [pc1] [] [] [] [strict] [strict_on_pc1] [] [].

(** A registration that repeats the host name and MAC address of [pc1]. *)
Definition pc1_again : devices_serializers.registration :=
  devices_serializers.mk_registration (Some "PC-1 (reinstalled)") (Some "pc1.corp")
    None (Some "AA:BB:CC:DD:EE:01") (Some "Windows 11") None None None None None.

(** A heartbeat of [pc1] that reports the screen locked and carries one
    entry of free-form metadata. *)
Definition beat_locked : devices_serializers.heartbeat_data :=
  devices_serializers.mk_heartbeat (Some "locked") (Some true)
    (Some (Some (FNum 25 (-1)))) None None
    (Some "1.0.1") (Some {["ram" := JStr "16GB"]}).

(** The assignment of [relaxed] to [pc1], made after that of [strict]. *)
Definition relaxed_on_pc1 : PolicyAssignment.t :=
  PolicyAssignment.mk 2 2 (Some 1%nat) None 250 (Some 1%nat) true.

(** Both policies assigned to [pc1] directly. *)
Definition db_tie : Store :=
  mkStore [admin] [pc1] [] [] [] [strict; relaxed] [strict_on_pc1; relaxed_on_pc1]
    [] [].

(** The same two policies assigned in the other order: the row of [relaxed]
    is stored first. *)
Definition db_tie_swapped : Store :=
  mkStore [admin] [pc1] [] [] [] [strict; relaxed]
    [PolicyAssignment.mk 1 2 (Some 1%nat) None 250 (Some 1%nat) true;
     PolicyAssignment.mk 2 1 (Some 1%nat) None 260 (Some 1%nat) true]
    [] [].

(** A group with [pc1] as its member and an empty one, [strict] on the device
    and [relaxed] on the first group. *)
Definition office : DeviceGroup.t := DeviceGroup.mk 1 "Office" [1%nat].

Definition lab : DeviceGroup.t := DeviceGroup.mk 2 "Lab" [].

Definition relaxed_on_office : PolicyAssignment.t :=
  PolicyAssignment.mk 2 2 None (Some 1%nat) 250 (Some 1%nat) true.

(** A global policy of high priority. *)
Definition baseline : Policy.t :=
  Policy.mk 3 "Baseline" "" "global" 300 true "Win+Alt+S" true false 3 15
    default_lock_message true true false true 90 60 true true true 100 50 50.

Definition db_fleet : Store :=
  mkStore [admin] [pc1] [office; lab] [] [] [strict; relaxed; baseline]
    [strict_on_pc1; relaxed_on_office] [] [].

(** [strict] after it was made inactive; its assignment to [pc1] is still
    active. *)
Definition retired : Policy.t :=
  Policy.mk 1 "Strict" "" "device" 60 true "Win+Alt+S" true false 3 15
    default_lock_message true true false true 90 60 true true false 5 100 100.

Definition db_retired : Store :=
  mkStore [admin] [pc1] [] [] [] [retired; baseline] [strict_on_pc1] [] [].

(** A request body for a policy with an idle timeout of five seconds and no
    unlock attempt allowed. *)
Definition five_seconds : PolicyData.t :=
  PolicyData.mk (Some "Kiosk") None (Some "global") (Some 5) None None None None
    (Some 0) None None None None None None None None None None None None.

End Fixtures.

(** Further sample data. *)
Module Samples.




(** [strict] assigned to [pc1]; a request then names a device that does not
    exist. *)
Definition unknown_device : AssignmentsBody.t :=
  AssignmentsBody.mk (Some 1%nat) (Some [7%nat]) None.

(** A request that assigns [strict] to the group [office] alone. *)
Definition to_office : AssignmentsBody.t :=
  AssignmentsBody.mk (Some 1%nat) None (Some [1%nat]).

(** The request headers of a client behind two proxies. *)
Definition forwarded : gmap string string :=
  {["HTTP_X_FORWARDED_FOR" := "203.0.113.7, 10.0.0.1"; "REMOTE_ADDR" := "10.0.0.1"]}.

End Samples.

(** * Properties *)

(** ** Presence: [Device.is_online] *)

Section Presence.

Import devices_models.

Lemma five_minutes : timedelta_minutes 5 = 300000000.
Proof. reflexivity. Qed.

Lemma is_online_never_seen (d : Device.t) (now : Z) :
  Device.last_seen d = None → is_online d now = false.
Proof. unfold is_online. by intros ->. Qed.

Lemma is_online_seen (d : Device.t) (now last_seen : Z) :
  Device.last_seen d = Some last_seen →
  is_online d now = bool_decide (now - last_seen < timedelta_minutes 5).
Proof.
  unfold is_online. intros ->.
  destruct (Z.ltb_spec (now - last_seen) (timedelta_minutes 5)) as [Hlt|Hge].
  - by rewrite bool_decide_eq_true_2.
  - rewrite bool_decide_eq_false_2; [done | lia].
Qed.

End Presence.

(** C3.  A device is online at [now] exactly when it has a last heartbeat and
    [now - last_seen] is strictly below five minutes.  At the boundary,
    [now - last_seen] equal to five minutes, it is offline.  The threshold is
    the constant 300000000 microseconds: [is_online] reads the row of the
    device and the clock and nothing else, so two devices with the same
    [last_seen] are classified alike whatever policy applies to them. *)
Theorem C3_is_online_five_minutes (d : Device.t) (now : Z) :
  (devices_models.is_online d now = true ↔
     ∃ last_seen, Device.last_seen d = Some last_seen
                  ∧ now - last_seen < 5 * 60 * 1000000)
  ∧ (∀ last_seen, Device.last_seen d = Some last_seen →
       devices_models.is_online d (last_seen + 5 * 60 * 1000000) = false)
  ∧ (∀ d', Device.last_seen d' = Device.last_seen d →
       devices_models.is_online d' now = devices_models.is_online d now).
Proof.
  change (5 * 60 * 1000000) with (timedelta_minutes 5).
  split; [|split].
  - split.
    + destruct (Device.last_seen d) as [t|] eqn:Hseen.
      * rewrite (is_online_seen d now t Hseen). intros H%bool_decide_eq_true. eauto.
      * by rewrite (is_online_never_seen d now Hseen).
    + intros (t & Hseen & Hlt). rewrite (is_online_seen d now t Hseen).
      by apply bool_decide_eq_true_2.
  - intros t Hseen. rewrite (is_online_seen d _ t Hseen).
    apply bool_decide_eq_false_2. lia.
  - intros d' Heq. unfold devices_models.is_online. by rewrite Heq.
Qed.

(** ** The state-and-exception monad *)

Lemma bind_raises {A B} (m : M A) (f : A → M B) db db' e :
  m db = (db', inl e) → (m ≫= f) db = (db', inl e).
Proof. unfold mbind, M_bind. by intros ->. Qed.

Lemma bind_returns {A B} (m : M A) (f : A → M B) db db' a :
  m db = (db', inr a) → (m ≫= f) db = f a db'.
Proof. unfold mbind, M_bind. by intros ->. Qed.

Lemma bind_cases {A B} (m : M A) (f : A → M B) db :
  (∃ db' e, m db = (db', inl e) ∧ (m ≫= f) db = (db', inl e))
  ∨ (∃ db' a, m db = (db', inr a) ∧ (m ≫= f) db = f a db').
Proof.
  destruct (m db) as [db' [e|a]] eqn:Hm.
  - left. exists db', e. split; [done|]. by apply bind_raises.
  - right. exists db', a. split; [done|]. by apply bind_returns.
Qed.

Lemma bind_raises_first {A B} (m : M A) (f : A → M B) :
  always_raises m → always_raises (m ≫= f).
Proof.
  intros Hm db. destruct (Hm db) as (db' & e & He).
  exists db', e. by apply bind_raises.
Qed.

Lemma bind_raises_after {A B} (m : M A) (f : A → M B) :
  (∀ a, always_raises (f a)) → always_raises (m ≫= f).
Proof.
  intros Hf db.
  destruct (bind_cases m f db) as [(db' & e & _ & ->)|(db' & a & _ & ->)]; [by eauto|].
  apply Hf.
Qed.

(** A key is found by the scan of [save] exactly when it is a key of the
    table. *)
Lemma existsb_pk {A} (key : A → nat) (rows : list A) pk :
  existsb (λ row, Nat.eqb (key row) pk) rows = bool_decide (pk ∈ key <$> rows).
Proof.
  induction rows as [|row rows IH]; [done|].
  rewrite fmap_cons. cbn [existsb]. rewrite IH.
  destruct (Nat.eqb_spec (key row) pk) as [<-|Hne]; simpl.
  - symmetry. apply bool_decide_eq_true_2. by left.
  - apply bool_decide_ext. rewrite elem_of_cons.
    split; [by right|]. intros [->|?]; done.
Qed.

(** ** Lock and unlock commands *)

Section Commands.

Import devices_models devices_views events_models.

Lemma details_is_no_Event_field :
  ("details" ∉ Event_fields) ∧ ("message" ∈ Event_fields).
Proof. split; apply (bool_decide_unpack _); vm_compute; done. Qed.

Lemma unexpected_kwargs_elem fields (kwargs : list (string * PyVal)) k :
  k ∈ kwargs.*1 → k ∉ fields → unexpected_kwargs fields kwargs ≠ [].
Proof.
  intros Hin Hnot Hnil.
  assert (k ∈ unexpected_kwargs fields kwargs) as Hk
    by (unfold unexpected_kwargs; by apply list_elem_of_filter).
  rewrite Hnil in Hk. by apply not_elem_of_nil in Hk.
Qed.

(** An [Event] built with a [details] keyword is never stored. *)
Lemma Event_objects_create_details kwargs now db :
  "details" ∈ kwargs.*1 →
  ∃ e, Event_objects_create kwargs now db = (db, inl e).
Proof.
  intros Hin. unfold Event_objects_create.
  destruct (as_device_fk "Event.device" (kwarg "device" kwargs)) as [e|dev] eqn:Hdev.
  { exists e. by apply bind_raises. }
  erewrite bind_returns; [|done].
  destruct (as_user_fk "Event.user" (kwarg "user" kwargs)) as [e|usr] eqn:Husr.
  { exists e. by apply bind_raises. }
  erewrite bind_returns; [|done].
  destruct (unexpected_kwargs Event_fields kwargs) as [|k rest] eqn:Hun.
  - exfalso.
    eapply unexpected_kwargs_elem; [exact Hin | apply details_is_no_Event_field | done].
  - eauto.
Qed.

Lemma lock_screen_raises self reason admin_user now :
  always_raises (lock_screen self reason admin_user now).
Proof.
  unfold lock_screen.
  apply bind_raises_after; intros _.
  apply bind_raises_after; intros _.
  apply bind_raises_first. intros db.
  edestruct (Event_objects_create_details) as [e He]; [|by eauto].
  simpl. set_solver.
Qed.

Lemma unlock_screen_raises self admin_user now :
  always_raises (unlock_screen self admin_user now).
Proof.
  unfold unlock_screen.
  apply bind_raises_after; intros _.
  apply bind_raises_after; intros _.
  apply bind_raises_first. intros db.
  edestruct (Event_objects_create_details) as [e He]; [|by eauto].
  simpl. set_solver.
Qed.

End Commands.

(** C10.  For an existing device and a caller whose role passes the
    permission check, [device_lock] and [device_unlock] answer 500.  Every
    call of [Device.lock_screen] and of [Device.unlock_screen] raises: both
    build an [Event] with the keyword [details], which is no field of the
    model (the field is [message]).  The view passes [(request.user, reason)]
    positionally, which binds the user to the parameter [reason] of
    [lock_screen] and the reason to [admin_user]. *)
Theorem C10_lock_unlock_answer_500 (db : Store) (user : User.t)
    (data : gmap string Json) (device_id : N) (now : Z) :
  is_Some (get_device_by_uuid db device_id) →
  User.role user ∈ ["superadmin"; "security"; "it_admin"] →
  status_code (devices_views.device_lock db user data device_id now).2 = 500%nat
  ∧ status_code (devices_views.device_unlock db user data device_id now).2 = 500%nat
  ∧ (∀ self reason admin_user,
       always_raises (devices_models.lock_screen self reason admin_user now))
  ∧ (∀ self admin_user,
       always_raises (devices_models.unlock_screen self admin_user now))
  ∧ ("details" ∉ events_models.Event_fields)
  ∧ ("message" ∈ events_models.Event_fields)
  ∧ (∀ self reason,
       devices_models.call_lock_screen self [PyUser user; PyJson reason] now
       = devices_models.lock_screen self (PyUser user) (PyJson reason) now).
Proof.
  intros [device Hdev] Hrole.
  repeat split.
  - unfold devices_views.device_lock, devices_views.command_view.
    rewrite Hdev. rewrite bool_decide_eq_false_2 by (by intros ?).
    set (reason := default _ _).
    destruct (lock_screen_raises device (PyUser user) (PyJson reason) now db)
      as (db' & e & He).
    erewrite bind_raises; [done|].
    unfold devices_models.call_lock_screen. simpl. exact He.
  - unfold devices_views.device_unlock, devices_views.command_view.
    rewrite Hdev. rewrite bool_decide_eq_false_2 by (by intros ?).
    reflexivity.
  - intros. apply lock_screen_raises.
  - intros. apply unlock_screen_raises.
  - apply details_is_no_Event_field.
  - apply details_is_no_Event_field.
Qed.

(** The theorem on [db_one_device] with the administrator [admin]. *)
Lemma C10_lock_unlock_answer_500_witness :
  status_code (devices_views.device_lock Fixtures.db_one_device Fixtures.admin
                 ∅ 101 6000).2 = 500%nat
  ∧ status_code (devices_views.device_unlock Fixtures.db_one_device Fixtures.admin
                   ∅ 101 6000).2 = 500%nat.
Proof.
  destruct (C10_lock_unlock_answer_500 Fixtures.db_one_device Fixtures.admin
              ∅ 101 6000) as (Hlock & Hunlock & _).
  - vm_compute. eauto.
  - vm_compute. set_solver.
  - split; [exact Hlock | exact Hunlock].
Defined.

(** ** The life cycle of a device action *)

Section Actions.

Import devices_models devices_views.






End Actions.




(** ** Deleting a policy *)

Section PolicyDeletion.

Lemma get_policy_id db pk p : get_policy db pk = Some p → Policy.id p = pk.
Proof.
  unfold get_policy. intros H%find_some. destruct H as [_ H].
  by apply Nat.eqb_eq in H.
Qed.

Lemma get_policy_elem db pk p : get_policy db pk = Some p → p ∈ policies db.
Proof.
  unfold get_policy. intros H%find_some. apply list_elem_of_In. tauto.
Qed.

Lemma get_policy_None db pk :
  get_policy db pk = None ↔ ∀ p, p ∈ policies db → Policy.id p ≠ pk.
Proof.
  unfold get_policy. split.
  - intros H p Hp%list_elem_of_In Heq.
    apply (find_none _ _ H) in Hp. apply Nat.eqb_neq in Hp. done.
  - intros H. destruct (find _ _) as [p|] eqn:Hf; [|done].
    apply find_some in Hf as [Hp%list_elem_of_In Heq%Nat.eqb_eq]. by apply H in Hp.
Qed.

(** What [policy.delete()] leaves. *)
Lemma Policy_delete_spec (policy : Policy.t) db :
  policies (Policy_delete policy db)
    = filter (λ p, Policy.id p ≠ Policy.id policy) (policies db)
  ∧ policy_assignments (Policy_delete policy db)
    = filter (λ a, PolicyAssignment.policy a ≠ Policy.id policy) (policy_assignments db)
  ∧ devices (Policy_delete policy db) = devices db
  ∧ device_groups (Policy_delete policy db) = device_groups db.
Proof. done. Qed.

End PolicyDeletion.

(** C4, as the code has it.  Deleting a policy that exists succeeds whether
    or not assignments point to it, through the dashboard endpoint (200) and
    through [PolicyDetailView] (204): the row of the policy is removed and,
    [PolicyAssignment.policy] being declared [on_delete=CASCADE], so is every
    assignment of that policy; the assignments of other policies stay. *)
Theorem C4_delete_cascades (db : Store) (pk : nat) :
  is_Some (get_policy db pk) →
  status_code (dashboard_views.api_policy_detail_delete db pk).2 = 200%nat
  ∧ status_code (policies_views.PolicyDetailView_delete db pk).2 = 204%nat
  ∧ (policies_views.PolicyDetailView_delete db pk).1
    = (dashboard_views.api_policy_detail_delete db pk).1
  ∧ get_policy (dashboard_views.api_policy_detail_delete db pk).1 pk = None
  ∧ policy_assignments (dashboard_views.api_policy_detail_delete db pk).1
    = filter (λ a, PolicyAssignment.policy a ≠ pk) (policy_assignments db)
  ∧ policies (dashboard_views.api_policy_detail_delete db pk).1
    = filter (λ p, Policy.id p ≠ pk) (policies db).
Proof.
  intros [policy Hget].
  unfold dashboard_views.api_policy_detail_delete, policies_views.PolicyDetailView_delete.
  rewrite Hget. simpl.
  rewrite (get_policy_id _ _ _ Hget).
  repeat split.
  apply get_policy_None. intros p Hp. simpl in Hp.
  apply list_elem_of_filter in Hp as [Hne _].
  by rewrite (get_policy_id _ _ _ Hget) in Hne.
Qed.

(** The theorem on [db_assigned]: the assignment of [strict] goes with it. *)
Lemma C4_delete_cascades_witness :
  status_code (dashboard_views.api_policy_detail_delete Fixtures.db_assigned 1).2
    = 200%nat
  ∧ policy_assignments (dashboard_views.api_policy_detail_delete Fixtures.db_assigned 1).1
    = [].
Proof.
  destruct (C4_delete_cascades Fixtures.db_assigned 1) as (H200 & _ & _ & _ & Has & _).
  - vm_compute. eauto.
  - split; [exact H200|]. rewrite Has. vm_compute. reflexivity.
Defined.

(** C4, counterexample.  The policy [strict] is referenced by an active
    assignment; its deletion is answered with success, and afterwards neither
    the policy nor the assignment is stored. *)
Lemma C4_referenced_policy_is_deleted :
  Fixtures.strict_on_pc1 ∈ policy_assignments Fixtures.db_assigned
  ∧ PolicyAssignment.policy Fixtures.strict_on_pc1 = Policy.id Fixtures.strict
  ∧ PolicyAssignment.is_active Fixtures.strict_on_pc1 = true
  ∧ (dashboard_views.api_policy_detail_delete Fixtures.db_assigned 1).2
    = mkResponse 200 [("success", JBool true);
                      ("message", JStr "Policy deleted successfully")]
  ∧ policies (dashboard_views.api_policy_detail_delete Fixtures.db_assigned 1).1 = []
  ∧ policy_assignments
      (dashboard_views.api_policy_detail_delete Fixtures.db_assigned 1).1 = [].
Proof. split; [set_solver|]. vm_compute. repeat split. Qed.

(** ** Registration *)

Section Registration.

Import devices_serializers devices_views events_models.

Lemma next_pk_above (ids : list nat) n : n ∈ ids → (n < next_pk ids)%nat.
Proof.
  unfold next_pk. induction ids as [|m ids IH]; [by intros ?%not_elem_of_nil|].
  intros [->|Hin]%elem_of_cons; simpl; [lia|]. specialize (IH Hin). lia.
Qed.

Lemma next_pk_new (ids : list nat) : next_pk ids ∉ ids.
Proof. intros Hin%next_pk_above. lia. Qed.

Lemma existsb_uuid (rows : list Device.t) uuid :
  existsb (λ d, N.eqb (Device.device_id d) uuid) rows
  = bool_decide (uuid ∈ Device.device_id <$> rows).
Proof.
  induction rows as [|row rows IH]; [done|].
  rewrite fmap_cons. cbn [existsb]. rewrite IH.
  destruct (N.eqb_spec (Device.device_id row) uuid) as [<-|Hne]; simpl.
  - symmetry. apply bool_decide_eq_true_2. by left.
  - apply bool_decide_ext. rewrite elem_of_cons.
    split; [by right|]. intros [->|?]; done.
Qed.

Lemma existsb_token (rows : list DeviceToken.t) token :
  existsb (λ t, String.eqb (DeviceToken.token t) token) rows
  = bool_decide (token ∈ DeviceToken.token <$> rows).
Proof.
  induction rows as [|row rows IH]; [done|].
  rewrite fmap_cons. cbn [existsb]. rewrite IH.
  destruct (String.eqb_spec (DeviceToken.token row) token) as [<-|Hne]; simpl.
  - symmetry. apply bool_decide_eq_true_2. by left.
  - apply bool_decide_ext. rewrite elem_of_cons.
    split; [by right|]. intros [->|?]; done.
Qed.

Lemma existsb_uuid_fresh (rows : list Device.t) uuid :
  uuid ∉ Device.device_id <$> rows →
  existsb (λ d, N.eqb (Device.device_id d) uuid) rows = false.
Proof. intros Hfresh. by rewrite existsb_uuid, bool_decide_eq_false_2. Qed.

Lemma existsb_token_fresh (rows : list DeviceToken.t) token :
  token ∉ DeviceToken.token <$> rows →
  existsb (λ t, String.eqb (DeviceToken.token t) token) rows = false.
Proof. intros Hfresh. by rewrite existsb_token, bool_decide_eq_false_2. Qed.

(** The three outcomes of a registration with valid fields: the UUID is in
    use and nothing is written; the device is stored and the token is in
    use; the device is stored and the request succeeds. *)
Lemma registration_cases valid_ip db user client_ip data uuid token now :
  registration_is_valid valid_ip data = true →
  if bool_decide (uuid ∈ Device.device_id <$> devices db) then
    (DeviceListCreateView_post valid_ip db user client_ip data uuid token now).1 = db
    ∧ status_code
        (DeviceListCreateView_post valid_ip db user client_ip data uuid token now).2
      = 500%nat
  else
    devices (DeviceListCreateView_post valid_ip db user client_ip data uuid token now).1
    = devices db ++ [registered_device db data uuid now]
    ∧ status_code
        (DeviceListCreateView_post valid_ip db user client_ip data uuid token now).2
      = if bool_decide (token ∈ DeviceToken.token <$> device_tokens db)
        then 500%nat else 201%nat.
Proof.
  intros Hvalid.
  unfold DeviceListCreateView_post. rewrite Hvalid.
  unfold create, mbind, M_bind, gets, modify, raise, mret, M_ret. simpl.
  rewrite existsb_uuid.
  destruct (bool_decide (uuid ∈ Device.device_id <$> devices db)); simpl; [done|].
  rewrite existsb_token.
  destruct (bool_decide (token ∈ DeviceToken.token <$> device_tokens db)); simpl; done.
Qed.

Lemma registration_succeeds valid_ip db user client_ip data uuid token now :
  registration_is_valid valid_ip data = true →
  uuid ∉ Device.device_id <$> devices db →
  token ∉ DeviceToken.token <$> device_tokens db →
  status_code (DeviceListCreateView_post valid_ip db user client_ip data uuid token now).2
    = 201%nat
  ∧ devices (DeviceListCreateView_post valid_ip db user client_ip data uuid token now).1
    = devices db ++ [registered_device db data uuid now].
Proof.
  intros Hvalid Huuid Htoken.
  pose proof (registration_cases valid_ip db user client_ip data uuid token now Hvalid)
    as Hcases.
  rewrite (bool_decide_eq_false_2 _ Huuid), (bool_decide_eq_false_2 _ Htoken) in Hcases.
  tauto.
Qed.

(** A registration answered 201 had valid fields and drew a UUID and a token
    that were not in use. *)
Lemma registered_201 valid_ip db user client_ip data uuid token now :
  status_code (DeviceListCreateView_post valid_ip db user client_ip data uuid token now).2
    = 201%nat →
  registration_is_valid valid_ip data = true
  ∧ (uuid ∉ Device.device_id <$> devices db)
  ∧ (token ∉ DeviceToken.token <$> device_tokens db).
Proof.
  intros H201.
  destruct (registration_is_valid valid_ip data) eqn:Hvalid;
    [|by unfold DeviceListCreateView_post in H201; rewrite Hvalid in H201].
  pose proof (registration_cases valid_ip db user client_ip data uuid token now Hvalid)
    as Hcases.
  split; [done|].
  destruct (decide (uuid ∈ Device.device_id <$> devices db)) as [Hin|Hout].
  { rewrite (bool_decide_eq_true_2 _ Hin) in Hcases. destruct Hcases as [_ H500].
    congruence. }
  split; [done|].
  rewrite (bool_decide_eq_false_2 _ Hout) in Hcases. destruct Hcases as [_ Hcode].
  intros Hin. rewrite (bool_decide_eq_true_2 _ Hin) in Hcode. congruence.
Qed.

End Registration.

(** C9, as the code has it.  A registration with valid fields (texts as the
    serializer has stripped them) consults the devices for one thing only,
    the UUID that [uuid4] drew for [device_id]: when a device has it
    already, the unique column refuses the row, the answer is 500 and
    nothing is written.  Otherwise one device is added:
    its [device_id] is the drawn UUID, its primary key is not in use, it is
    active and it carries the host name and MAC address of the request; the
    answer is 201 unless the token drawn for the device is in use.  So the
    [device_id]s and the primary keys of the table stay free of duplicates.
    Host name and MAC address play no part: on a table with the same UUIDs
    and tokens the answer has the same status, whatever the other columns of
    its devices are. *)
Theorem C9_registration_never_refuses_duplicates (valid_ip : string → bool)
    (db : Store) (user : User.t) (client_ip : option string)
    (data : devices_serializers.registration) (uuid : N) (token : string) (now : Z) :
  devices_serializers.registration_is_valid valid_ip data = true →
  registration_trimmed data = true →
  let answer :=
    devices_views.DeviceListCreateView_post valid_ip db user client_ip data uuid token
      now in
  (uuid ∈ Device.device_id <$> devices db →
   answer.1 = db ∧ status_code answer.2 = 500%nat)
  ∧ (uuid ∉ Device.device_id <$> devices db →
     (status_code answer.2 = 201%nat
      ↔ token ∉ DeviceToken.token <$> device_tokens db)
     ∧ ∃ device,
         devices answer.1 = devices db ++ [device]
         ∧ Device.device_id device = uuid
         ∧ (Device.id device ∉ Device.id <$> devices db)
         ∧ Some (Device.hostname device) = devices_serializers.hostname data
         ∧ Device.mac_address device
           = default "" (devices_serializers.mac_address data)
         ∧ Device.is_active device = true)
  ∧ (NoDup (Device.device_id <$> devices db) →
     NoDup (Device.device_id <$> devices answer.1))
  ∧ (NoDup (Device.id <$> devices db) → NoDup (Device.id <$> devices answer.1))
  ∧ (∀ db',
       Device.device_id <$> devices db' = Device.device_id <$> devices db →
       DeviceToken.token <$> device_tokens db' = DeviceToken.token <$> device_tokens db →
       status_code
         (devices_views.DeviceListCreateView_post valid_ip db' user client_ip data
            uuid token now).2
       = status_code answer.2).
Proof.
  intros Hvalid _ answer.
  pose proof (registration_cases valid_ip db user client_ip data uuid token now Hvalid)
    as Hcases.
  fold answer in Hcases.
  assert (Some (default "" (devices_serializers.hostname data))
          = devices_serializers.hostname data) as Hhost.
  { unfold devices_serializers.registration_is_valid in Hvalid.
    destruct (devices_serializers.hostname data); [done|].
    by rewrite !andb_false_r in Hvalid. }
  split; [|split; [|split; [|split]]].
  - intros Hin. by rewrite (bool_decide_eq_true_2 _ Hin) in Hcases.
  - intros Hout. rewrite (bool_decide_eq_false_2 _ Hout) in Hcases.
    destruct Hcases as [Hdevices Hcode]. split.
    + rewrite Hcode. case_bool_decide; split; done.
    + exists (registered_device db data uuid now).
      split; [done|]. split; [done|]. split; [apply next_pk_new|]. done.
  - intros Hnodup.
    destruct (decide (uuid ∈ Device.device_id <$> devices db)) as [Hin|Hout].
    + rewrite (bool_decide_eq_true_2 _ Hin) in Hcases.
      destruct Hcases as [-> _]. done.
    + rewrite (bool_decide_eq_false_2 _ Hout) in Hcases.
      destruct Hcases as [-> _]. rewrite fmap_app. apply NoDup_app.
      split; [done|]. split; [|apply NoDup_singleton].
      intros n Hn [->|[]%not_elem_of_nil]%elem_of_cons. done.
  - intros Hnodup.
    destruct (decide (uuid ∈ Device.device_id <$> devices db)) as [Hin|Hout].
    + rewrite (bool_decide_eq_true_2 _ Hin) in Hcases.
      destruct Hcases as [-> _]. done.
    + rewrite (bool_decide_eq_false_2 _ Hout) in Hcases.
      destruct Hcases as [-> _]. rewrite fmap_app. apply NoDup_app.
      split; [done|]. split; [|apply NoDup_singleton].
      intros n Hn [->|[]%not_elem_of_nil]%elem_of_cons.
      by apply (next_pk_new (Device.id <$> devices db)).
  - intros db' Hids Htokens.
    pose proof (registration_cases valid_ip db' user client_ip data uuid token now
                  Hvalid) as Hcases'.
    rewrite Hids, Htokens in Hcases'.
    destruct (bool_decide (uuid ∈ Device.device_id <$> devices db)).
    + destruct Hcases as [_ ->]. by destruct Hcases' as [_ ->].
    + destruct Hcases as [_ ->]. by destruct Hcases' as [_ ->].
Qed.

(** The theorem on [db_one_device] with the registration [pc1_again]: with
    the fresh UUID 202 it is answered 201, with the UUID 101 of [pc1] it is
    answered 500 and writes nothing. *)
Lemma C9_registration_never_refuses_duplicates_witness :
  status_code
    (devices_views.DeviceListCreateView_post (λ _, true) Fixtures.db_one_device
       Fixtures.admin (Some "10.0.0.5") Fixtures.pc1_again 202 "token-2" 8000).2 = 201%nat
  ∧ (devices_views.DeviceListCreateView_post (λ _, true) Fixtures.db_one_device
       Fixtures.admin (Some "10.0.0.5") Fixtures.pc1_again 101 "token-2" 8000).1
    = Fixtures.db_one_device
  ∧ status_code
      (devices_views.DeviceListCreateView_post (λ _, true) Fixtures.db_one_device
         Fixtures.admin (Some "10.0.0.5") Fixtures.pc1_again 101 "token-2" 8000).2
    = 500%nat.
Proof.
  split.
  - destruct (C9_registration_never_refuses_duplicates (λ _, true)
                Fixtures.db_one_device Fixtures.admin (Some "10.0.0.5")
                Fixtures.pc1_again 202 "token-2" 8000 eq_refl eq_refl)
      as (_ & Hfresh & _).
    destruct Hfresh as [H201 _].
    + apply (bool_decide_unpack _). vm_compute. done.
    + apply H201. apply (bool_decide_unpack _). vm_compute. done.
  - destruct (C9_registration_never_refuses_duplicates (λ _, true)
                Fixtures.db_one_device Fixtures.admin (Some "10.0.0.5")
                Fixtures.pc1_again 101 "token-2" 8000 eq_refl eq_refl)
      as (Hused & _).
    apply Hused. apply (bool_decide_unpack _). vm_compute. done.
Defined.

(** C9, counterexample.  [pc1] is registered and active; a registration with
    the same host name and MAC address is accepted, and two active devices
    with that natural key are stored. *)
Lemma C9_duplicate_identity_is_registered :
  Device.is_active Fixtures.pc1 = true
  ∧ Some (Device.hostname Fixtures.pc1) = devices_serializers.hostname Fixtures.pc1_again
  ∧ Some (Device.mac_address Fixtures.pc1)
    = devices_serializers.mac_address Fixtures.pc1_again
  ∧ status_code
      (devices_views.DeviceListCreateView_post (λ _, true) Fixtures.db_one_device
         Fixtures.admin (Some "10.0.0.5") Fixtures.pc1_again 202 "token-2" 8000).2 = 201%nat
  ∧ (λ d, (Device.hostname d, Device.mac_address d, Device.is_active d))
      <$> devices
            (devices_views.DeviceListCreateView_post (λ _, true)
               Fixtures.db_one_device Fixtures.admin (Some "10.0.0.5")
               Fixtures.pc1_again 202 "token-2" 8000).1
    = [("pc1.corp", "AA:BB:CC:DD:EE:01", true);
       ("pc1.corp", "AA:BB:CC:DD:EE:01", true)].
Proof. vm_compute. repeat split. Qed.

(** ** Heartbeats *)

Section Heartbeat.

Import devices_serializers devices_views.



(** The saved device is the one later requests find under the same UUID. *)
Lemma find_saved_device (rows : list Device.t) uuid device device' :
  find (λ d, N.eqb (Device.device_id d) uuid) rows = Some device →
  Device.device_id device' = uuid →
  find (λ d, N.eqb (Device.device_id d) uuid)
    (map (λ row, if Nat.eqb (Device.id row) (Device.id device) then device' else row)
       rows) = Some device'.
Proof.
  intros Hfind Huuid. induction rows as [|row rows IH]; [done|].
  simpl in *. destruct (Nat.eqb (Device.id row) (Device.id device)) eqn:Hpk.
  - simpl. by rewrite Huuid, N.eqb_refl.
  - simpl. destruct (N.eqb (Device.device_id row) uuid).
    + injection Hfind as ->. by rewrite Nat.eqb_refl in Hpk.
    + by apply IH.
Qed.

Lemma heartbeat_unknown db device_id data now :
  get_device_by_uuid db device_id = None →
  device_heartbeat db device_id data now = (db, not_found).
Proof. unfold device_heartbeat. by intros ->. Qed.

Lemma heartbeat_known db device_id data now device :
  get_device_by_uuid db device_id = Some device →
  heartbeat_is_valid data = true →
  device_heartbeat db device_id data now
  = (set_device_heartbeats (λ l, l ++ [heartbeat_row device data now])
       (with_device (Device.id device) (λ _, after_heartbeat device data now) db),
     mkResponse 200 [("status", JStr "ok")])
  ∧ get_device_by_uuid (device_heartbeat db device_id data now).1 device_id
    = Some (after_heartbeat device data now).
Proof.
  intros Hget Hvalid. unfold device_heartbeat. rewrite Hget, Hvalid. simpl.
  split; [done|].
  unfold get_device_by_uuid in *. simpl.
  apply (find_saved_device _ _ device); [done|].
  apply find_some in Hget as [_ Heq]. simpl. by apply N.eqb_eq.
Qed.


End Heartbeat.



(** ** Bounds of the numeric settings *)

Section Bounds.

Import policies_serializers policies_views dashboard_views.

(** The serializer of the REST views enforces the validators of the model. *)
Lemma policy_is_valid_bounds partial data :
  policy_is_valid partial data = true →
  in_range 30 86400 (PolicyData.idle_timeout_seconds data) = true
  ∧ in_range 1 10 (PolicyData.max_unlock_attempts data) = true
  ∧ in_range 1 1440 (PolicyData.lockout_duration_minutes data) = true
  ∧ in_range 30 3600 (PolicyData.heartbeat_interval_seconds data) = true.
Proof.
  unfold policy_is_valid. rewrite !andb_true_iff. tauto.
Qed.

Lemma in_range_spec lo hi n : in_range lo hi (Some n) = true ↔ lo ≤ n ≤ hi.
Proof. unfold in_range. rewrite andb_true_iff, !Z.leb_le. tauto. Qed.

Lemma rest_create_rejects_out_of_range db data now :
  in_range 30 86400 (PolicyData.idle_timeout_seconds data) = false
  ∨ in_range 1 10 (PolicyData.max_unlock_attempts data) = false
  ∨ in_range 1 1440 (PolicyData.lockout_duration_minutes data) = false
  ∨ in_range 30 3600 (PolicyData.heartbeat_interval_seconds data) = false →
  PolicyListCreateView_post db data now
  = (db, mkResponse 400 [("detail", JStr "invalid policy")]).
Proof.
  intros Hout. unfold PolicyListCreateView_post.
  destruct (policy_is_valid false data) eqn:Hvalid; [|done].
  apply policy_is_valid_bounds in Hvalid as (H1 & H2 & H3 & H4).
  destruct Hout as [H|[H|[H|H]]]; congruence.
Qed.

Lemma rest_update_rejects_out_of_range partial db pk data now :
  in_range 30 86400 (PolicyData.idle_timeout_seconds data) = false
  ∨ in_range 1 10 (PolicyData.max_unlock_attempts data) = false
  ∨ in_range 1 1440 (PolicyData.lockout_duration_minutes data) = false
  ∨ in_range 30 3600 (PolicyData.heartbeat_interval_seconds data) = false →
  (PolicyDetailView_update partial db pk data now).1 = db
  ∧ status_code (PolicyDetailView_update partial db pk data now).2 ≠ 200%nat.
Proof.
  intros Hout. unfold PolicyDetailView_update.
  destruct (get_policy db pk); [|done].
  destruct (policy_is_valid partial data) eqn:Hvalid; [|done].
  apply policy_is_valid_bounds in Hvalid as (H1 & H2 & H3 & H4).
  destruct Hout as [H|[H|[H|H]]]; congruence.
Qed.

(** The JSON endpoint of the dashboard stores the values of the body as they
    come, when the integer columns can hold them. *)
Lemma dashboard_create_stores_any_value db data now name scope :
  PolicyData.name data = Some name →
  PolicyData.scope data = Some scope →
  forallb sqlite_integer
    [default 300 (PolicyData.idle_timeout_seconds data);
     default 3 (PolicyData.max_unlock_attempts data);
     default 15 (PolicyData.lockout_duration_minutes data);
     90;
     default 60 (PolicyData.heartbeat_interval_seconds data);
     default 0 (PolicyData.priority data)] = true →
  status_code (api_policies_list_post db data now).2 = 200%nat
  ∧ ∃ policy,
      policies (api_policies_list_post db data now).1 = policies db ++ [policy]
      ∧ Policy.idle_timeout_seconds policy
        = default 300 (PolicyData.idle_timeout_seconds data)
      ∧ Policy.max_unlock_attempts policy
        = default 3 (PolicyData.max_unlock_attempts data)
      ∧ Policy.lockout_duration_minutes policy
        = default 15 (PolicyData.lockout_duration_minutes data)
      ∧ Policy.heartbeat_interval_seconds policy
        = default 60 (PolicyData.heartbeat_interval_seconds data).
Proof.
  intros Hname Hscope Hfits. unfold api_policies_list_post. rewrite Hname, Hscope.
  unfold Policy_integers. cbn [Policy.idle_timeout_seconds Policy.max_unlock_attempts
    Policy.lockout_duration_minutes Policy.log_retention_days
    Policy.heartbeat_interval_seconds Policy.priority].
  rewrite Hfits.
  split; [done|]. eexists. split; [reflexivity|]. done.
Qed.

End Bounds.

(** C6, at a failing input.  The body [five_seconds] asks for an idle timeout
    of 5 seconds and 0 unlock attempts, both outside the bounds of the model
    (30..86400 and 1..10).  The REST view refuses it and stores nothing, but
    the dashboard endpoints accept it: [api_policies_list] (POST) answers
    success and stores a policy with these values, and [api_policy_detail]
    (PUT) answers success and writes them over the policy [strict]. *)
Theorem C6_dashboard_stores_out_of_range :
  policies_serializers.in_range 30 86400
    (PolicyData.idle_timeout_seconds Fixtures.five_seconds) = false
  ∧ policies_serializers.in_range 1 10
      (PolicyData.max_unlock_attempts Fixtures.five_seconds) = false
  ∧ policies_views.PolicyListCreateView_post empty_store Fixtures.five_seconds 9000
    = (empty_store, mkResponse 400 [("detail", JStr "invalid policy")])
  ∧ (dashboard_views.api_policies_list_post empty_store Fixtures.five_seconds 9000).2
    = mkResponse 200 [("success", JBool true);
                      ("message", JStr "Policy created successfully");
                      ("policy_id", JInt 1)]
  ∧ (λ p, (Policy.idle_timeout_seconds p, Policy.max_unlock_attempts p))
      <$> policies
            (dashboard_views.api_policies_list_post empty_store
               Fixtures.five_seconds 9000).1
    = [(5, 0)]
  ∧ (dashboard_views.api_policy_detail_put Fixtures.db_assigned 1
       Fixtures.five_seconds 9000).2
    = mkResponse 200 [("success", JBool true);
                      ("message", JStr "Policy updated successfully")]
  ∧ (λ p, (Policy.id p, Policy.idle_timeout_seconds p, Policy.max_unlock_attempts p))
      <$> policies
            (dashboard_views.api_policy_detail_put Fixtures.db_assigned 1
               Fixtures.five_seconds 9000).1
    = [(1%nat, 5, 0)].
Proof. vm_compute. repeat split. Qed.

(** ** Targets of a policy assignment *)

Section Targets.

Import policies_serializers policies_views.

Lemma validate_one_target attrs attrs' :
  validate attrs = inr attrs' →
  attrs' = attrs
  ∧ ((is_Some (device attrs) ∧ device_group attrs = None)
     ∨ (device attrs = None ∧ is_Some (device_group attrs))).
Proof.
  unfold validate.
  destruct (device attrs) as [d|], (device_group attrs) as [g|]; simpl;
    intros H; inversion H; split; eauto.
Qed.

Lemma validate_rejects attrs :
  (is_Some (device attrs) ↔ is_Some (device_group attrs)) →
  ∃ msg, validate attrs = inl (ValidationError msg).
Proof.
  unfold validate.
  destruct (device attrs) as [d|], (device_group attrs) as [g|]; simpl;
    intros [H1 H2]; eauto.
  - destruct H1 as [? [=]]; eauto.
  - destruct H2 as [? [=]]; eauto.
Qed.

(** The create view stores nothing when both targets or none are given. *)
Lemma create_rejects_both_or_neither db user data now :
  (is_Some (device data) ↔ is_Some (device_group data)) →
  (PolicyAssignmentListCreateView_post db user data now).1 = db
  ∧ status_code (PolicyAssignmentListCreateView_post db user data now).2 = 400%nat.
Proof.
  intros Hboth. unfold PolicyAssignmentListCreateView_post.
  destruct (policy data); [|done].
  repeat (match goal with |- context [if ?b then _ else _] => destruct b end; [done|]).
  destruct (validate_rejects data Hboth) as [msg ->]. done.
Qed.

(** What the create view stores has exactly one target and repeats no
    (policy, device) or (policy, group) pair of the table. *)
Lemma create_stores_one_target db user data now :
  status_code (PolicyAssignmentListCreateView_post db user data now).2 = 201%nat →
  ∃ row,
    policy_assignments (PolicyAssignmentListCreateView_post db user data now).1
    = policy_assignments db ++ [row]
    ∧ one_target row
    ∧ violates_unique_together (policy_assignments db) None
        (PolicyAssignment.policy row) (PolicyAssignment.device row)
        (PolicyAssignment.device_group row) = false.
Proof.
  unfold PolicyAssignmentListCreateView_post.
  destruct (policy data) as [p|]; [|done].
  repeat (match goal with |- context [if negb ?b then _ else _] => destruct b end;
          simpl; [|done]).
  destruct (violates_unique_together _ None p (device data) None) eqn:Hd; [done|].
  destruct (violates_unique_together _ None p None (device_group data)) eqn:Hg; [done|].
  destruct (validate data) as [e|attrs] eqn:Hval; [done|].
  apply validate_one_target in Hval as [-> Hone]. intros _.
  eexists. split; [reflexivity|]. split; [exact Hone|]. simpl.
  destruct Hone as [[_ ->]|[-> _]]; done.
Qed.

End Targets.

(** C5, at a failing input.  In [db_fleet] the assignment 1 targets the
    device [pc1] and the assignment 2 targets the group [office].  The create
    view refuses a body with both targets and one with none, storing nothing.
    The update view has no such check: a PATCH of assignment 1 that sets
    [device_group] is answered 200 and stores a row with both targets, and a
    PATCH of assignment 2 that sets [device_group] to null is answered 200 and
    stores a row with none. *)
Theorem C5_update_breaks_exactly_one_target :
  (∀ a, a ∈ policy_assignments Fixtures.db_fleet → one_target a)
  ∧ policies_views.PolicyAssignmentListCreateView_post Fixtures.db_fleet Fixtures.admin
      (policies_serializers.mk_assignment_data (Some 2%nat) (Some 1%nat) (Some 2%nat) None)
      9000
    = (Fixtures.db_fleet,
       mkResponse 400 [("detail", JStr "Cannot specify both device and device_group")])
  ∧ policies_views.PolicyAssignmentListCreateView_post Fixtures.db_fleet Fixtures.admin
      (policies_serializers.mk_assignment_data (Some 2%nat) None None None) 9000
    = (Fixtures.db_fleet,
       mkResponse 400
         [("detail", JStr "Either device or device_group must be specified")])
  ∧ status_code
      (policies_views.PolicyAssignmentDetailView_patch Fixtures.db_fleet 1
         (Some (Some 1%nat)) None).2 = 200%nat
  ∧ (λ a, (PolicyAssignment.id a, PolicyAssignment.device a,
           PolicyAssignment.device_group a))
      <$> policy_assignments
            (policies_views.PolicyAssignmentDetailView_patch Fixtures.db_fleet 1
               (Some (Some 1%nat)) None).1
    = [(1%nat, Some 1%nat, Some 1%nat); (2%nat, None, Some 1%nat)]
  ∧ status_code
      (policies_views.PolicyAssignmentDetailView_patch Fixtures.db_fleet 2
         (Some None) None).2 = 200%nat
  ∧ (λ a, (PolicyAssignment.id a, PolicyAssignment.device a,
           PolicyAssignment.device_group a))
      <$> policy_assignments
            (policies_views.PolicyAssignmentDetailView_patch Fixtures.db_fleet 2
               (Some None) None).1
    = [(1%nat, Some 1%nat, None); (2%nat, None, None)].
Proof.
  split.
  - intros a Ha. unfold Fixtures.db_fleet in Ha. simpl in Ha.
    apply elem_of_cons in Ha as [->|Ha]; [left; simpl; eauto|].
    apply list_elem_of_singleton in Ha as ->. right; simpl; eauto.
  - repeat split; reflexivity.
Qed.

(** ** The policy resolver *)

Section Ordering.
Context {A : Type} (key : A → Z).

Lemma insert_desc_Permutation x l : insert_desc key x l ≡ₚ x :: l.
Proof.
  induction l as [|y l IH]; [done|]. simpl.
  destruct (key x <? key y); [|done].
  rewrite IH. apply Permutation_swap.
Qed.

Lemma order_by_desc_Permutation l : order_by_desc key l ≡ₚ l.
Proof.
  induction l as [|x l IH]; [done|]. simpl.
  by rewrite insert_desc_Permutation, IH.
Qed.

Lemma elem_of_order_by_desc x l : x ∈ order_by_desc key l ↔ x ∈ l.
Proof. by rewrite order_by_desc_Permutation. Qed.

Lemma insert_desc_descending x l : descending key l → descending key (insert_desc key x l).
Proof.
  induction 1 as [|y l Hl IH Hy]; simpl.
  - repeat constructor.
  - destruct (Z.ltb_spec (key x) (key y)) as [Hlt|Hge].
    + constructor; [done|].
      apply Forall_forall. intros z Hz.
      rewrite insert_desc_Permutation in Hz.
      apply elem_of_cons in Hz as [->|Hz]; [lia|].
      rewrite Forall_forall in Hy. by apply Hy.
    + constructor; [by constructor|].
      constructor; [done|].
      eapply Forall_impl; [exact Hy|]. simpl. intros; lia.
Qed.

Lemma order_by_desc_descending l : descending key (order_by_desc key l).
Proof.
  induction l as [|x l IH]; simpl; [constructor|]. by apply insert_desc_descending.
Qed.

(** Rows with equal keys keep the order of the table. *)
Lemma insert_desc_head x l :
  (∀ y, y ∈ l → key y ≤ key x) → insert_desc key x l = x :: l.
Proof.
  destruct l as [|y l]; [done|]. intros H. simpl.
  destruct (Z.ltb_spec (key x) (key y)) as [Hlt|Hge]; [|done].
  specialize (H y (list_elem_of_here _ _)). lia.
Qed.

End Ordering.

Lemma descending_head {A} (key : A → Z) x l y :
  descending key (x :: l) → y ∈ x :: l → key y ≤ key x.
Proof.
  intros Hs Hy. apply StronglySorted_inv in Hs as [_ Hx].
  apply elem_of_cons in Hy as [->|Hy]; [done|].
  rewrite Forall_forall in Hx. by apply Hx.
Qed.

Section Resolver.

Import policies_views.

Lemma is_some_eqb_spec o n : is_some_eqb o n = true ↔ o = Some n.
Proof.
  destruct o as [m|]; simpl; [|done].
  rewrite Nat.eqb_eq. split; [by intros ->|by intros [= ->]].
Qed.

Lemma device_group__devices_spec db a device :
  device_group__devices db a device = true ↔
  ∃ g grp, PolicyAssignment.device_group a = Some g ∧ get_group db g = Some grp
           ∧ Device.id device ∈ DeviceGroup.devices grp.
Proof.
  unfold device_group__devices.
  destruct (PolicyAssignment.device_group a) as [g|];
    [|split; [done|intros (? & ? & [=] & _)]].
  destruct (get_group db g) as [grp|] eqn:Hgrp;
    [|split; [done|intros (? & ? & [= <-] & ? & _); congruence]].
  rewrite existsb_exists. split.
  - intros (n & Hin%list_elem_of_In & Heq%Nat.eqb_eq). exists g, grp. by subst.
  - intros (g' & grp' & [= <-] & Hgrp' & Hin).
    rewrite Hgrp in Hgrp'. injection Hgrp' as <-.
    exists (Device.id device). split; [by apply list_elem_of_In|apply Nat.eqb_refl].
Qed.

Lemma elem_of_device_policies db device a p :
  (a, p) ∈ device_policies db device ↔
  a ∈ policy_assignments db
  ∧ PolicyAssignment.device a = Some (Device.id device)
  ∧ PolicyAssignment.is_active a = true
  ∧ get_policy db (PolicyAssignment.policy a) = Some p
  ∧ Policy.is_active p = true.
Proof.
  unfold device_policies.
  rewrite elem_of_order_by_desc, list_elem_of_filter, list_elem_of_omap. simpl.
  rewrite !andb_true_iff, is_some_eqb_spec. unfold select_related_policy.
  split.
  - intros ([[Hd Ha] Hp] & a' & Hin & Hjoin).
    destruct (get_policy db (PolicyAssignment.policy a')) as [p'|] eqn:Hget; [|done].
    simpl in Hjoin. injection Hjoin as -> ->. done.
  - intros (Hin & Hd & Ha & Hget & Hp). split; [done|].
    exists a. split; [done|]. by rewrite Hget.
Qed.

Lemma elem_of_group_policies db device a p :
  (a, p) ∈ group_policies db device ↔
  a ∈ policy_assignments db
  ∧ device_group__devices db a device = true
  ∧ PolicyAssignment.is_active a = true
  ∧ get_policy db (PolicyAssignment.policy a) = Some p
  ∧ Policy.is_active p = true.
Proof.
  unfold group_policies.
  rewrite elem_of_order_by_desc, list_elem_of_filter, list_elem_of_omap. simpl.
  rewrite !andb_true_iff. unfold select_related_policy.
  split.
  - intros ([[Hd Ha] Hp] & a' & Hin & Hjoin).
    destruct (get_policy db (PolicyAssignment.policy a')) as [p'|] eqn:Hget; [|done].
    simpl in Hjoin. injection Hjoin as -> ->. done.
  - intros (Hin & Hd & Ha & Hget & Hp). split; [done|].
    exists a. split; [done|]. by rewrite Hget.
Qed.

Lemma elem_of_global_policies db p :
  p ∈ global_policies db ↔ global_candidate db p.
Proof.
  unfold global_policies, global_candidate.
  rewrite elem_of_order_by_desc, list_elem_of_filter, andb_true_iff, String.eqb_eq.
  tauto.
Qed.

(** A lookup by primary key returns a row of the table with that key; when
    the keys of the table are distinct it returns every such row. *)
Lemma find_key_elem {A} (key : A → nat) (rows : list A) k x :
  find (λ r, Nat.eqb (key r) k) rows = Some x → x ∈ rows ∧ key x = k.
Proof.
  intros [Hin Heq]%find_some. split; [by apply list_elem_of_In|by apply Nat.eqb_eq].
Qed.

Lemma find_key {A} (key : A → nat) (rows : list A) k x :
  NoDup (key <$> rows) → x ∈ rows → key x = k →
  find (λ r, Nat.eqb (key r) k) rows = Some x.
Proof.
  intros Hnodup Hin <-. induction rows as [|r rows IH]; [by apply elem_of_nil in Hin|].
  rewrite fmap_cons in Hnodup. apply NoDup_cons in Hnodup as [Hr Hrows]. simpl.
  apply elem_of_cons in Hin as [->|Hin]; [by rewrite Nat.eqb_refl|].
  destruct (Nat.eqb_spec (key r) (key x)) as [Heq|_]; [|by apply IH].
  destruct Hr. rewrite Heq. apply list_elem_of_fmap. eauto.
Qed.

(** The tiers of the queries hold candidates only; when the primary keys of
    the policies and of the groups are distinct, they hold every
    candidate. *)
Lemma device_tier_sound db device p :
  p ∈ (device_policies db device).*2 → device_candidate db device p.
Proof.
  rewrite list_elem_of_fmap.
  intros ([a p'] & -> & (Hin & Hd & Ha & Hget & Hp)%elem_of_device_policies).
  apply find_key_elem in Hget as [Hstored Hid].
  split; [|done]. exists a. done.
Qed.

Lemma device_tier_complete db device p :
  NoDup (Policy.id <$> policies db) →
  device_candidate db device p → p ∈ (device_policies db device).*2.
Proof.
  intros Hpk [(a & Hin & Hd & Ha & Hstored & Hid) Hp].
  apply list_elem_of_fmap. exists (a, p). split; [done|].
  apply elem_of_device_policies. repeat split; try done.
  by apply find_key.
Qed.

Lemma group_tier_sound db device p :
  p ∈ (group_policies db device).*2 → group_candidate db device p.
Proof.
  rewrite list_elem_of_fmap.
  intros ([a p'] & -> & (Hin & Hg & Ha & Hget & Hp)%elem_of_group_policies).
  apply device_group__devices_spec in Hg as (g & grp & Hg & Hgrp & Hmem).
  apply find_key_elem in Hget as [Hstored Hid].
  apply find_key_elem in Hgrp as [Hgstored <-].
  split; [|done]. exists a, grp. done.
Qed.

Lemma group_tier_complete db device p :
  NoDup (Policy.id <$> policies db) →
  NoDup (DeviceGroup.id <$> device_groups db) →
  group_candidate db device p → p ∈ (group_policies db device).*2.
Proof.
  intros Hpk Hgk [(a & grp & Hin & Hgstored & Hg & Hmem & Ha & Hstored & Hid) Hp].
  apply list_elem_of_fmap. exists (a, p). split; [done|].
  apply elem_of_group_policies. repeat split; try done.
  - apply device_group__devices_spec. exists (DeviceGroup.id grp), grp.
    split; [done|]. split; [|done]. by apply find_key.
  - by apply find_key.
Qed.


Lemma foldl_append_if_new seen l :
  foldl append_if_new seen l = seen ++ fresh_from seen l.
Proof.
  revert seen. induction l as [|p l IH]; intros seen; simpl.
  - by rewrite app_nil_r.
  - unfold append_if_new at 2. destruct (policy_in p seen); [apply IH|].
    rewrite IH. by rewrite <- app_assoc.
Qed.

Lemma foldl_append_policy {B} (acc : list Policy.t) (l : list (B * Policy.t)) :
  foldl (λ acc ap, acc ++ [ap.2]) acc l = acc ++ l.*2.
Proof.
  revert acc. induction l as [|ap l IH]; intros acc; simpl.
  - by rewrite app_nil_r.
  - rewrite IH. by rewrite <- app_assoc.
Qed.

Lemma policy_in_spec p l :
  policy_in p l = true ↔ Policy.id p ∈ Policy.id <$> l.
Proof.
  unfold policy_in. rewrite existsb_exists, list_elem_of_fmap. split.
  - intros (q & Hin%list_elem_of_In & Heq%Nat.eqb_eq). eauto.
  - intros (q & Heq & Hin). exists q. split; [by apply list_elem_of_In|].
    by apply Nat.eqb_eq.
Qed.

Lemma fresh_from_NoDup seen l :
  NoDup (Policy.id <$> seen) → NoDup (Policy.id <$> seen ++ fresh_from seen l).
Proof.
  revert seen. induction l as [|p l IH]; intros seen Hseen; simpl.
  - by rewrite app_nil_r.
  - destruct (policy_in p seen) eqn:Hin; [by apply IH|].
    rewrite cons_middle, (assoc_L (++)). apply IH.
    rewrite fmap_app. apply NoDup_app. split; [done|]. split.
    + intros n Hn [->|[]%not_elem_of_nil]%elem_of_cons.
      apply policy_in_spec in Hn. congruence.
    + apply NoDup_singleton.
Qed.

(** When the primary key identifies the policies at hand (the property [U]),
    the appended policies are the members of [l] that are not in [seen]. *)
Lemma elem_of_fresh_from (U : Policy.t → Prop) seen l p :
  (∀ q q', U q → U q' → Policy.id q = Policy.id q' → q = q') →
  Forall U seen → Forall U l →
  p ∈ fresh_from seen l ↔ p ∈ l ∧ p ∉ seen.
Proof.
  intros Hinj. revert seen.
  induction l as [|p0 l IH]; intros seen Hseen Hl; simpl.
  - rewrite elem_of_nil. tauto.
  - apply Forall_cons in Hl as [Hp0U Hl].
    assert (policy_in p0 seen = true ↔ p0 ∈ seen) as Hp0.
    { rewrite policy_in_spec, list_elem_of_fmap. split.
      - intros (q & Heq & Hq). rewrite (Hinj p0 q); [done|done| |done].
        rewrite Forall_forall in Hseen. by apply Hseen.
      - intros Hin. eauto. }
    destruct (policy_in p0 seen) eqn:Hin.
    + rewrite IH by done.
      rewrite elem_of_cons. split; [tauto|].
      intros [[->|Hin'] Hnot]; [|done]. destruct Hnot. by apply Hp0.
    + rewrite elem_of_cons, IH; [|by apply Forall_app; split; [|repeat constructor]|done].
      rewrite elem_of_app, list_elem_of_singleton.
      assert (p0 ∉ seen) by (intros ?%Hp0; done).
      split.
      * intros [->|[Hin' Hn]]; [by split; [left|]|].
        split; [by right|]. intros ?. apply Hn. by left.
      * intros [[->|Hin']%elem_of_cons Hn]; [by left|].
        destruct (decide (Policy.id p = Policy.id p0)) as [Heq|Hne].
        -- left. apply Hinj; [|done..]. rewrite Forall_forall in Hl. by apply Hl.
        -- right. split; [done|]. intros [?| ->]; done.
Qed.


Lemma all_policies_tiers db device :
  all_policies db device
  = (device_policies db device).*2
    ++ fresh_from (device_policies db device).*2 (group_policies db device).*2
    ++ fresh_from
         ((device_policies db device).*2
          ++ fresh_from (device_policies db device).*2 (group_policies db device).*2)
         (global_policies db).
Proof.
  unfold all_policies.
  rewrite foldl_append_policy. simpl.
  rewrite <- (foldl_fmap append_if_new _ (group_policies db device) snd).
  rewrite !foldl_append_if_new. by rewrite <- app_assoc.
Qed.

(** The device tier repeats no policy when the table obeys
    [unique_together]. *)
Lemma device_tier_NoDup db device :
  unique_policy_device (policy_assignments db) →
  NoDup (Policy.id <$> (device_policies db device).*2).
Proof.
  unfold unique_policy_device, device_policies. intros Huniq.
  rewrite order_by_desc_Permutation.
  induction (policy_assignments db) as [|a rows IH]; [constructor|].
  simpl in Huniq |- *.
  assert (NoDup (omap (λ a, d ← PolicyAssignment.device a;
                            Some (PolicyAssignment.policy a, d)) rows)) as Hrows.
  { destruct (PolicyAssignment.device a); simpl in Huniq; [|done].
    by apply NoDup_cons in Huniq as [_ ?]. }
  specialize (IH Hrows).
  unfold select_related_policy at 1.
  destruct (get_policy db (PolicyAssignment.policy a)) as [p|] eqn:Hget; simpl; [|done].
  rewrite filter_cons. simpl. case_decide as Hkeep; [|done].
  simpl. apply NoDup_cons. split; [|done].
  rewrite !andb_true_iff, is_some_eqb_spec in Hkeep. destruct Hkeep as [[Hdev _] _].
  rewrite Hdev in Huniq. simpl in Huniq. apply NoDup_cons in Huniq as [Hnew _].
  intros Hin. apply Hnew.
  apply list_elem_of_fmap in Hin as (p' & Hid & Hin).
  apply list_elem_of_fmap in Hin as ([a' p''] & -> & Hin).
  apply list_elem_of_filter in Hin as [Hkeep' Hin]. simpl in *.
  rewrite !andb_true_iff, is_some_eqb_spec in Hkeep'. destruct Hkeep' as [[Hdev' _] _].
  apply list_elem_of_omap in Hin as (a0 & Ha0 & Hjoin).
  unfold select_related_policy in Hjoin.
  destruct (get_policy db (PolicyAssignment.policy a0)) as [p0|] eqn:Hget0; [|done].
  simpl in Hjoin. injection Hjoin as -> ->.
  apply list_elem_of_omap. exists a'. split; [done|].
  rewrite Hdev'. simpl. f_equal. f_equal.
  apply get_policy_id in Hget, Hget0. congruence.
Qed.


(** A primary key identifies its row. *)
Lemma pk_identifies (rows : list Policy.t) p q :
  NoDup (Policy.id <$> rows) → p ∈ rows → q ∈ rows →
  Policy.id p = Policy.id q → p = q.
Proof.
  induction rows as [|r rows IH]; [by intros _ ?%not_elem_of_nil|].
  rewrite fmap_cons, NoDup_cons, !elem_of_cons.
  intros [Hr Hrows] [->|Hp] [->|Hq] Heq; [done| | |by apply IH].
  - destruct Hr. rewrite Heq. apply list_elem_of_fmap. eauto.
  - destruct Hr. rewrite <- Heq. apply list_elem_of_fmap. eauto.
Qed.

Lemma device_candidate_stored db device p :
  device_candidate db device p → p ∈ policies db.
Proof. by intros [(a & _ & _ & _ & Hstored & _) _]. Qed.

Lemma group_candidate_stored db device p :
  group_candidate db device p → p ∈ policies db.
Proof. by intros [(a & grp & _ & _ & _ & _ & _ & Hstored & _) _]. Qed.

Lemma device_policy_response db device_id device :
  get_device_by_uuid db device_id = Some device →
  device_policy db device_id
  = Http200 (mk_response device_id (head (all_policies db device))
               (all_policies db device) (Device.registered_at device)).
Proof.
  unfold device_policy. intros ->.
  destruct (head (all_policies db device)) as [p|] eqn:Hhead; [done|].
  apply head_None in Hhead. by rewrite Hhead.
Qed.

End Resolver.

(** C1, as the code has it.  For a device that exists, in a database whose
    primary keys and [unique_together] constraint on (policy, device) hold,
    [device_policy] answers 200 with a list of applied policies
    [D ++ G ++ L]: [D] holds the active policies of the active assignments
    that target the device, [G] the active policies of the active
    assignments that target a group of the device and are not in [D], and
    [L] the active policies of global scope in neither; no policy occurs
    twice.  The effective policy is the head of the list, and it is null
    exactly when no tier has a candidate, which is a 200 answer too.  A
    policy that is not active is in no tier, whatever its assignments are. *)
Theorem C1_tiers_in_order (db : Store) (device_id : N) (device : Device.t) :
  NoDup (Policy.id <$> policies db) →
  NoDup (DeviceGroup.id <$> device_groups db) →
  unique_policy_device (policy_assignments db) →
  get_device_by_uuid db device_id = Some device →
  ∃ D G L,
    policies_views.device_policy db device_id
    = policies_views.Http200
        (policies_views.mk_response device_id (head (D ++ G ++ L)) (D ++ G ++ L)
           (Device.registered_at device))
    ∧ (∀ p, p ∈ D ↔ device_candidate db device p)
    ∧ (∀ p, p ∈ G ↔ group_candidate db device p ∧ (p ∉ D))
    ∧ (∀ p, p ∈ L ↔ global_candidate db p ∧ (p ∉ D) ∧ (p ∉ G))
    ∧ NoDup (Policy.id <$> D ++ G ++ L)
    ∧ (head (D ++ G ++ L) = None ↔
       ∀ p, ¬ device_candidate db device p ∧ ¬ group_candidate db device p
            ∧ ¬ global_candidate db p)
    ∧ (∀ p, p ∈ D ++ G ++ L → Policy.is_active p = true).
Proof.
  intros Hpk Hgk Huniq Hdevice.
  set (D := (policies_views.device_policies db device).*2).
  set (G := fresh_from D (policies_views.group_policies db device).*2).
  set (L := fresh_from (D ++ G) (policies_views.global_policies db)).
  assert (∀ q q', q ∈ policies db → q' ∈ policies db →
                  Policy.id q = Policy.id q' → q = q') as Hinj
    by (intros q q'; by apply pk_identifies).
  assert (∀ p, p ∈ D ↔ device_candidate db device p) as HDiff.
  { intros p. split; [apply device_tier_sound|by apply device_tier_complete]. }
  assert (∀ p, p ∈ (policies_views.group_policies db device).*2
               ↔ group_candidate db device p) as HGiff.
  { intros p. split; [apply group_tier_sound|by apply group_tier_complete]. }
  assert (Forall (λ p, p ∈ policies db) D) as HD.
  { apply Forall_forall. intros p Hp%HDiff.
    by eapply device_candidate_stored. }
  assert (Forall (λ p, p ∈ policies db) (policies_views.group_policies db device).*2) as HGs.
  { apply Forall_forall. intros p Hp%HGiff.
    by eapply group_candidate_stored. }
  assert (Forall (λ p, p ∈ policies db) (policies_views.global_policies db)) as HLs.
  { apply Forall_forall. by intros p [Hp _]%elem_of_global_policies. }
  assert (∀ p, p ∈ G ↔ group_candidate db device p ∧ (p ∉ D)) as HG.
  { intros p. unfold G. rewrite (elem_of_fresh_from _ _ _ _ Hinj HD HGs).
    by rewrite HGiff. }
  assert (Forall (λ p, p ∈ policies db) G) as HGU.
  { apply Forall_forall. intros p [Hp _]%HG. by eapply group_candidate_stored. }
  assert (∀ p, p ∈ L ↔ global_candidate db p ∧ (p ∉ D) ∧ (p ∉ G)) as HL.
  { intros p. unfold L.
    rewrite (elem_of_fresh_from _ _ _ _ Hinj (proj2 (Forall_app _ _ _) (conj HD HGU)) HLs).
    rewrite elem_of_global_policies, elem_of_app. tauto. }
  exists D, G, L.
  split. { rewrite (device_policy_response _ _ _ Hdevice). by rewrite all_policies_tiers. }
  split; [done|].
  split; [done|]. split; [done|]. split; [|split].
  - rewrite (assoc_L (++)). unfold L. apply fresh_from_NoDup.
    unfold G. apply fresh_from_NoDup. by apply device_tier_NoDup.
  - rewrite head_None, !app_nil. split.
    + intros (HD0 & HG0 & HL0) p.
      assert (¬ device_candidate db device p) as Hnd.
      { intros Hc%HDiff. rewrite HD0 in Hc.
        by apply not_elem_of_nil in Hc. }
      assert (p ∉ D) as HpD by (rewrite HD0; apply not_elem_of_nil).
      assert (p ∉ G) as HpG by (rewrite HG0; apply not_elem_of_nil).
      split; [done|]. split.
      * intros Hc. apply (not_elem_of_nil p). rewrite <- HG0. by apply HG.
      * intros Hc. apply (not_elem_of_nil p). rewrite <- HL0. by apply HL.
    + intros Hnone.
      assert (D = []) as HD0.
      { destruct D as [|p D'] eqn:HeqD; [done|]. exfalso.
        apply (proj1 (Hnone p)). apply HDiff. by left. }
      assert (G = []) as HG0.
      { destruct G as [|p G'] eqn:HeqG; [done|]. exfalso.
        apply (proj1 (proj2 (Hnone p))). apply HG. by left. }
      assert (L = []) as HL0.
      { destruct L as [|p L'] eqn:HeqL; [done|]. exfalso.
        apply (proj2 (proj2 (Hnone p))). apply HL. by left. }
      done.
  - intros p. rewrite !elem_of_app.
    intros [[_ Hp]%HDiff|[[[_ Hp] _]%HG|[(_ & _ & Hp) _]%HL]]; done.
Qed.

(** The theorem on [db_fleet] for the device [pc1]: [relaxed], assigned to
    the group [office] of which [pc1] is a member, is applied through the
    group tier, after [strict] and before the global [baseline]. *)
Lemma C1_tiers_in_order_witness :
  ∃ D G L,
    policies_views.device_policy Fixtures.db_fleet 101
    = policies_views.Http200
        (policies_views.mk_response 101 (head (D ++ G ++ L)) (D ++ G ++ L)
           (Device.registered_at Fixtures.pc1))
    ∧ Fixtures.strict ∈ D ∧ Fixtures.relaxed ∈ G ∧ Fixtures.baseline ∈ L
    ∧ D ++ G ++ L = [Fixtures.strict; Fixtures.relaxed; Fixtures.baseline].
Proof.
  destruct (C1_tiers_in_order Fixtures.db_fleet 101 Fixtures.pc1)
    as (D & G & L & Hanswer & HD & HG & HL & _).
  - apply (bool_decide_unpack _). vm_compute. done.
  - apply (bool_decide_unpack _). vm_compute. done.
  - apply (bool_decide_unpack _). vm_compute. done.
  - reflexivity.
  - assert (Fixtures.strict ∈ D) as Hstrict.
    { apply HD. split; [|done]. exists Fixtures.strict_on_pc1.
      repeat split; try reflexivity; vm_compute; repeat constructor. }
    assert (Fixtures.relaxed ∉ D) as Hrelaxed.
    { intros [(a & Ha & Hd & _ & _ & Hid) _]%HD.
      apply list_elem_of_In in Ha. simpl in Ha.
      destruct Ha as [<-|[<-|[]]]; simpl in *; done. }
    assert (Fixtures.relaxed ∈ G) as HrelaxedG.
    { apply HG. split; [|done]. split; [|done].
      exists Fixtures.relaxed_on_office, Fixtures.office.
      repeat split; try reflexivity; vm_compute; repeat constructor. }
    assert (Fixtures.baseline ∈ L) as Hbaseline.
    { apply HL. split; [|split].
      - repeat split. vm_compute. repeat constructor.
      - intros [(a & Ha & _ & _ & _ & Hid) _]%HD.
        apply list_elem_of_In in Ha. simpl in Ha.
        destruct Ha as [<-|[<-|[]]]; simpl in *; done.
      - intros [[(a & grp & Ha & _ & _ & _ & _ & _ & Hid) _] _]%HG.
        apply list_elem_of_In in Ha. simpl in Ha.
        destruct Ha as [<-|[<-|[]]]; simpl in *; done. }
    exists D, G, L. split; [exact Hanswer|]. split; [done|]. split; [done|].
    split; [done|].
    assert (policies_views.device_policy Fixtures.db_fleet 101
            = policies_views.Http200
                (policies_views.mk_response 101 (Some Fixtures.strict)
                   [Fixtures.strict; Fixtures.relaxed; Fixtures.baseline] 1000))
      as Hcomputed by reflexivity.
    rewrite Hcomputed in Hanswer. by injection Hanswer as _ <-.
Defined.

(** C1, counterexample to the tiers as the specification words them.  In
    [db_retired] the policy [retired] is not active but its assignment to
    [pc1] is: an active assignment targets the device directly.  The policy
    is not applied; the effective policy is the global [baseline]. *)
Lemma C1_inactive_policy_is_passed_over :
  get_device_by_uuid Fixtures.db_retired 101 = Some Fixtures.pc1
  ∧ assigned_to_device Fixtures.db_retired Fixtures.pc1 Fixtures.retired
  ∧ Policy.is_active Fixtures.retired = false
  ∧ policies_views.device_policy Fixtures.db_retired 101
    = policies_views.Http200
        (policies_views.mk_response 101 (Some Fixtures.baseline)
           [Fixtures.baseline] 1000).
Proof.
  split; [reflexivity|]. split; [|split; reflexivity].
  exists Fixtures.strict_on_pc1.
  repeat split; try reflexivity; vm_compute; repeat constructor.
Qed.

(** The scenario of the specification on [db_fleet]: the device policy of
    priority 5 comes before the group policy, and both before the global
    policy of priority 100. *)
Example device_policy_db_fleet :
  policies_views.device_policy Fixtures.db_fleet 101
  = policies_views.Http200
      (policies_views.mk_response 101 (Some Fixtures.strict)
         [Fixtures.strict; Fixtures.relaxed; Fixtures.baseline] 1000).
Proof. reflexivity. Qed.

(** C2, at a failing input.  In [db_tie] the policies [strict] and [relaxed]
    are both assigned to [pc1] by active assignments and have the same
    priority; [relaxed] was created later.  The query orders the tier by
    [-policy__priority] alone, so the tie is left to the order of the rows,
    and the resolver answers [strict], the older policy, as effective.  With
    the same policies and the assignment rows in the other order
    ([db_tie_swapped]) it answers [relaxed]: the winner of a tie follows the
    rows of the assignments, not the creation time of the policies. *)
Theorem C2_tie_goes_to_the_older_policy :
  device_candidate Fixtures.db_tie Fixtures.pc1 Fixtures.strict
  ∧ device_candidate Fixtures.db_tie Fixtures.pc1 Fixtures.relaxed
  ∧ Policy.priority Fixtures.strict = Policy.priority Fixtures.relaxed
  ∧ Policy.created_at Fixtures.strict < Policy.created_at Fixtures.relaxed
  ∧ policies_views.device_policy Fixtures.db_tie 101
    = policies_views.Http200
        (policies_views.mk_response 101 (Some Fixtures.strict)
           [Fixtures.strict; Fixtures.relaxed] 1000)
  ∧ policies (Fixtures.db_tie_swapped) = policies Fixtures.db_tie
  ∧ policies_views.device_policy Fixtures.db_tie_swapped 101
    = policies_views.Http200
        (policies_views.mk_response 101 (Some Fixtures.relaxed)
           [Fixtures.relaxed; Fixtures.strict] 1000).
Proof.
  split; [|split].
  - split; [|done]. exists Fixtures.strict_on_pc1.
    repeat split; apply list_elem_of_here.
  - split; [|done]. exists Fixtures.relaxed_on_pc1.
    repeat split; apply list_elem_of_further, list_elem_of_here.
  - repeat split.
Qed.

(** ** Further properties of the same code *)

(** X1.  The create view of policy assignments answers 400 and stores nothing
    when the body names both a device and a group, or neither.  When it
    answers 201 it has appended one row, which has exactly one target and
    repeats no (policy, device) or (policy, group) pair of the table. *)
Theorem X1_create_checks_targets (db : Store) (user : User.t)
    (data : policies_serializers.assignment_data) (now : Z) :
  ((is_Some (policies_serializers.device data)
    ↔ is_Some (policies_serializers.device_group data)) →
   (policies_views.PolicyAssignmentListCreateView_post db user data now).1 = db
   ∧ status_code (policies_views.PolicyAssignmentListCreateView_post db user data now).2
     = 400%nat)
  ∧ (status_code (policies_views.PolicyAssignmentListCreateView_post db user data now).2
     = 201%nat →
     ∃ row,
       policy_assignments
         (policies_views.PolicyAssignmentListCreateView_post db user data now).1
       = policy_assignments db ++ [row]
       ∧ one_target row
       ∧ violates_unique_together (policy_assignments db) None
           (PolicyAssignment.policy row) (PolicyAssignment.device row)
           (PolicyAssignment.device_group row) = false).
Proof.
  split; [apply create_rejects_both_or_neither | apply create_stores_one_target].
Qed.

(** The theorem on [db_fleet]: [relaxed] is assigned to [pc1]. *)
Lemma X1_create_checks_targets_witness :
  ∃ row,
    policy_assignments
      (policies_views.PolicyAssignmentListCreateView_post Fixtures.db_fleet
         Fixtures.admin
         (policies_serializers.mk_assignment_data (Some 2%nat) (Some 1%nat) None None)
         9000).1
    = policy_assignments Fixtures.db_fleet ++ [row]
    ∧ one_target row
    ∧ violates_unique_together (policy_assignments Fixtures.db_fleet) None
        (PolicyAssignment.policy row) (PolicyAssignment.device row)
        (PolicyAssignment.device_group row) = false.
Proof.
  apply (X1_create_checks_targets Fixtures.db_fleet Fixtures.admin
           (policies_serializers.mk_assignment_data (Some 2%nat) (Some 1%nat) None None)
           9000).
  reflexivity.
Defined.

(** X2.  The REST views of policies refuse a body in which the idle timeout,
    the number of unlock attempts, the lockout duration or the heartbeat
    interval is outside the bounds of the model: creation answers 400, an
    update does not answer 200, and the database is left as it was. *)
Theorem X2_rest_views_enforce_bounds (partial : bool) (db : Store) (pk : nat)
    (data : PolicyData.t) (now : Z) :
  policies_serializers.in_range 30 86400 (PolicyData.idle_timeout_seconds data) = false
  ∨ policies_serializers.in_range 1 10 (PolicyData.max_unlock_attempts data) = false
  ∨ policies_serializers.in_range 1 1440 (PolicyData.lockout_duration_minutes data)
    = false
  ∨ policies_serializers.in_range 30 3600 (PolicyData.heartbeat_interval_seconds data)
    = false →
  policies_views.PolicyListCreateView_post db data now
  = (db, mkResponse 400 [("detail", JStr "invalid policy")])
  ∧ (policies_views.PolicyDetailView_update partial db pk data now).1 = db
  ∧ status_code (policies_views.PolicyDetailView_update partial db pk data now).2
    ≠ 200%nat.
Proof.
  intros Hout. split; [by apply rest_create_rejects_out_of_range|].
  by apply rest_update_rejects_out_of_range.
Qed.

(** The theorem on [db_assigned] with the body [five_seconds]. *)
Lemma X2_rest_views_enforce_bounds_witness :
  policies_views.PolicyListCreateView_post Fixtures.db_assigned Fixtures.five_seconds 9000
  = (Fixtures.db_assigned, mkResponse 400 [("detail", JStr "invalid policy")])
  ∧ (policies_views.PolicyDetailView_update false Fixtures.db_assigned 1
       Fixtures.five_seconds 9000).1 = Fixtures.db_assigned
  ∧ status_code
      (policies_views.PolicyDetailView_update false Fixtures.db_assigned 1
         Fixtures.five_seconds 9000).2 ≠ 200%nat.
Proof.
  apply (X2_rest_views_enforce_bounds false Fixtures.db_assigned 1
           Fixtures.five_seconds 9000).
  left. reflexivity.
Defined.




(** X5.  [device_lock] and [device_unlock] answer 404 for an unknown device
    and 403 for a caller whose role is not [superadmin], [security] or
    [it_admin]; in both cases the database is left as it was. *)
Theorem X5_lock_unlock_gates (db : Store) (user : User.t) (data : gmap string Json)
    (device_id : N) (now : Z) :
  (get_device_by_uuid db device_id = None →
   devices_views.device_lock db user data device_id now = (db, not_found)
   ∧ devices_views.device_unlock db user data device_id now = (db, not_found))
  ∧ (is_Some (get_device_by_uuid db device_id) →
     User.role user ∉ ["superadmin"; "security"; "it_admin"] →
     devices_views.device_lock db user data device_id now
     = (db, mkResponse 403 [("error", JStr "Insufficient permissions")])
     ∧ devices_views.device_unlock db user data device_id now
       = (db, mkResponse 403 [("error", JStr "Insufficient permissions")])).
Proof.
  unfold devices_views.device_lock, devices_views.device_unlock,
    devices_views.command_view.
  split.
  - by intros ->.
  - intros [device ->] Hrole. by rewrite bool_decide_eq_true_2.
Qed.

(** The theorem on [db_one_device] for an auditor. *)
Lemma X5_lock_unlock_gates_witness :
  devices_views.device_lock Fixtures.db_one_device
    (User.mk 2 "bob" "auditor") ∅ 101 6000
  = (Fixtures.db_one_device,
     mkResponse 403 [("error", JStr "Insufficient permissions")])
  ∧ devices_views.device_unlock Fixtures.db_one_device
      (User.mk 2 "bob" "auditor") ∅ 101 6000
    = (Fixtures.db_one_device,
       mkResponse 403 [("error", JStr "Insufficient permissions")]).
Proof.
  apply (X5_lock_unlock_gates Fixtures.db_one_device (User.mk 2 "bob" "auditor") ∅
           101 6000).
  - vm_compute. eauto.
  - apply (bool_decide_unpack _). vm_compute. done.
Defined.

(** ** Instances *)

(** [pc1] was last seen at instant 5000: five minutes later it is offline,
    one microsecond before that it is online. *)
Lemma C3_is_online_five_minutes_witness :
  devices_models.is_online Fixtures.pc1 (5000 + 5 * 60 * 1000000) = false
  ∧ devices_models.is_online Fixtures.pc1 (5000 + 5 * 60 * 1000000 - 1) = true.
Proof.
  destruct (C3_is_online_five_minutes Fixtures.pc1 (5000 + 5 * 60 * 1000000 - 1))
    as ([_ Honline] & Hboundary & _).
  split.
  - apply (Hboundary 5000). reflexivity.
  - apply Honline. exists 5000. split; [reflexivity | lia].
Defined.


(** * Properties of the other endpoints *)

(** ** Commands that fail *)

Section FailedCommands.

Import devices_models devices_views events_models.

(** A column update keeps the UUID, so the device found under a UUID after a
    save is the saved form of the device found before. *)
Lemma find_uuid_map (f : Device.t → Device.t) (rows : list Device.t) uuid :
  (∀ d, Device.device_id (f d) = Device.device_id d) →
  find (λ d, N.eqb (Device.device_id d) uuid) (map f rows)
  = f <$> find (λ d, N.eqb (Device.device_id d) uuid) rows.
Proof.
  intros Hf. induction rows as [|row rows IH]; [done|].
  simpl. rewrite Hf. destruct (N.eqb (Device.device_id row) uuid); [done|apply IH].
Qed.

Lemma save_device_stored cols (self : Device.t) db :
  Device.id self ∈ Device.id <$> devices db →
  save_device cols self db
  = (set_devices
       (map (λ row, if Nat.eqb (Device.id row) (Device.id self)
                    then cols self row else row)) db,
     inr tt).
Proof.
  intros Hin. unfold save_device, mbind, M_bind, gets. simpl.
  by rewrite existsb_pk, bool_decide_eq_true_2.
Qed.

(** A device found under a UUID has its row in the table. *)
Lemma found_device_stored db uuid device :
  get_device_by_uuid db uuid = Some device →
  Device.id device ∈ Device.id <$> devices db.
Proof.
  intros [Hin _]%find_some. apply list_elem_of_fmap. exists device.
  split; [done|]. by apply list_elem_of_In.
Qed.

Lemma lock_screen_outcome self (user : User.t) (reason : Json) now db :
  Device.id self ∈ Device.id <$> devices db →
  ∃ e,
    lock_screen self (PyUser user) (PyJson reason) now db
    = (if bool_decide (reason = JNull)
       then set_device_actions
              (λ l, l ++ [DeviceAction.mk
                            (next_pk (DeviceAction.id <$> device_actions db))
                            (Device.id self) "lock" None "pending"
                            (py_str (PyUser user)) ∅ now None])
              (save_locked self now db)
       else save_locked self now db,
       inl e).
Proof.
  intros Hin. unfold lock_screen.
  erewrite bind_returns; [|by apply save_device_stored].
  destruct reason as [|b|n|s]; simpl.
  - eexists. reflexivity.
  - eexists. reflexivity.
  - eexists. reflexivity.
  - eexists. reflexivity.
Qed.


Lemma restart_device_raises self admin_user now :
  always_raises (restart_device self admin_user now).
Proof.
  unfold restart_device.
  apply bind_raises_after; intros _.
  apply bind_raises_first. intros db.
  edestruct (Event_objects_create_details) as [e He]; [|by eauto].
  simpl. set_solver.
Qed.

End FailedCommands.

(** X6.  For an existing device and a caller whose role is admitted,
    [device_lock] answers 500 and yet leaves the device stored as locked:
    [is_locked] true, status [locked], [last_lock_time] the current time.  No
    event is recorded, and a pending lock action is recorded only when the
    body gives [reason] as null.  [device_unlock] answers 500 and writes
    nothing. *)
Theorem X6_failed_lock_leaves_device_locked (db : Store) (user : User.t)
    (data : gmap string Json) (device_id : N) (now : Z) (device : Device.t) :
  get_device_by_uuid db device_id = Some device →
  User.role user ∈ ["superadmin"; "security"; "it_admin"] →
  status_code (devices_views.device_lock db user data device_id now).2 = 500%nat
  ∧ get_device_by_uuid (devices_views.device_lock db user data device_id now).1 device_id
    = Some (locked_at now device)
  ∧ Device.is_locked (locked_at now device) = true
  ∧ Device.status (locked_at now device) = "locked"
  ∧ Device.last_lock_time (locked_at now device) = Some now
  ∧ events (devices_views.device_lock db user data device_id now).1 = events db
  ∧ (data !! "reason" ≠ Some JNull →
     device_actions (devices_views.device_lock db user data device_id now).1
     = device_actions db)
  ∧ (data !! "reason" = Some JNull →
     ∃ row,
       device_actions (devices_views.device_lock db user data device_id now).1
       = device_actions db ++ [row]
       ∧ DeviceAction.status row = "pending"
       ∧ DeviceAction.initiated_by row = None
       ∧ DeviceAction.reason row = py_str (PyUser user))
  ∧ (devices_views.device_unlock db user data device_id now).1 = db
  ∧ status_code (devices_views.device_unlock db user data device_id now).2 = 500%nat.
Proof.
  intros Hdev Hrole.
  assert (devices_views.device_unlock db user data device_id now
          = (db, mkResponse 500 [("error", JStr "too many positional arguments")]))
    as Hunlock.
  { unfold devices_views.device_unlock, devices_views.command_view.
    rewrite Hdev. by rewrite bool_decide_eq_false_2 by (by intros ?). }
  rewrite Hunlock.
  unfold devices_views.device_lock, devices_views.command_view.
  rewrite Hdev. rewrite bool_decide_eq_false_2 by (by intros ?).
  set (reason := default (JStr "Manual lock via API") (data !! "reason")).
  destruct (lock_screen_outcome device user reason now db
              (found_device_stored _ _ _ Hdev)) as [e He].
  erewrite bind_raises; [|unfold devices_models.call_lock_screen; simpl; exact He].
  assert (get_device_by_uuid (save_locked device now db) device_id
          = Some (locked_at now device)) as Hfound.
  { unfold get_device_by_uuid, save_locked in *. simpl.
    rewrite (find_uuid_map _ _ _); [|by intros d; destruct (Nat.eqb _ _)].
    rewrite Hdev. simpl. by rewrite Nat.eqb_refl. }
  split; [done|]. simpl.
  split. { by destruct (bool_decide (reason = JNull)). }
  split; [done|]. split; [done|]. split; [done|].
  split. { by destruct (bool_decide (reason = JNull)). }
  split.
  - intros Hreason. rewrite bool_decide_eq_false_2; [done|].
    unfold reason. destruct (data !! "reason") as [j|]; simpl; [|done].
    intros ->. done.
  - split; [|done]. intros Hreason. unfold reason. rewrite Hreason. simpl.
    eexists. split; [reflexivity|]. done.
Qed.

Lemma X6_failed_lock_leaves_device_locked_witness :
  Device.is_locked Fixtures.pc1 = false
  ∧ status_code (devices_views.device_lock Fixtures.db_one_device Fixtures.admin
                   ∅ 101 6000).2 = 500%nat
  ∧ Device.is_locked
      <$> get_device_by_uuid
            (devices_views.device_lock Fixtures.db_one_device Fixtures.admin
               ∅ 101 6000).1 101
    = Some true.
Proof.
  destruct (X6_failed_lock_leaves_device_locked Fixtures.db_one_device Fixtures.admin
              ∅ 101 6000 Fixtures.pc1) as (H500 & Hfound & _).
  - reflexivity.
  - apply (bool_decide_unpack _). vm_compute. done.
  - split; [reflexivity|]. split; [exact H500|]. by rewrite Hfound.
Defined.

Section RestartScreenshot.

Variable strftime : Z → string.
Variable Screenshot_save : list (string * PyVal) → M Z.

(** One positional argument too many: both calls fail before the method
    runs. *)
Lemma call_restart_two_args self a b now db :
  ∃ e, call_restart_device self [a; b] now db = (db, inl e).
Proof. eexists. reflexivity. Qed.

Lemma call_screenshot_two_args self a b now db :
  ∃ e, call_take_screenshot strftime Screenshot_save self [a; b] now db = (db, inl e).
Proof. eexists. reflexivity. Qed.

Lemma command_view_for_gates {R} roles (call : Device.t → list PyVal → Z → M R)
    attr default_reason message db user data device_id now :
  (∀ self a b, ∃ e, call self [a; b] now db = (db, inl e)) →
  (command_view_for roles call attr default_reason message db user data device_id now).1
  = db
  ∧ status_code
      (command_view_for roles call attr default_reason message db user data
         device_id now).2
    = match get_device_by_uuid db device_id with
      | None => 404%nat
      | Some _ => if bool_decide (User.role user ∈ roles) then 500%nat else 403%nat
      end.
Proof.
  intros Hcall. unfold command_view_for.
  destruct (get_device_by_uuid db device_id) as [device|]; [|done].
  destruct (decide (User.role user ∈ roles)) as [Hin|Hout].
  - rewrite bool_decide_eq_false_2 by (by intros ?).
    rewrite (bool_decide_eq_true_2 _ Hin).
    destruct (Hcall device (PyUser user)
                (PyJson (default (JStr default_reason) (data !! "reason"))))
      as [e He].
    erewrite bind_raises; [done|exact He].
  - rewrite (bool_decide_eq_true_2 _ Hout). by rewrite (bool_decide_eq_false_2 _ Hout).
Qed.

(** [take_screenshot] stops in the constructor of [Screenshot]. *)
Lemma take_screenshot_raises self admin_user now db :
  ∃ e, take_screenshot strftime Screenshot_save self admin_user now db = (db, inl e).
Proof.
  unfold take_screenshot, Screenshot_objects_create.
  destruct (as_user_fk "Screenshot.taken_by_user" (kwarg "taken_by_user"
              [("device", PyDevice self); ("taken_by", admin_user);
               ("filename", PyStr ("screenshot_" +:+ Device.hostname self +:+ "_"
                                     +:+ strftime now +:+ ".png"));
               ("status", PyStr "requested")])) eqn:Hfk; simpl in Hfk; [done|].
  eexists. reflexivity.
Qed.

End RestartScreenshot.

(** X7.  [device_restart] and [device_screenshot] never answer success and
    never write: the answer is 404 for an unknown device, 403 for a role that
    the view does not admit (restart admits [superadmin] and [it_admin];
    screenshot also [security] and [auditor]) and 500 otherwise, because the
    view passes two positional arguments to a method that takes one. *)
Theorem X7_restart_and_screenshot_fail (strftime : Z → string)
    (Screenshot_save : list (string * PyVal) → M Z) (db : Store) (user : User.t)
    (data : gmap string Json) (device_id : N) (now : Z) :
  (device_restart db user data device_id now).1 = db
  ∧ status_code (device_restart db user data device_id now).2
    = match get_device_by_uuid db device_id with
      | None => 404%nat
      | Some _ =>
          if bool_decide (User.role user ∈ ["superadmin"; "it_admin"])
          then 500%nat else 403%nat
      end
  ∧ (device_screenshot strftime Screenshot_save db user data device_id now).1 = db
  ∧ status_code (device_screenshot strftime Screenshot_save db user data device_id now).2
    = match get_device_by_uuid db device_id with
      | None => 404%nat
      | Some _ =>
          if bool_decide (User.role user
                            ∈ ["superadmin"; "security"; "it_admin"; "auditor"])
          then 500%nat else 403%nat
      end.
Proof.
  unfold device_restart, device_screenshot.
  split; [|split; [|split]];
    apply command_view_for_gates; intros;
    first [apply call_restart_two_args | apply call_screenshot_two_args].
Qed.

(** X8.  Called as their signatures allow, the two methods fail as well.
    [Device.take_screenshot] raises in the constructor of [Screenshot], which
    has no field [taken_by], [filename] or [status], and writes nothing.
    [Device.restart_device] raises at the [details] keyword of its event;
    called for a stored device with a stored user it has by then stored one
    action under a key that was not in use: a pending restart of that device
    initiated by that user, which stays. *)
Theorem X8_restart_and_screenshot_methods_raise (strftime : Z → string)
    (Screenshot_save : list (string * PyVal) → M Z) (self : Device.t)
    (admin_user : PyVal) (user : User.t) (now : Z) (db : Store) :
  (∃ e, take_screenshot strftime Screenshot_save self admin_user now db = (db, inl e))
  ∧ always_raises (restart_device self admin_user now)
  ∧ (self ∈ devices db → user ∈ users db →
     ∃ e row,
       restart_device self (PyUser user) now db
       = (set_device_actions (λ l, l ++ [row]) db, inl e)
       ∧ (DeviceAction.id row ∉ DeviceAction.id <$> device_actions db)
       ∧ DeviceAction.device row = Device.id self
       ∧ DeviceAction.action_type row = "restart"
       ∧ DeviceAction.initiated_by row = Some (User.id user)
       ∧ DeviceAction.status row = "pending"
       ∧ DeviceAction.reason row = ""
       ∧ DeviceAction.metadata row = ∅
       ∧ DeviceAction.created_at row = now
       ∧ DeviceAction.completed_at row = None)
  ∧ ("taken_by" ∉ Screenshot_fields) ∧ ("filename" ∉ Screenshot_fields)
  ∧ ("status" ∉ Screenshot_fields).
Proof.
  split; [apply take_screenshot_raises|].
  split; [apply restart_device_raises|].
  split.
  - intros _ _. eexists _, _. split; [reflexivity|]. simpl.
    split; [apply next_pk_new|]. done.
  - repeat split; apply (bool_decide_unpack _); vm_compute; done.
Qed.

(** The theorem on [db_one_device]: [restart_device] called on [pc1] for
    the administrator. *)
Lemma X8_restart_and_screenshot_methods_raise_witness :
  ∃ e row,
    restart_device Fixtures.pc1 (PyUser Fixtures.admin) 6000 Fixtures.db_one_device
    = (set_device_actions (λ l, l ++ [row]) Fixtures.db_one_device, inl e)
    ∧ DeviceAction.action_type row = "restart"
    ∧ DeviceAction.initiated_by row = Some 1%nat.
Proof.
  destruct (X8_restart_and_screenshot_methods_raise (λ _, "") (λ _, mret 0)
              Fixtures.pc1 PyNone Fixtures.admin 6000 Fixtures.db_one_device)
    as (_ & _ & Hrestart & _).
  destruct Hrestart as (e & row & Hrun & _ & _ & Htype & Hby & _).
  - apply list_elem_of_here.
  - apply list_elem_of_here.
  - exists e, row. split; [exact Hrun|]. split; [exact Htype|exact Hby].
Defined.

Section DeviceAction.
Import events_models.


End DeviceAction.




Section OrderBy.
Context {A : Type} (before : A → A → bool).

Lemma insert_by_Permutation x l : insert_by before x l ≡ₚ x :: l.
Proof.
  induction l as [|y ys IH]; simpl; [done|].
  destruct (before y x); [|done]. rewrite IH. apply Permutation_swap.
Qed.

Lemma order_by_Permutation l : order_by before l ≡ₚ l.
Proof.
  induction l as [|x l IH]; simpl; [done|].
  unfold order_by in *. simpl. by rewrite insert_by_Permutation, IH.
Qed.

Lemma elem_of_order_by x l : x ∈ order_by before l ↔ x ∈ l.
Proof. by rewrite order_by_Permutation. Qed.

Lemma length_order_by l : length (order_by before l) = length l.
Proof. by rewrite order_by_Permutation. Qed.

Hypothesis asym : ∀ x y, before x y = true → before y x = false.
Hypothesis negtrans : ∀ x y z,
  before x y = false → before y z = false → before x z = false.

Lemma insert_by_ordered x l : ordered before l → ordered before (insert_by before x l).
Proof.
  unfold ordered. induction 1 as [|y ys Hs IH Hy]; simpl.
  - repeat constructor.
  - destruct (before y x) eqn:Hyx.
    + constructor; [done|]. rewrite insert_by_Permutation.
      constructor; [by apply asym|done].
    + constructor; [by constructor|]. constructor; [done|].
      eapply Forall_impl; [exact Hy|]. intros z Hz. exact (negtrans _ _ _ Hz Hyx).
Qed.

Lemma order_by_ordered l : ordered before (order_by before l).
Proof.
  induction l as [|x l IH]; [constructor|].
  unfold order_by in *. simpl. by apply insert_by_ordered.
Qed.

Lemma ordered_lookup l i j a b :
  ordered before l → (i < j)%nat → l !! i = Some a → l !! j = Some b →
  before b a = false.
Proof.
  intros Hs. revert i j. induction Hs as [|x l Hs IH Hx]; intros i j Hij Hi Hj.
  - by rewrite lookup_nil in Hi.
  - destruct j as [|j]; [lia|]. simpl in Hj. destruct i as [|i].
    + simpl in Hi. injection Hi as ->.
      rewrite Forall_forall in Hx. apply Hx. by eapply list_elem_of_lookup_2.
    + simpl in Hi. apply (IH i j); [lia|done..].
Qed.

End OrderBy.

Section DeviceList.
Import devices_models.



Lemma str_lower_true : str_lower "true" = "true".
Proof. reflexivity. Qed.

Lemma elem_of_device_list nf db status online now d :
  d ∈ DeviceListCreateView_get_queryset nf db status online now
  ↔ d ∈ devices db
    ∧ (∀ s, status = Some s → s ≠ "" → Device.status d = s)
    ∧ (∀ o, online = Some o →
         if String.eqb (str_lower o) "true"
         then last_seen__gte (now - timedelta_minutes 5) d = true
         else last_seen__lt (now - timedelta_minutes 5) d = true).
Proof.
  unfold DeviceListCreateView_get_queryset. rewrite elem_of_order_by.
  assert (d ∈ match status with
              | Some s => if negb (String.eqb s "")
                          then filter (λ d, Device.status d = s) (devices db)
                          else devices db
              | None => devices db
              end
          ↔ d ∈ devices db ∧ ∀ s, status = Some s → s ≠ "" → Device.status d = s)
    as Hstatus.
  { destruct status as [s|].
    - destruct (String.eqb_spec s "") as [->|Hs]; simpl.
      + split; [intros ?; split; [done|by intros ? [= <-]]|by intros [? _]].
      + rewrite list_elem_of_filter. split.
        * intros [? ?]. split; [done|]. by intros ? [= <-].
        * intros [? H]. split; [by apply H|done].
    - split; [intros ?; split; [done|by intros ? [=]]|by intros [? _]]. }
  destruct online as [o|].
  - destruct (String.eqb (str_lower o) "true") eqn:Ho;
      rewrite list_elem_of_filter, Hstatus; split.
    + intros (? & ? & ?). repeat split; [done..|]. intros ? [= <-]. by rewrite Ho.
    + intros (? & ? & H). specialize (H o eq_refl). rewrite Ho in H. done.
    + intros (? & ? & ?). repeat split; [done..|]. intros ? [= <-]. by rewrite Ho.
    + intros (? & ? & H). specialize (H o eq_refl). rewrite Ho in H. done.
  - rewrite Hstatus. split.
    + intros (? & ?). repeat split; [done..|]. by intros ? [=].
    + intros (? & ? & _). done.
Qed.

End DeviceList.

(** X10.  The query parameter [online] of the device list.  [online=true]
    (in any letter case) keeps the devices last seen at most five minutes
    ago, every other value those last seen more than five minutes ago; a
    device that was never seen is in neither list.  Every device that
    [is_online] is listed by [online=true], and the two differ for exactly
    one instant: a device last seen exactly five minutes ago is listed as
    online while [is_online] is false. *)
Theorem X10_online_filter (nulls_first : bool) (db : Store) (status : option string)
    (online : string) (now : Z) (d : Device.t) :
  let listed o := d ∈ DeviceListCreateView_get_queryset nulls_first db status o now in
  (listed (Some online)
   ↔ listed None
     ∧ ∃ t, Device.last_seen d = Some t
            ∧ if String.eqb (str_lower online) "true"
              then now - t ≤ timedelta_minutes 5
              else timedelta_minutes 5 < now - t)
  ∧ (Device.last_seen d = None → ¬ listed (Some online))
  ∧ (listed None → devices_models.is_online d now = true → listed (Some "TRUE"))
  ∧ (listed (Some "true") ∧ devices_models.is_online d now = false
     ↔ listed None ∧ Device.last_seen d = Some (now - timedelta_minutes 5)).
Proof.
  intros listed. subst listed. cbv beta. rewrite !elem_of_device_list.
  assert (∀ o : string, None = Some o → if String.eqb (str_lower o) "true"
            then last_seen__gte (now - timedelta_minutes 5) d = true
            else last_seen__lt (now - timedelta_minutes 5) d = true) as Hnone
    by (by intros ? [=]).
  unfold devices_models.is_online, last_seen__gte, last_seen__lt in *.
  split; [|split; [|split]].
  - split.
    + intros (Hd & Hs & Ho). split; [done|]. specialize (Ho online eq_refl).
      destruct (Device.last_seen d) as [t|]; [|by destruct (String.eqb _ _)].
      exists t. split; [done|]. destruct (String.eqb _ _); lia.
    + intros ((Hd & Hs & _) & t & Ht & Ho). repeat split; [done..|].
      intros ? [= <-]. rewrite Ht. destruct (String.eqb _ _); lia.
  - intros Hnever (_ & _ & Ho). specialize (Ho online eq_refl).
    rewrite Hnever in Ho. by destruct (String.eqb _ _).
  - intros (Hd & Hs & _) Hon. repeat split; [done..|]. intros ? [= <-].
    change (String.eqb (str_lower "TRUE") "true") with true. cbv iota.
    destruct (Device.last_seen d); [lia|done].
  - split.
    + intros ((Hd & Hs & Ho) & Hoff). specialize (Ho "true" eq_refl).
      change (String.eqb (str_lower "true") "true") with true in Ho. cbv iota in Ho.
      split; [done|]. destruct (Device.last_seen d) as [t|]; [|done].
      f_equal. lia.
    + intros ((Hd & Hs & _) & Ht). rewrite Ht. split; [|lia].
      repeat split; [done..|]. intros ? [= <-].
      change (String.eqb (str_lower "true") "true") with true. cbv iota. lia.
Qed.



Section Stats.

Lemma length_filter_split {A} (P Q : A → Prop) `{∀ x, Decision (P x)}
    `{∀ x, Decision (Q x)} (l : list A) :
  (∀ x, x ∈ l → ¬ (P x ∧ Q x)) →
  (length (filter (λ x, P x ∨ Q x) l)
   = length (filter P l) + length (filter Q l))%nat.
Proof.
  induction l as [|x l IH]; intros Hdisj; [done|].
  assert (¬ (P x ∧ Q x)) as Hx by (apply Hdisj; left).
  specialize (IH (λ y Hy, Hdisj y (list_elem_of_further _ _ _ Hy))).
  rewrite !filter_cons.
  destruct (decide (P x)), (decide (Q x)), (decide (P x ∨ Q x)); simpl;
    try tauto; lia.
Qed.

Lemma length_filter_complement {A} (P : A → Prop) `{∀ x, Decision (P x)} (l : list A) :
  (length l = length (filter P l) + length (filter (λ x, ¬ P x) l))%nat.
Proof.
  induction l as [|x l IH]; [done|]. rewrite !filter_cons.
  destruct (decide (P x)), (decide (¬ P x)); simpl; try tauto; lia.
Qed.

End Stats.

(** X12.  The numbers of [device_stats].  Online and offline add up to the
    total and none is negative; the online number is the length of the
    device list with [online=true]; the offline number is the length of the
    list with [online=false] plus the devices that were never seen, which
    that list leaves out; with no device at all the percentage is the
    integer 0 and no division is made. *)
Theorem X12_device_stats_counts (percentage : nat → nat → Json) (nulls_first : bool)
    (db : Store) (now : Z) :
  ∃ total online offline locked : nat,
    content (device_stats percentage db now)
    = [("total_devices", JInt (Z.of_nat total));
       ("online_devices", JInt (Z.of_nat online));
       ("offline_devices", JInt (Z.of_nat offline));
       ("locked_devices", JInt (Z.of_nat locked));
       ("online_percentage",
        if decide (devices db = []) then JInt 0 else percentage online total)]
    ∧ total = length (devices db)
    ∧ total = (online + offline)%nat
    ∧ (locked ≤ total)%nat
    ∧ online
      = length (DeviceListCreateView_get_queryset nulls_first db None (Some "true") now)
    ∧ offline
      = (length (DeviceListCreateView_get_queryset nulls_first db None (Some "false")
                   now)
         + length (filter (λ d, Device.last_seen d = None) (devices db)))%nat.
Proof.
  set (cutoff := now - timedelta_minutes 5).
  set (online := length (filter (λ d, last_seen__gte cutoff d = true) (devices db))).
  assert (length (devices db)
          = online + length (filter (λ d, ¬ last_seen__gte cutoff d = true) (devices db)))%nat
    as Hsplit by apply length_filter_complement.
  exists (length (devices db)), online,
    (length (filter (λ d, ¬ last_seen__gte cutoff d = true) (devices db))),
    (length (filter (λ d, Device.is_locked d = true) (devices db))).
  split; [|split; [done|split; [done|split; [apply length_filter|split]]]].
  - assert (∀ (l : list Device.t) (x y : Json),
              (if Nat.ltb 0 (length l) then x else y) = if decide (l = []) then y else x)
      as Hif by (by intros [|??] ??).
    unfold device_stats. fold cutoff. fold online. cbv zeta. simpl. rewrite Hif.
    replace (Z.of_nat (length (devices db)) - Z.of_nat online)
      with (Z.of_nat (length (filter (λ d, ¬ last_seen__gte cutoff d = true)
                                (devices db)))) by lia.
    reflexivity.
  - unfold DeviceListCreateView_get_queryset. by rewrite length_order_by.
  - unfold DeviceListCreateView_get_queryset. rewrite length_order_by.
    change (String.eqb (str_lower "false") "true") with false. cbv iota. fold cutoff.
    rewrite <- length_filter_split.
    + f_equal. apply list_filter_iff. intros d.
      unfold last_seen__gte, last_seen__lt.
      destruct (Device.last_seen d) as [t|]; [|naive_solver].
      split; [intros Hge; left; lia|intros [Hlt|[=]]; lia].
    + intros d _ [Hlt Hnone]. unfold last_seen__lt in Hlt. by rewrite Hnone in Hlt.
Qed.

Section PolicyList.

Lemma policy_before_spec p q :
  policy_before p q = true
  ↔ Policy.priority q < Policy.priority p
    ∨ (Policy.priority p = Policy.priority q ∧ Policy.created_at q < Policy.created_at p).
Proof.
  unfold policy_before.
  rewrite orb_true_iff, andb_true_iff, !Z.ltb_lt, Z.eqb_eq. done.
Qed.

Lemma policy_before_false p q :
  policy_before p q = false
  ↔ Policy.priority p ≤ Policy.priority q
    ∧ (Policy.priority p = Policy.priority q → Policy.created_at p ≤ Policy.created_at q).
Proof.
  rewrite <- not_true_iff_false, policy_before_spec. lia.
Qed.

Lemma policy_before_asym p q : policy_before p q = true → policy_before q p = false.
Proof. rewrite policy_before_spec, policy_before_false. lia. Qed.

Lemma policy_before_negtrans p q r :
  policy_before p q = false → policy_before q r = false → policy_before p r = false.
Proof. rewrite !policy_before_false. lia. Qed.

Lemma elem_of_keep_if {A} (param : option string) (field : A → string) l x :
  x ∈ keep_if param field l
  ↔ x ∈ l ∧ ∀ v, param = Some v → v ≠ "" → field x = v.
Proof.
  unfold keep_if. destruct param as [v|].
  - destruct (String.eqb_spec v "") as [->|Hv]; simpl.
    + split; [intros ?; split; [done|by intros ? [= <-]]|by intros [? _]].
    + rewrite list_elem_of_filter. split.
      * intros [? ?]. split; [done|]. by intros ? [= <-].
      * intros [? H]. split; [by apply H|done].
  - split; [intros ?; split; [done|by intros ? [=]]|by intros [? _]].
Qed.

End PolicyList.

(** X13.  The policy list.  It holds the policies of the requested scope
    (all scopes when the parameter is absent or empty); with a parameter
    [is_active] it holds the active policies when the value is [true] in any
    letter case and the inactive ones for every other value, such as [1] or
    [yes].  The rows come by descending priority, and rows of equal priority
    by descending creation date. *)
Theorem X13_policy_list (db : Store) (scope is_active : option string) :
  (∀ p, p ∈ PolicyListCreateView_get_queryset db scope is_active
        ↔ p ∈ policies db
          ∧ (∀ s, scope = Some s → s ≠ "" → Policy.scope p = s)
          ∧ (∀ v, is_active = Some v →
               Policy.is_active p = String.eqb (str_lower v) "true"))
  ∧ (∀ p v, is_active = Some v → v ∈ ["1"; "yes"; "on"; "false"; ""] →
        p ∈ PolicyListCreateView_get_queryset db scope is_active →
        Policy.is_active p = false)
  ∧ (∀ i j p q, (i < j)%nat →
        PolicyListCreateView_get_queryset db scope is_active !! i = Some p →
        PolicyListCreateView_get_queryset db scope is_active !! j = Some q →
        Policy.priority q ≤ Policy.priority p
        ∧ (Policy.priority q = Policy.priority p →
           Policy.created_at q ≤ Policy.created_at p)).
Proof.
  assert (∀ p, p ∈ PolicyListCreateView_get_queryset db scope is_active
        ↔ p ∈ policies db
          ∧ (∀ s, scope = Some s → s ≠ "" → Policy.scope p = s)
          ∧ (∀ v, is_active = Some v →
               Policy.is_active p = String.eqb (str_lower v) "true")) as Hmem.
  { intros p. unfold PolicyListCreateView_get_queryset. rewrite elem_of_order_by.
    destruct is_active as [v|].
    - rewrite list_elem_of_filter, elem_of_keep_if. split.
      + intros (? & ? & ?). repeat split; [done..|]. by intros ? [= <-].
      + intros (? & ? & H). split; [by apply H|done].
    - rewrite elem_of_keep_if. split.
      + intros (? & ?). repeat split; [done..|]. by intros ? [=].
      + intros (? & ? & _). done. }
  split; [exact Hmem|]. split.
  - intros p v -> Hv Hp. apply Hmem in Hp as (_ & _ & Hp).
    rewrite (Hp v eq_refl). clear -Hv.
    rewrite !elem_of_cons, elem_of_nil in Hv.
    by destruct Hv as [->|[->|[->|[->|[->|[]]]]]].
  - intros i j p q Hij Hi Hj.
    apply policy_before_false.
    exact (ordered_lookup policy_before _ i j p q
             (order_by_ordered _ policy_before_asym policy_before_negtrans _)
             Hij Hi Hj).
Qed.

Section AssignmentLoop.

(** The two loops of [api_policy_assignments] have one shape: look the row
    of an identifier up, then create the assignment of the policy to it. *)
Context {T : Type} (lookup : Store → nat → option T) (pk : T → nat).
Context (device device_group : nat → option nat) (policy : nat) (user : User.t) (now : Z).

Hypothesis lookup_assignments : ∀ f db x,
  lookup (set_policy_assignments f db) x = lookup db x.
Hypothesis lookup_pk : ∀ db x o, lookup db x = Some o → pk o = x.

Let body := assign_target lookup pk device device_group policy user now.

Lemma body_cases x db :
  (lookup db x = None ∧ body x db = (db, inl DoesNotExist))
  ∨ (is_Some (lookup db x)
     ∧ violates_unique_together (policy_assignments db) None policy (device x)
         (device_group x) = true
     ∧ ∃ e, body x db = (db, inl e))
  ∨ (is_Some (lookup db x)
     ∧ violates_unique_together (policy_assignments db) None policy (device x)
         (device_group x) = false
     ∧ body x db
       = (set_policy_assignments
            (λ _, policy_assignments db
                  ++ [PolicyAssignment.mk
                        (next_pk (PolicyAssignment.id <$> policy_assignments db))
                        policy (device x) (device_group x) now (Some (User.id user)) true]) db,
          inr tt)).
Proof.
  unfold body, assign_target, objects_get, PolicyAssignment_objects_create, mbind,
    M_bind, related,
    gets, raise, modify, mret, M_ret.
  cbv beta. destruct (lookup db x) as [o|] eqn:Ho; [right|by left].
  rewrite (lookup_pk _ _ _ Ho).
  destruct (violates_unique_together (policy_assignments db) None policy (device x)
              (device_group x)) eqn:Hu; [left|right].
  - split; [done|]. split; [done|]. by eexists.
  - split; [done|]. split; [done|]. reflexivity.
Qed.

Lemma for_each_any ids db :
  ∃ new r,
    for_each body ids db
    = (set_policy_assignments (λ _, policy_assignments db ++ new) db, r)
    ∧ Forall (assigned_by_request policy user now) new
    ∧ ((∃ x, x ∈ ids ∧ lookup db x = None) → ∃ e, r = inl e).
Proof.
  revert db. induction ids as [|x ids IH]; intros db.
  - exists [], (inr tt). split; [|split; [constructor|]].
    + simpl. rewrite app_nil_r. by destruct db.
    + intros (x & Hx & _). by apply elem_of_nil in Hx.
  - simpl for_each.
    destruct (body_cases x db) as [[Hnone Hb]|[(_ & _ & e & Hb)|(Hsome & _ & Hb)]].
    + exists [], (inl DoesNotExist). split; [|split; [constructor|by eauto]].
      erewrite bind_raises by exact Hb. rewrite app_nil_r. by destruct db.
    + exists [], (inl e). split; [|split; [constructor|by eauto]].
      erewrite bind_raises by exact Hb. rewrite app_nil_r. by destruct db.
    + erewrite bind_returns by exact Hb.
      match goal with |- context [for_each body ids ?s] =>
        destruct (IH s) as (new & r & Hloop & Hnew & Hfail); rewrite Hloop end.
      eexists (_ :: new), r. split; [|split].
      * simpl. rewrite <- app_assoc. reflexivity.
      * constructor; [by repeat split|done].
      * intros (y & Hy & Hnone). apply Hfail.
        apply elem_of_cons in Hy as [->|Hy].
        -- rewrite Hnone in Hsome. by destruct Hsome.
        -- exists y. by rewrite lookup_assignments.
Qed.

Hypothesis distinct_targets : ∀ id x y, x ≠ y →
  violates_unique_together
    [PolicyAssignment.mk id policy (device x) (device_group x) now (Some (User.id user)) true]
    None policy (device y) (device_group y) = false.

Lemma for_each_all ids db :
  (∀ x, x ∈ ids → is_Some (lookup db x)) →
  NoDup ids →
  (∀ x, x ∈ ids →
     violates_unique_together (policy_assignments db) None policy (device x)
       (device_group x) = false) →
  ∃ new,
    for_each body ids db
    = (set_policy_assignments (λ _, policy_assignments db ++ new) db, inr tt)
    ∧ Forall2 (λ a x, assigned_by_request policy user now a ∧ PolicyAssignment.device a = device x
                      ∧ PolicyAssignment.device_group a = device_group x) new ids.
Proof.
  revert db. induction ids as [|x ids IH]; intros db Hknown Hnodup Hfree.
  - exists []. split; [|constructor]. simpl. rewrite app_nil_r. by destruct db.
  - simpl for_each. apply NoDup_cons in Hnodup as [Hx Hnodup].
    destruct (body_cases x db) as [[Hnone _]|[(_ & Hu & _)|(_ & _ & Hb)]].
    + destruct (Hknown x) as [? Hsome]; [left|]. by rewrite Hsome in Hnone.
    + rewrite Hfree in Hu by left. done.
    + erewrite bind_returns by exact Hb.
      match goal with |- context [for_each body ids ?s] =>
        destruct (IH s) as (new & Hloop & Hnew); [..|rewrite Hloop] end.
      * intros y Hy. rewrite lookup_assignments. apply Hknown. by right.
      * done.
      * intros y Hy. simpl. unfold violates_unique_together.
        rewrite existsb_app. apply orb_false_intro.
        -- apply Hfree. by right.
        -- apply distinct_targets. intros ->. done.
      * eexists (_ :: new). split.
        -- simpl. rewrite <- app_assoc. reflexivity.
        -- constructor; [by repeat split|done].
Qed.

End AssignmentLoop.

Section Assignments.

Lemma find_pk {A} (pk : A → nat) (rows : list A) n o :
  find (λ r, Nat.eqb (pk r) n) rows = Some o → pk o = n.
Proof. intros H. apply find_some in H as [_ H]. by apply Nat.eqb_eq in H. Qed.

Lemma no_violation rows policy device device_group :
  Forall (λ a, PolicyAssignment.policy a ≠ policy
               ∨ ((device = None ∨ PolicyAssignment.device a = None)
                  ∧ (device_group = None ∨ PolicyAssignment.device_group a = None)))
    rows →
  violates_unique_together rows None policy device device_group = false.
Proof.
  intros Hrows. unfold violates_unique_together.
  apply not_true_iff_false. intros Hex. apply existsb_exists in Hex as (a & Ha & Hv).
  rewrite Forall_forall in Hrows. apply list_elem_of_In, Hrows in Ha.
  apply andb_prop in Hv as [Hv Htarget]. apply andb_prop in Hv as [_ Hp].
  apply Nat.eqb_eq in Hp. destruct Ha as [Ha|[Hd Hg]]; [done|].
  apply orb_prop in Htarget as [Ht|Ht].
  - destruct device; [|done]. destruct Hd as [?|Hd]; [done|]. by rewrite Hd in Ht.
  - destruct device_group; [|done]. destruct Hg as [?|Hg]; [done|]. by rewrite Hg in Ht.
Qed.

Lemma distinct_devices id policy now (user : User.t) x y :
  x ≠ y →
  violates_unique_together
    [PolicyAssignment.mk id policy (Some x) None now (Some (User.id user)) true]
    None policy (Some y) None = false.
Proof.
  intros Hxy. unfold violates_unique_together. simpl.
  rewrite Nat.eqb_refl. simpl. by destruct (Nat.eqb_spec x y).
Qed.

Lemma distinct_groups id policy now (user : User.t) x y :
  x ≠ y →
  violates_unique_together
    [PolicyAssignment.mk id policy None (Some x) now (Some (User.id user)) true]
    None policy None (Some y) = false.
Proof.
  intros Hxy. unfold violates_unique_together. simpl.
  rewrite Nat.eqb_refl. simpl. by destruct (Nat.eqb_spec x y).
Qed.

Lemma Forall2_left {A B} (P : A → B → Prop) (Q : A → Prop) l k :
  (∀ a b, P a b → Q a) → Forall2 P l k → Forall Q l.
Proof. intros HPQ. induction 1; constructor; eauto. Qed.

Lemma filter_other_policies policy (rows new : list PolicyAssignment.t) :
  Forall (λ a, PolicyAssignment.policy a = policy) new →
  filter (λ a, PolicyAssignment.policy a ≠ policy)
    (filter (λ a, PolicyAssignment.policy a ≠ policy) rows ++ new)
  = filter (λ a, PolicyAssignment.policy a ≠ policy) rows.
Proof.
  intros Hnew. rewrite filter_app.
  replace (filter (λ a, PolicyAssignment.policy a ≠ policy) new) with
    (@nil PolicyAssignment.t).
  - rewrite app_nil_r. induction rows as [|a rows IH]; [done|].
    rewrite filter_cons. destruct (decide _); [|done].
    rewrite filter_cons_True by done. by rewrite IH.
  - symmetry. induction Hnew as [|a new Ha _ IH]; [done|].
    rewrite filter_cons. by destruct (decide _).
Qed.

End Assignments.

Section AssignmentsView.

Lemma api_policy_assignments_known db user data now pid policy :
  AssignmentsBody.policy_id data = Some pid →
  get_policy db pid = Some policy →
  api_policy_assignments_post db user data now
  = match (for_each (assign_target get_device Device.id Some (λ _, None) pid user now)
             (default [] (AssignmentsBody.devices data)) ;;
           for_each (assign_target get_group DeviceGroup.id (λ _, None) Some pid user now)
             (default [] (AssignmentsBody.groups data)))
            (set_policy_assignments
               (filter (λ a, PolicyAssignment.policy a ≠ pid)) db) with
    | (db', inr _) =>
        (db', mkResponse 200
                [("success", JBool true);
                 ("message", JStr "Policy assignments saved successfully")])
    | (db', inl e) =>
        (db', mkResponse 400 [("success", JBool false); ("error", JStr (exc_str e))])
    end.
Proof.
  intros Hpid Hpolicy. unfold api_policy_assignments_post. cbv zeta.
  erewrite bind_returns by (unfold lift; rewrite Hpid; reflexivity).
  erewrite bind_returns by (unfold objects_get; rewrite Hpolicy; reflexivity).
  erewrite bind_returns by reflexivity.
  rewrite (get_policy_id _ _ _ Hpolicy). reflexivity.
Qed.

End AssignmentsView.

(** X14.  [api_policy_assignments], POST, when it succeeds.  For a policy
    that exists, device and group identifiers that all exist and no
    identifier given twice, the answer is 200 and the assignments of the
    policy are replaced: the rows of the other policies stay, in their
    order, and after them comes one new row per device identifier and then
    one per group identifier, in the order of the request, each active, made
    at [now] by the requesting user, with exactly one target. *)
Theorem X14_assignments_are_replaced (db : Store) (user : User.t)
    (data : AssignmentsBody.t) (now : Z) (pid : nat) (policy : Policy.t)
    (device_ids group_ids : list nat) :
  AssignmentsBody.policy_id data = Some pid →
  get_policy db pid = Some policy →
  default [] (AssignmentsBody.devices data) = device_ids →
  default [] (AssignmentsBody.groups data) = group_ids →
  (∀ d, d ∈ device_ids → is_Some (get_device db d)) →
  (∀ g, g ∈ group_ids → is_Some (get_group db g)) →
  NoDup device_ids → NoDup group_ids →
  status_code (api_policy_assignments_post db user data now).2 = 200%nat
  ∧ ∃ for_devices for_groups,
      (api_policy_assignments_post db user data now).1
      = set_policy_assignments
          (λ _, filter (λ a, PolicyAssignment.policy a ≠ pid) (policy_assignments db)
                ++ for_devices ++ for_groups) db
      ∧ Forall2 (λ a d, assigned_by_request pid user now a
                        ∧ PolicyAssignment.device a = Some d
                        ∧ PolicyAssignment.device_group a = None)
          for_devices device_ids
      ∧ Forall2 (λ a g, assigned_by_request pid user now a
                        ∧ PolicyAssignment.device a = None
                        ∧ PolicyAssignment.device_group a = Some g)
          for_groups group_ids.
Proof.
  intros Hpid Hpolicy Hdevices Hgroups Hd Hg Hnd Hng.
  rewrite (api_policy_assignments_known _ _ _ _ _ _ Hpid Hpolicy), Hdevices, Hgroups.
  set (db0 := set_policy_assignments _ db).
  destruct (for_each_all get_device Device.id Some (λ _, None) pid user now
              (λ _ _ _, eq_refl) (λ db x o, find_pk Device.id _ x o)
              (λ id x y, distinct_devices id pid now user x y)
              device_ids db0 Hd Hnd) as (for_devices & Hloop1 & Hrows1).
  { intros d _. apply no_violation, Forall_forall. intros a Ha. left.
    subst db0. simpl in Ha. by apply list_elem_of_filter in Ha as [Ha _]. }
  erewrite bind_returns by exact Hloop1.
  set (db1 := set_policy_assignments _ db0).
  destruct (for_each_all get_group DeviceGroup.id (λ _, None) Some pid user now
              (λ _ _ _, eq_refl) (λ db x o, find_pk DeviceGroup.id _ x o)
              (λ id x y, distinct_groups id pid now user x y)
              group_ids db1 Hg Hng) as (for_groups & Hloop2 & Hrows2).
  { intros g _. apply no_violation, Forall_forall. intros a Ha.
    subst db1 db0. simpl in Ha. apply elem_of_app in Ha as [Ha|Ha].
    - left. by apply list_elem_of_filter in Ha as [Ha _].
    - right. split; [by left|right].
      apply (Forall2_left _ (λ a, PolicyAssignment.device_group a = None))
        in Hrows1; [|by intros ?? (_ & _ & ?)].
      rewrite Forall_forall in Hrows1. by apply Hrows1. }
  rewrite Hloop2. split; [done|]. exists for_devices, for_groups.
  split; [|done]. simpl. by rewrite <- app_assoc.
Qed.

Lemma X14_assignments_are_replaced_witness :
  get_policy Fixtures.db_fleet 1 = Some Fixtures.strict
  ∧ (api_policy_assignments_post Fixtures.db_fleet Fixtures.admin Samples.to_office 700)
    = (set_policy_assignments
         (λ _, [Fixtures.relaxed_on_office;
                PolicyAssignment.mk 3 1 None (Some 1%nat) 700 (Some 1%nat) true])
         Fixtures.db_fleet,
       mkResponse 200 [("success", JBool true);
                       ("message", JStr "Policy assignments saved successfully")])
  ∧ status_code
      (api_policy_assignments_post Fixtures.db_fleet Fixtures.admin Samples.to_office
         700).2 = 200%nat.
Proof.
  split; [reflexivity|]. split; [reflexivity|].
  refine (proj1 (X14_assignments_are_replaced Fixtures.db_fleet Fixtures.admin
                   Samples.to_office 700 1 Fixtures.strict [] [1%nat]
                   eq_refl eq_refl eq_refl eq_refl _ _ _ _)).
  - intros d Hd. by apply elem_of_nil in Hd.
  - intros g Hg. apply list_elem_of_singleton in Hg as ->. by eexists.
  - constructor.
  - apply NoDup_singleton.
Defined.

(** X15.  [api_policy_assignments], POST, when it fails.  A body without
    [policy_id], or with the identifier of no policy, is answered 400 and
    nothing is written.  With a policy that exists, a device or group
    identifier that does not exist is answered 400 as well, but by then the
    earlier assignments of the policy have been deleted: whatever the
    answer, the assignments of the policy found afterwards were all made by
    this request, the rows of the other policies are as before, and no other
    table has changed. *)
Theorem X15_failed_assignment_request (db : Store) (user : User.t)
    (data : AssignmentsBody.t) (now : Z) :
  let answer := api_policy_assignments_post db user data now in
  match AssignmentsBody.policy_id data ≫= get_policy db with
  | None => answer.1 = db ∧ status_code answer.2 = 400%nat
  | Some policy =>
      ((∃ d, d ∈ default [] (AssignmentsBody.devices data) ∧ get_device db d = None)
       ∨ (∃ g, g ∈ default [] (AssignmentsBody.groups data) ∧ get_group db g = None) →
       status_code answer.2 = 400%nat)
      ∧ (∀ a, a ∈ policy_assignments answer.1 →
              PolicyAssignment.policy a = Policy.id policy →
              assigned_by_request (Policy.id policy) user now a)
      ∧ filter (λ a, PolicyAssignment.policy a ≠ Policy.id policy)
          (policy_assignments answer.1)
        = filter (λ a, PolicyAssignment.policy a ≠ Policy.id policy)
            (policy_assignments db)
      ∧ same_but_assignments db answer.1
  end.
Proof.
  intros answer. subst answer.
  destruct (AssignmentsBody.policy_id data) as [pid|] eqn:Hpid;
    [|by unfold api_policy_assignments_post; rewrite Hpid].
  simpl. destruct (get_policy db pid) as [policy|] eqn:Hpolicy.
  - rewrite (api_policy_assignments_known _ _ _ _ _ _ Hpid Hpolicy).
    rewrite (get_policy_id _ _ _ Hpolicy).
    set (db0 := set_policy_assignments _ db).
    destruct (for_each_any get_device Device.id Some (λ _, None) pid user now
                (λ _ _ _, eq_refl) (λ db x o, find_pk Device.id _ x o)
                (default [] (AssignmentsBody.devices data)) db0)
      as (new1 & r1 & Hloop1 & Hnew1 & Hfail1).
    destruct r1 as [e1|[]].
    + erewrite bind_raises by exact Hloop1. simpl.
      split; [done|]. split; [|split].
      * intros a Ha Hp. apply elem_of_app in Ha as [Ha|Ha].
        -- by apply list_elem_of_filter in Ha as [Ha _].
        -- rewrite Forall_forall in Hnew1. by apply Hnew1.
      * apply filter_other_policies. eapply Forall_impl; [exact Hnew1|].
        by intros ? [? _].
      * reflexivity.
    + erewrite bind_returns by exact Hloop1.
      set (db1 := set_policy_assignments _ db0).
      destruct (for_each_any get_group DeviceGroup.id (λ _, None) Some pid user now
                  (λ _ _ _, eq_refl) (λ db x o, find_pk DeviceGroup.id _ x o)
                  (default [] (AssignmentsBody.groups data)) db1)
        as (new2 & r2 & Hloop2 & Hnew2 & Hfail2).
      rewrite Hloop2.
      assert (Forall (assigned_by_request pid user now) (new1 ++ new2)) as Hnew
        by (by apply Forall_app).
      split; [|split; [|split]].
      * intros [Hd|Hg].
        -- destruct (Hfail1 Hd) as [? [=]].
        -- destruct (Hfail2 Hg) as [e ->]. done.
      * destruct r2; simpl; intros a Ha Hp; rewrite <- app_assoc in Ha;
          apply elem_of_app in Ha as [Ha|Ha];
          first [by apply list_elem_of_filter in Ha as [Ha _]
                |rewrite Forall_forall in Hnew; by apply Hnew].
      * destruct r2; simpl; rewrite <- app_assoc; apply filter_other_policies;
          (eapply Forall_impl; [exact Hnew|]); by intros ? [? _].
      * by destruct r2.
  - unfold api_policy_assignments_post. cbv zeta.
    erewrite bind_returns by (unfold lift; rewrite Hpid; reflexivity).
    erewrite bind_raises by (unfold objects_get; rewrite Hpolicy; reflexivity).
    done.
Qed.

Lemma X15_failed_assignment_request_witness :
  policy_assignments Fixtures.db_assigned = [Fixtures.strict_on_pc1]
  ∧ status_code
      (api_policy_assignments_post Fixtures.db_assigned Fixtures.admin
         Samples.unknown_device 700).2 = 400%nat
  ∧ policy_assignments
      (api_policy_assignments_post Fixtures.db_assigned Fixtures.admin
         Samples.unknown_device 700).1 = []
  ∧ same_but_assignments Fixtures.db_assigned
      (api_policy_assignments_post Fixtures.db_assigned Fixtures.admin
         Samples.unknown_device 700).1.
Proof.
  split; [reflexivity|]. split; [reflexivity|]. split; [reflexivity|].
  exact (proj2 (proj2 (proj2
    (X15_failed_assignment_request Fixtures.db_assigned Fixtures.admin
       Samples.unknown_device 700)))).
Defined.

Section DeletedPolicy.
Import policies_views.

Lemma filter_insert_desc {A} (key : A → Z) (P : A → Prop) `{∀ x, Decision (P x)} x l :
  descending key l →
  filter P (insert_desc key x l)
  = if decide (P x) then insert_desc key x (filter P l) else filter P l.
Proof.
  induction 1 as [|y l Hl IH Hy]; simpl.
  - rewrite filter_cons, filter_nil. by destruct (decide (P x)).
  - destruct (Z.ltb_spec (key x) (key y)) as [Hlt|Hge].
    + rewrite !filter_cons, IH.
      destruct (decide (P y)), (decide (P x)); simpl; try done.
      by rewrite (proj2 (Z.ltb_lt _ _) Hlt).
    + rewrite !filter_cons. destruct (decide (P x)); [|done].
      rewrite insert_desc_head; [done|].
      intros z Hz. destruct (decide (P y)).
      * apply elem_of_cons in Hz as [->|Hz]; [done|].
        apply list_elem_of_filter in Hz as [_ Hz].
        rewrite Forall_forall in Hy. specialize (Hy z Hz). lia.
      * apply list_elem_of_filter in Hz as [_ Hz].
        rewrite Forall_forall in Hy. specialize (Hy z Hz). lia.
Qed.

Lemma filter_order_by_desc {A} (key : A → Z) (P : A → Prop) `{∀ x, Decision (P x)} l :
  filter P (order_by_desc key l) = order_by_desc key (filter P l).
Proof.
  induction l as [|x l IH]; [done|]. simpl.
  rewrite filter_insert_desc by apply order_by_desc_descending.
  rewrite filter_cons, IH. by destruct (decide (P x)).
Qed.

Lemma find_filter_other {A} (pk : A → nat) (rows : list A) k n :
  k ≠ n →
  find (λ r, Nat.eqb (pk r) k) (filter (λ r, pk r ≠ n) rows)
  = find (λ r, Nat.eqb (pk r) k) rows.
Proof.
  intros Hkn. induction rows as [|r rows IH]; [done|].
  rewrite filter_cons. destruct (decide (pk r ≠ n)) as [Hr|Hr]; simpl.
  - by rewrite IH.
  - destruct (Nat.eqb_spec (pk r) k) as [Hk|_]; [|done]. lia.
Qed.

Lemma get_policy_after_delete policy db k :
  k ≠ Policy.id policy → get_policy (Policy_delete policy db) k = get_policy db k.
Proof. intros Hk. unfold get_policy. simpl. by apply find_filter_other. Qed.

Lemma select_related_after_delete policy db (rows : list PolicyAssignment.t) :
  omap (select_related_policy (Policy_delete policy db))
    (filter (λ a, PolicyAssignment.policy a ≠ Policy.id policy) rows)
  = filter (λ ap, Policy.id ap.2 ≠ Policy.id policy)
      (omap (select_related_policy db) rows).
Proof.
  induction rows as [|a rows IH]; [done|].
  rewrite filter_cons. simpl. unfold select_related_policy at 2.
  destruct (decide (PolicyAssignment.policy a ≠ Policy.id policy)) as [Ha|Ha]; simpl.
  - unfold select_related_policy at 1. rewrite get_policy_after_delete by done.
    destruct (get_policy db (PolicyAssignment.policy a)) as [p|] eqn:Hp; simpl; [|done].
    rewrite filter_cons. simpl. rewrite (get_policy_id _ _ _ Hp).
    rewrite decide_True by done. f_equal. exact IH.
  - destruct (get_policy db (PolicyAssignment.policy a)) as [p|] eqn:Hp; simpl;
      [|exact IH].
    rewrite filter_cons. simpl. rewrite (get_policy_id _ _ _ Hp).
    rewrite decide_False by done. exact IH.
Qed.

Lemma policy_in_filter_other p l n :
  Policy.id p ≠ n → policy_in p (filter (λ q, Policy.id q ≠ n) l) = policy_in p l.
Proof.
  intros Hp. unfold policy_in. induction l as [|q l IH]; [done|].
  rewrite filter_cons. destruct (decide (Policy.id q ≠ n)) as [Hq|Hq]; simpl.
  - by rewrite IH.
  - rewrite IH. destruct (Nat.eqb_spec (Policy.id q) (Policy.id p)); [lia|done].
Qed.

Lemma filter_foldl_append_if_new n acc l :
  filter (λ q, Policy.id q ≠ n) (foldl append_if_new acc l)
  = foldl append_if_new (filter (λ q, Policy.id q ≠ n) acc)
      (filter (λ q, Policy.id q ≠ n) l).
Proof.
  revert acc. induction l as [|p l IH]; intros acc; [done|]. simpl.
  rewrite IH, filter_cons.
  destruct (decide (Policy.id p ≠ n)) as [Hp|Hp]; simpl.
  - f_equal. unfold append_if_new. rewrite policy_in_filter_other by done.
    destruct (policy_in p acc); [done|].
    by rewrite filter_app, filter_cons, decide_True, filter_nil.
  - f_equal. unfold append_if_new. destruct (policy_in p acc); [done|].
    by rewrite filter_app, filter_cons, decide_False, filter_nil, app_nil_r.
Qed.

Lemma filter_comm {A} (P Q : A → Prop) `{∀ x, Decision (P x)} `{∀ x, Decision (Q x)}
    (l : list A) :
  filter P (filter Q l) = filter Q (filter P l).
Proof.
  rewrite !list_filter_filter. apply list_filter_iff. tauto.
Qed.

Lemma filter_snd {A B} (P : B → Prop) `{∀ x, Decision (P x)} (l : list (A * B)) :
  filter P (l.*2) = (filter (λ ab, P ab.2) l).*2.
Proof.
  induction l as [|ab l IH]; [done|]. rewrite fmap_cons, !filter_cons, IH.
  by destruct (decide (P ab.2)).
Qed.

Lemma foldl_append_if_new_snd {A} acc (l : list (A * Policy.t)) :
  foldl (λ acc ap, append_if_new acc ap.2) acc l = foldl append_if_new acc (l.*2).
Proof. revert acc. induction l as [|ap l IH]; intros acc; [done|]. simpl. apply IH. Qed.

Lemma device_policies_after_delete policy db device :
  device_policies (Policy_delete policy db) device
  = filter (λ ap, Policy.id ap.2 ≠ Policy.id policy) (device_policies db device).
Proof.
  unfold device_policies.
  change (policy_assignments (Policy_delete policy db))
    with (filter (λ a, PolicyAssignment.policy a ≠ Policy.id policy)
            (policy_assignments db)).
  by rewrite select_related_after_delete, filter_order_by_desc, filter_comm.
Qed.

Lemma group_policies_after_delete policy db device :
  group_policies (Policy_delete policy db) device
  = filter (λ ap, Policy.id ap.2 ≠ Policy.id policy) (group_policies db device).
Proof.
  unfold group_policies.
  change (policy_assignments (Policy_delete policy db))
    with (filter (λ a, PolicyAssignment.policy a ≠ Policy.id policy)
            (policy_assignments db)).
  by rewrite select_related_after_delete, filter_order_by_desc, filter_comm.
Qed.

Lemma global_policies_after_delete policy db :
  global_policies (Policy_delete policy db)
  = filter (λ q, Policy.id q ≠ Policy.id policy) (global_policies db).
Proof.
  unfold global_policies.
  change (policies (Policy_delete policy db))
    with (filter (λ q, Policy.id q ≠ Policy.id policy) (policies db)).
  by rewrite filter_order_by_desc, filter_comm.
Qed.

Lemma all_policies_after_delete policy db device :
  all_policies (Policy_delete policy db) device
  = filter (λ q, Policy.id q ≠ Policy.id policy) (all_policies db device).
Proof.
  unfold all_policies. cbv zeta.
  rewrite !foldl_append_policy, !app_nil_l, !foldl_append_if_new_snd.
  rewrite !filter_foldl_append_if_new, !filter_snd.
  by rewrite device_policies_after_delete, group_policies_after_delete,
    global_policies_after_delete.
Qed.

End DeletedPolicy.

(** X16.  Deleting a policy and resolving afterwards.  After
    [PolicyDetailView] or the dashboard endpoint has deleted the policy
    [pk], [device_policy] answers for every device what it answered before
    with that policy taken out: the applied policies are the earlier ones
    without [pk], in the same order, and the effective policy is the first of
    them.  So the effective policy of a device changes only when it was the
    deleted one, and the next applied policy then takes its place. *)
Theorem X16_resolution_after_delete (db : Store) (pk : nat) (policy : Policy.t)
    (device_id : N) :
  get_policy db pk = Some policy →
  let db' := (policies_views.PolicyDetailView_delete db pk).1 in
  (dashboard_views.api_policy_detail_delete db pk).1 = db'
  ∧ policies_views.device_policy db' device_id
    = match policies_views.device_policy db device_id with
      | policies_views.Http404 => policies_views.Http404
      | policies_views.Http200 data =>
          let rest := filter (λ q, Policy.id q ≠ pk)
                        (policies_views.applied_policies data) in
          policies_views.Http200
            (policies_views.mk_response device_id (head rest) rest
               (policies_views.last_updated data))
      end
  ∧ (∀ data e,
       policies_views.device_policy db device_id = policies_views.Http200 data →
       policies_views.effective_policy data = Some e →
       Policy.id e ≠ pk →
       ∃ data',
         policies_views.device_policy db' device_id = policies_views.Http200 data'
         ∧ policies_views.effective_policy data' = Some e).
Proof.
  intros Hpolicy db'.
  assert (db' = Policy_delete policy db) as Hdb'
    by (subst db'; unfold policies_views.PolicyDetailView_delete; by rewrite Hpolicy).
  assert (policies_views.device_policy db' device_id
    = match policies_views.device_policy db device_id with
      | policies_views.Http404 => policies_views.Http404
      | policies_views.Http200 data =>
          let rest := filter (λ q, Policy.id q ≠ pk)
                        (policies_views.applied_policies data) in
          policies_views.Http200
            (policies_views.mk_response device_id (head rest) rest
               (policies_views.last_updated data))
      end) as Hresolve.
  { rewrite Hdb'. unfold policies_views.device_policy.
    change (get_device_by_uuid (Policy_delete policy db) device_id)
      with (get_device_by_uuid db device_id).
    destruct (get_device_by_uuid db device_id) as [device|]; [|done].
    rewrite all_policies_after_delete, (get_policy_id _ _ _ Hpolicy).
    destruct (policies_views.all_policies db device) as [|e all] eqn:Hall; [done|].
    cbn [head policies_views.applied_policies policies_views.last_updated].
    cbv zeta. by destruct (head (filter _ (e :: all))) eqn:Hhead;
      [|apply head_None in Hhead; rewrite Hhead]. }
  split; [|split; [exact Hresolve|]].
  - rewrite Hdb'. unfold dashboard_views.api_policy_detail_delete. by rewrite Hpolicy.
  - intros data e Hdata He Hne. rewrite Hresolve, Hdata. cbv zeta.
    eexists. split; [reflexivity|]. simpl.
    unfold policies_views.device_policy in Hdata.
    destruct (get_device_by_uuid db device_id) as [device|]; [|done].
    destruct (policies_views.all_policies db device) as [|e' all]; simpl in Hdata.
    + injection Hdata as <-. done.
    + injection Hdata as <-. simpl in He. injection He as ->. simpl.
      rewrite filter_cons. by rewrite decide_True.
Qed.

Lemma X16_resolution_after_delete_witness :
  get_policy Fixtures.db_fleet 1 = Some Fixtures.strict
  ∧ policies_views.device_policy
      (policies_views.PolicyDetailView_delete Fixtures.db_fleet 1).1 101
    = policies_views.Http200
        (policies_views.mk_response 101 (Some Fixtures.relaxed)
           [Fixtures.relaxed; Fixtures.baseline] 1000).
Proof.
  split; [reflexivity|].
  destruct (X16_resolution_after_delete Fixtures.db_fleet 1 Fixtures.strict 101 eq_refl)
    as (_ & H & _).
  exact H.
Defined.

Section Lifecycle.
Import devices_serializers devices_views devices_models.

Lemma find_uuid_app (rows : list Device.t) uuid new :
  uuid ∉ Device.device_id <$> rows →
  Device.device_id new = uuid →
  find (λ d, N.eqb (Device.device_id d) uuid) (rows ++ [new]) = Some new.
Proof.
  intros Hfresh Hnew. induction rows as [|d rows IH]; simpl.
  - by rewrite Hnew, N.eqb_refl.
  - rewrite fmap_cons, not_elem_of_cons in Hfresh. destruct Hfresh as [Hd Hfresh].
    destruct (N.eqb_spec (Device.device_id d) uuid); [done|]. by apply IH.
Qed.

End Lifecycle.

(** X17.  From registration to the first heartbeat (the texts of both
    bodies as the serializers have stripped them).  After a successful
    registration the new device is the one that the other endpoints find
    under its UUID; [is_online] is false for it at every instant and the
    device list with [online=true] or [online=false] does not show it, since
    it was never seen.  Its first valid heartbeat, at [t1], is answered 200,
    and from then on [is_online] holds exactly for the five minutes that
    follow [t1]; the primary key stays the one given at registration. *)
Theorem X17_registration_then_heartbeat (valid_ip : string → bool) (db : Store)
    (user : User.t) (client_ip : option string)
    (data : devices_serializers.registration) (uuid : N) (token : string) (t0 : Z)
    (beat : devices_serializers.heartbeat_data) (t1 : Z) :
  devices_serializers.registration_is_valid valid_ip data = true →
  registration_trimmed data = true →
  uuid ∉ Device.device_id <$> devices db →
  token ∉ DeviceToken.token <$> device_tokens db →
  devices_serializers.heartbeat_is_valid beat = true →
  heartbeat_trimmed beat = true →
  let db1 :=
    (devices_views.DeviceListCreateView_post valid_ip db user client_ip data uuid
       token t0).1 in
  let db2 := (devices_views.device_heartbeat db1 uuid beat t1).1 in
  status_code
    (devices_views.DeviceListCreateView_post valid_ip db user client_ip data uuid
       token t0).2 = 201%nat
  ∧ ∃ device,
      devices db1 = devices db ++ [device]
      ∧ get_device_by_uuid db1 uuid = Some device
      ∧ Device.last_seen device = None
      ∧ (∀ t, devices_models.is_online device t = false)
      ∧ (∀ nulls_first online t,
           device ∉ DeviceListCreateView_get_queryset nulls_first db1 None
                      (Some online) t)
      ∧ status_code (devices_views.device_heartbeat db1 uuid beat t1).2 = 200%nat
      ∧ ∃ device',
          get_device_by_uuid db2 uuid = Some device'
          ∧ Device.id device' = Device.id device
          ∧ Device.last_seen device' = Some t1
          ∧ (∀ t, devices_models.is_online device' t = true
                  ↔ t - t1 < timedelta_minutes 5).
Proof.
  intros Hvalid _ Huuid Htoken Hbeat _ db1 db2.
  destruct (registration_succeeds valid_ip db user client_ip data uuid token t0
              Hvalid Huuid Htoken) as [H201 Hdevices].
  set (device := registered_device db data uuid t0) in *.
  assert (get_device_by_uuid db1 uuid = Some device) as Hfound.
  { unfold get_device_by_uuid. subst db1. rewrite Hdevices.
    by apply find_uuid_app. }
  destruct (heartbeat_known db1 uuid beat t1 device Hfound Hbeat)
    as (Hresp & Hdev).
  split; [done|]. exists device.
  split; [done|]. split; [done|]. split; [done|]. split; [done|]. split; [|split].
  - intros nulls_first online t Hin.
    apply elem_of_device_list in Hin as (_ & _ & Ho).
    specialize (Ho online eq_refl). by destruct (String.eqb _ _).
  - by rewrite Hresp.
  - exists (after_heartbeat device beat t1). split; [done|]. split; [done|].
    split; [done|].
    intros t. unfold devices_models.is_online. simpl. apply Z.ltb_lt.
Qed.

Lemma X17_registration_then_heartbeat_witness :
  devices_serializers.registration_is_valid (λ _, true) Fixtures.pc1_again = true
  ∧ registration_trimmed Fixtures.pc1_again = true
  ∧ devices_serializers.heartbeat_is_valid Fixtures.beat_locked = true
  ∧ heartbeat_trimmed Fixtures.beat_locked = true
  ∧ status_code
      (devices_views.DeviceListCreateView_post (λ _, true) Fixtures.db_one_device
         Fixtures.admin (Some "10.0.0.5") Fixtures.pc1_again 202 "token-2" 8000).2
    = 201%nat
  ∧ ∃ device',
      get_device_by_uuid
        (devices_views.device_heartbeat
           (devices_views.DeviceListCreateView_post (λ _, true) Fixtures.db_one_device
              Fixtures.admin (Some "10.0.0.5") Fixtures.pc1_again 202 "token-2" 8000).1
           202 Fixtures.beat_locked 9000).1 202
      = Some device'
      ∧ Device.last_seen device' = Some 9000
      ∧ devices_models.is_online device' 9001 = true.
Proof.
  split; [reflexivity|]. split; [reflexivity|].
  split; [reflexivity|]. split; [reflexivity|].
  destruct (X17_registration_then_heartbeat (λ _, true) Fixtures.db_one_device
              Fixtures.admin (Some "10.0.0.5") Fixtures.pc1_again 202 "token-2"
              8000 Fixtures.beat_locked 9000 eq_refl eq_refl)
    as (H201 & device & _ & _ & _ & _ & _ & _ & device' & Hget & _ & Hseen & Honline);
    [| |reflexivity|reflexivity|].
  - apply (bool_decide_unpack _). vm_compute. done.
  - apply (bool_decide_unpack _). vm_compute. done.
  - split; [exact H201|]. exists device'.
    split; [exact Hget|]. split; [exact Hseen|]. apply Honline. reflexivity.
Defined.

Section AssignAndResolve.
Import policies_serializers policies_views.

Lemma create_device_row db user data now p d :
  status_code (PolicyAssignmentListCreateView_post db user data now).2 = 201%nat →
  policy data = Some p → device data = Some d →
  get_policy db p ≠ None
  ∧ violates_unique_together (policy_assignments db) None p (Some d) None = false
  ∧ (PolicyAssignmentListCreateView_post db user data now).1
    = set_policy_assignments
        (λ l, l ++ [PolicyAssignment.mk
                      (next_pk (PolicyAssignment.id <$> policy_assignments db))
                      p (Some d) None now (Some (User.id user))
                      (default true (is_active data))]) db.
Proof.
  unfold PolicyAssignmentListCreateView_post. intros H201 Hp Hd.
  rewrite Hp, Hd in *.
  destruct (get_policy db p) eqn:Hget; [|done].
  rewrite bool_decide_eq_true_2 in * by eauto. simpl in *.
  destruct (negb (bool_decide (is_Some (get_device db d)))); [done|].
  destruct (negb _); [done|].
  destruct (violates_unique_together _ None p (Some d) None) eqn:Hu; [done|].
  destruct (violates_unique_together _ None p None _); [done|].
  unfold validate in *. rewrite Hd in *.
  destruct (device_group data) eqn:Hg; simpl in *; [done|].
  rewrite Hd, Hg. split; [by intros ?|]. split; reflexivity.
Qed.

End AssignAndResolve.

(** X18.  Assigning and resolving.  When the create view of assignments has
    answered 201 for an active assignment of an active policy to a device,
    [device_policy] for that device lists the policy among the applied ones,
    and the effective policy is a policy assigned to the device itself whose
    priority is not below that of the new one: a group or global policy of
    higher priority does not win.  Sending the same body again is answered
    400 and stores nothing. *)
Theorem X18_assigned_policy_is_applied (db : Store) (user : User.t)
    (data : policies_serializers.assignment_data) (now : Z) (p d : nat)
    (policy : Policy.t) (device : Device.t) :
  status_code (policies_views.PolicyAssignmentListCreateView_post db user data now).2
  = 201%nat →
  policies_serializers.policy data = Some p →
  policies_serializers.device data = Some d →
  default true (policies_serializers.is_active data) = true →
  get_policy db p = Some policy → Policy.is_active policy = true →
  get_device_by_uuid db (Device.device_id device) = Some device →
  Device.id device = d →
  let db1 := (policies_views.PolicyAssignmentListCreateView_post db user data now).1 in
  (∃ answer effective,
     policies_views.device_policy db1 (Device.device_id device)
     = policies_views.Http200 answer
     ∧ policy ∈ policies_views.applied_policies answer
     ∧ policies_views.effective_policy answer = Some effective
     ∧ device_candidate db1 device effective
     ∧ Policy.priority policy ≤ Policy.priority effective)
  ∧ (∀ user' now',
       (policies_views.PolicyAssignmentListCreateView_post db1 user' data now').1 = db1
       ∧ status_code
           (policies_views.PolicyAssignmentListCreateView_post db1 user' data now').2
         = 400%nat).
Proof.
  intros H201 Hp Hd Hactive Hpolicy Hpactive Hdevice Hid db1.
  destruct (create_device_row db user data now p d H201 Hp Hd) as (_ & _ & Hdb1).
  fold db1 in Hdb1. rewrite Hactive in Hdb1.
  set (row := PolicyAssignment.mk _ p (Some d) None now _ true) in Hdb1.
  assert ((row, policy) ∈ policies_views.device_policies db1 device) as Hrow.
  { apply elem_of_device_policies. rewrite Hdb1. simpl.
    split; [apply elem_of_app; right; by left|]. by rewrite Hid. }
  split.
  - assert (get_device_by_uuid db1 (Device.device_id device) = Some device) as Hdev1
      by (by rewrite Hdb1).
    rewrite (device_policy_response _ _ _ Hdev1), all_policies_tiers.
    pose proof (order_by_desc_descending (λ ap, Policy.priority ap.2)
                  (filter (λ ap, is_some_eqb (PolicyAssignment.device ap.1)
                                   (Device.id device)
                                 && PolicyAssignment.is_active ap.1
                                 && Policy.is_active ap.2 = true)
                     (omap (select_related_policy db1) (policy_assignments db1))))
      as Hsorted.
    fold (policies_views.device_policies db1 device) in Hsorted.
    assert (∃ a, (a, policy) ∈ policies_views.device_policies db1 device)
      as [a Hin] by eauto.
    assert (∀ q, q ∈ (policies_views.device_policies db1 device).*2 →
                 device_candidate db1 device q) as Htier
      by (intros q; apply device_tier_sound).
    destruct (policies_views.device_policies db1 device) as [|[a0 e0] rest];
      [by apply elem_of_nil in Hin|].
    eexists _, e0. split; [reflexivity|]. simpl. split; [|split; [done|split]].
    + apply (proj2 (elem_of_app (e0 :: rest.*2) _ policy)). left.
      apply (proj2 (list_elem_of_fmap snd ((a0, e0) :: rest) policy)).
      by exists (a, policy).
    + apply Htier. by left.
    + exact (descending_head (λ ap, Policy.priority ap.2) _ _ _ Hsorted Hin).
  - intros user' now'. unfold policies_views.PolicyAssignmentListCreateView_post.
    rewrite Hp, Hd.
    destruct (negb (bool_decide (is_Some (get_policy db1 p)))); [done|].
    destruct (negb (bool_decide (is_Some (get_device db1 d)))); [done|].
    destruct (negb _); [done|].
    assert (violates_unique_together (policy_assignments db1) None p (Some d) None
            = true) as ->; [|done].
    rewrite Hdb1. unfold violates_unique_together. simpl.
    rewrite existsb_app. apply orb_true_intro. right. simpl.
    by rewrite !Nat.eqb_refl.
Qed.

Lemma X18_assigned_policy_is_applied_witness :
  status_code
    (policies_views.PolicyAssignmentListCreateView_post Fixtures.db_fleet Fixtures.admin
       (policies_serializers.mk_assignment_data (Some 2%nat) (Some 1%nat) None None)
       9000).2 = 201%nat
  ∧ ∀ user' now',
      status_code
        (policies_views.PolicyAssignmentListCreateView_post
           (policies_views.PolicyAssignmentListCreateView_post Fixtures.db_fleet
              Fixtures.admin
              (policies_serializers.mk_assignment_data (Some 2%nat) (Some 1%nat) None
                 None) 9000).1
           user'
           (policies_serializers.mk_assignment_data (Some 2%nat) (Some 1%nat) None None)
           now').2 = 400%nat.
Proof.
  split; [reflexivity|]. intros user' now'.
  apply (X18_assigned_policy_is_applied Fixtures.db_fleet Fixtures.admin
           (policies_serializers.mk_assignment_data (Some 2%nat) (Some 1%nat) None None)
           9000 2 1 Fixtures.relaxed Fixtures.pc1); reflexivity.
Defined.

Section ClientIp.

Lemma before_comma_app ip rest :
  has_char comma ip = false → before_comma (ip +:+ String comma rest) = ip.
Proof.
  induction ip as [|c ip IH]; simpl; [done|].
  intros [Hc Hip]%orb_false_elim. rewrite Hc. by rewrite IH.
Qed.

Lemma before_comma_none s : has_char comma s = false → before_comma s = s.
Proof.
  induction s as [|c s IH]; simpl; [done|].
  intros [Hc Hs]%orb_false_elim. rewrite Hc. by rewrite IH.
Qed.

Lemma before_comma_has_none s : has_char comma (before_comma s) = false.
Proof.
  induction s as [|c s IH]; simpl; [done|].
  destruct (Ascii.eqb c comma) eqn:Hc; simpl; [done|]. by rewrite Hc.
Qed.

End ClientIp.

(** X19.  [get_client_ip].  When the request carries a header
    [X-Forwarded-For] that is not empty, the address is the text of that
    header before its first comma, whatever [REMOTE_ADDR] is: the whole
    header when it has no comma, the empty text when it starts with one.
    The address holds no comma.  Without the header, or with an empty one,
    the address is [REMOTE_ADDR], which may be absent. *)
Theorem X19_client_ip (META : gmap string string) :
  match META !! "HTTP_X_FORWARDED_FOR" with
  | Some header =>
      if String.eqb header "" then get_client_ip META = META !! "REMOTE_ADDR"
      else
        ∃ ip, get_client_ip META = Some ip
              ∧ has_char comma ip = false
              ∧ (has_char comma header = false → ip = header)
              ∧ (∀ first rest, header = first +:+ String comma rest →
                   has_char comma first = false → ip = first)
  | None => get_client_ip META = META !! "REMOTE_ADDR"
  end.
Proof.
  unfold get_client_ip.
  destruct (META !! "HTTP_X_FORWARDED_FOR") as [header|]; [|done].
  destruct (String.eqb header "") eqn:Hempty; simpl; [done|].
  exists (before_comma header). split; [done|].
  split; [apply before_comma_has_none|]. split.
  - apply before_comma_none.
  - intros first rest -> Hfirst. by apply before_comma_app.
Qed.

Lemma X19_client_ip_witness :
  get_client_ip Samples.forwarded = Some "203.0.113.7"
  ∧ Samples.forwarded !! "REMOTE_ADDR" = Some "10.0.0.1".
Proof.
  split; [|reflexivity].
  pose proof (X19_client_ip Samples.forwarded) as H.
  change (Samples.forwarded !! "HTTP_X_FORWARDED_FOR")
    with (Some "203.0.113.7, 10.0.0.1") in H.
  cbv iota beta in H. change (String.eqb "203.0.113.7, 10.0.0.1" "") with false in H.
  cbv iota in H. destruct H as (ip & -> & _ & _ & H).
  f_equal. apply (H "203.0.113.7" " 10.0.0.1"); reflexivity.
Defined.

Section ActionCreate.



End ActionCreate.



Section DashboardLists.
Context (hostname_before : string → string → bool) (isoformat : Z → string)
  (date_of : Z → Z).

Lemma device_entry_raises device now :
  device_entry isoformat device now
  = inl (AttributeError "'Device' object has no attribute 'operating_system'").
Proof. reflexivity. Qed.

Lemma action_entry_raises row :
  action_entry isoformat row
  = inl (AttributeError "'DeviceAction' object has no attribute 'error_message'").
Proof. by destruct row as [[action device] initiated_by]. Qed.

Lemma collect_raises {A B} (f : A → Exc + B) e l :
  (∀ x, f x = inl e) → l ≠ [] → collect f l = inl e.
Proof. intros Hf Hl. destruct l as [|x l]; [done|]. simpl. by rewrite Hf. Qed.

End DashboardLists.

(** X21.  [api_devices_list] answers with a list only when no device is
    registered, and the list is then empty.  With one device or more the
    view raises [AttributeError] while it builds the first entry, because it
    reads [device.operating_system] and the model has no such attribute (its
    field is [os_version]); Django answers 500. *)
Theorem X21_devices_list_raises (hostname_before : string → string → bool)
    (isoformat : Z → string) (db : Store) (now : Z) :
  ("operating_system" ∉ Device_attributes)
  ∧ ("os_version" ∈ Device_attributes)
  ∧ api_devices_list hostname_before isoformat db now
    = if decide (devices db = []) then inr []
      else inl (AttributeError "'Device' object has no attribute 'operating_system'").
Proof.
  split; [apply (bool_decide_unpack _); vm_compute; done|].
  split; [apply (bool_decide_unpack _); vm_compute; done|].
  unfold api_devices_list. cbv zeta. destruct (decide (devices db = [])) as [->|Hne].
  - reflexivity.
  - apply collect_raises; [intros device; apply device_entry_raises|].
    intros Hnil. apply Hne. apply (f_equal length) in Hnil.
    rewrite length_order_by in Hnil. by destruct (devices db).
Qed.

(** X22.  The two JSON endpoints for actions of the dashboard never show an
    action.  [action_detail_api] answers 404 when no action has the
    identifier and raises [AttributeError] otherwise, at
    [action.device.device_uuid].  [actions_api] raises when a filter
    [action_type] or [status] is given, since the query set is sliced before
    it is filtered, and when there is an action to show, at
    [action.error_message]; it answers only without filter and without
    action, with an empty list. *)
Theorem X22_action_endpoints_raise (isoformat : Z → string) (date_of : Z → Z)
    (db : Store) (action_id : nat) (action_type status : option string) (now : Z) :
  (action_detail_api isoformat db action_id
   = match omap (select_related_device db)
             (filter (λ a, DeviceAction.id a = action_id) (device_actions db)) with
     | [] => inr (mkResponse 404 [("error", JStr "Action not found")])
     | _ :: _ =>
         inl (AttributeError "'Device' object has no attribute 'device_uuid'")
     end)
  ∧ (∀ response, action_detail_api isoformat db action_id = inr response →
                 status_code response = 404%nat)
  ∧ (∀ actions statistics timestamp,
       actions_api isoformat date_of db action_type status now
       = ActionsOk actions statistics timestamp →
       actions = []
       ∧ (action_type = None ∨ action_type = Some "")
       ∧ (status = None ∨ status = Some "")
       ∧ omap (select_related_device db) (device_actions db) = []).
Proof.
  assert (action_detail_api isoformat db action_id
   = match omap (select_related_device db)
             (filter (λ a, DeviceAction.id a = action_id) (device_actions db)) with
     | [] => inr (mkResponse 404 [("error", JStr "Action not found")])
     | _ :: _ =>
         inl (AttributeError "'Device' object has no attribute 'device_uuid'")
     end) as Hdetail.
  { unfold action_detail_api.
    destruct (omap _ _) as [|[[action device] initiated_by] rest]; reflexivity. }
  split; [exact Hdetail|]. split.
  - intros response. rewrite Hdetail. destruct (omap _ _); [|done]. by intros [= <-].
  - intros actions statistics timestamp. unfold actions_api. cbv zeta.
    assert (∀ param, filter_sliced param = inr tt ∨ ∃ e, filter_sliced param = inl e)
      as Hsliced.
    { intros [v|]; [|by left]. unfold filter_sliced.
      destruct (String.eqb v ""); simpl; eauto. }
    assert (∀ param, filter_sliced param = inr tt → param = None ∨ param = Some "")
      as Hparam.
    { intros [v|]; [|by left]. unfold filter_sliced.
      destruct (String.eqb_spec v "") as [->|]; simpl; [by right|done]. }
    destruct (Hsliced action_type) as [Ht|[e Ht]]; rewrite Ht; [|done].
    destruct (Hsliced status) as [Hs|[e Hs]]; rewrite Hs; [|done].
    simpl.
    destruct (omap (select_related_device db)
                (order_by_desc DeviceAction.created_at (device_actions db)))
      as [|row rows] eqn:Hrows.
    + simpl. intros [= <- _ _]. split; [done|]. split; [by apply Hparam|].
      split; [by apply Hparam|].
      apply Permutation_nil_r. rewrite <- Hrows.
      by rewrite order_by_desc_Permutation.
    + simpl. by rewrite action_entry_raises.
Qed.

Section CreateDelete.
Import policies_serializers policies_views.

Lemma create_appends db user data now :
  status_code (PolicyAssignmentListCreateView_post db user data now).2 = 201%nat →
  ∃ row,
    (PolicyAssignmentListCreateView_post db user data now).1
    = set_policy_assignments (λ l, l ++ [row]) db
    ∧ PolicyAssignment.id row = next_pk (PolicyAssignment.id <$> policy_assignments db)
    ∧ Some (PolicyAssignment.policy row) = policy data.
Proof.
  unfold PolicyAssignmentListCreateView_post.
  destruct (policy data) as [p|]; [|done].
  repeat (match goal with |- context [if negb ?b then _ else _] => destruct b end;
          simpl; [|done]).
  destruct (violates_unique_together _ None p (device data) None); [done|].
  destruct (violates_unique_together _ None p None (device_group data)); [done|].
  destruct (validate data) as [e|attrs]; [done|]. intros _.
  eexists. split; [reflexivity|]. done.
Qed.

Lemma filter_all {A} (P : A → Prop) `{∀ x, Decision (P x)} (l : list A) :
  (∀ x, x ∈ l → P x) → filter P l = l.
Proof.
  induction l as [|x l IH]; intros Hl; [done|].
  rewrite filter_cons_True by (apply Hl; by left).
  rewrite IH; [done|]. intros y Hy. apply Hl. by right.
Qed.

Lemma find_app_None {A} (f : A → bool) (l k : list A) :
  find f l = None → find f (l ++ k) = find f k.
Proof.
  induction l as [|x l IH]; [done|]. simpl. destruct (f x); [done|exact IH].
Qed.

Lemma filter_drops_new (old : list PolicyAssignment.t) row :
  PolicyAssignment.id row = next_pk (PolicyAssignment.id <$> old) →
  filter (λ a, PolicyAssignment.id a ≠ PolicyAssignment.id row) (old ++ [row]) = old.
Proof.
  intros Hid. rewrite filter_app, filter_cons, decide_False, filter_nil, app_nil_r
    by (by intros ?).
  apply filter_all. intros a Ha.
  assert (PolicyAssignment.id a < next_pk (PolicyAssignment.id <$> old))%nat; [|lia].
  apply next_pk_above, list_elem_of_fmap. eauto.
Qed.

End CreateDelete.

(** X23.  Creating and deleting an assignment.  When the create view has
    answered 201, it has appended one row under a key that was not in use,
    and the list of assignments of that policy shows the row; deleting it
    through [PolicyAssignmentDetailView] is answered 204 and gives the
    tables of before the creation back, so the list is again what it was; a
    second deletion is answered 404 and changes nothing. *)
Theorem X23_create_then_delete (db : Store) (user : User.t)
    (data : policies_serializers.assignment_data) (now : Z) :
  status_code (policies_views.PolicyAssignmentListCreateView_post db user data now).2
  = 201%nat →
  let db1 := (policies_views.PolicyAssignmentListCreateView_post db user data now).1 in
  ∃ row,
    db1 = set_policy_assignments (λ l, l ++ [row]) db
    ∧ (PolicyAssignment.id row ∉ PolicyAssignment.id <$> policy_assignments db)
    ∧ row ∈ PolicyAssignmentListCreateView_get_queryset db1
              (policies_serializers.policy data) None
    ∧ PolicyAssignmentDetailView_delete db1 (PolicyAssignment.id row)
      = (db, mkResponse 204 [])
    ∧ (PolicyAssignmentDetailView_delete db (PolicyAssignment.id row)).1 = db
    ∧ status_code (PolicyAssignmentDetailView_delete db (PolicyAssignment.id row)).2
      = 404%nat.
Proof.
  intros H201 db1.
  destruct (create_appends db user data now H201) as (row & Hdb1 & Hid & Hpolicy).
  fold db1 in Hdb1. set (pk := PolicyAssignment.id row) in *.
  assert (∀ rows, (∀ a, a ∈ rows → PolicyAssignment.id a ≠ pk) →
            find (λ a, Nat.eqb (PolicyAssignment.id a) pk) rows = None) as Hnone.
  { intros rows Hrows. induction rows as [|a rows IH]; [done|]. simpl.
    destruct (Nat.eqb_spec (PolicyAssignment.id a) pk) as [Heq|_].
    - destruct (Hrows a); [by left|done].
    - apply IH. intros b Hb. apply Hrows. by right. }
  assert (∀ a, a ∈ policy_assignments db → PolicyAssignment.id a ≠ pk) as Hold.
  { intros a Ha. assert (PolicyAssignment.id a < pk)%nat; [|lia].
    rewrite Hid. apply next_pk_above, list_elem_of_fmap. eauto. }
  exists row. fold pk. split; [done|]. split; [|split; [|split; [|split]]].
  - rewrite Hid. apply next_pk_new.
  - unfold PolicyAssignmentListCreateView_get_queryset. cbv zeta.
    rewrite elem_of_order_by_desc, <- Hpolicy, list_elem_of_filter, Hdb1. simpl.
    split; [done|]. apply elem_of_app. right. by left.
  - unfold PolicyAssignmentDetailView_delete. rewrite Hdb1. simpl.
    assert (find (λ a, Nat.eqb (PolicyAssignment.id a) pk)
              (policy_assignments db ++ [row]) = Some row) as ->.
    { rewrite find_app_None by apply (Hnone _ Hold). simpl.
      by rewrite Nat.eqb_refl. }
    f_equal. unfold set_policy_assignments. simpl.
    unfold pk in *. rewrite filter_drops_new by exact Hid. by destruct db.
  - unfold PolicyAssignmentDetailView_delete. by rewrite (Hnone _ Hold).
  - unfold PolicyAssignmentDetailView_delete. by rewrite (Hnone _ Hold).
Qed.

(** The theorem on [db_fleet], where [relaxed] is assigned to [pc1] and the
    assignment deleted again. *)
Lemma X23_create_then_delete_witness :
  ∃ row,
    policy_assignments
      (policies_views.PolicyAssignmentListCreateView_post Fixtures.db_fleet
         Fixtures.admin
         (policies_serializers.mk_assignment_data (Some 2%nat) (Some 1%nat) None None)
         9000).1
    = policy_assignments Fixtures.db_fleet ++ [row]
    ∧ PolicyAssignmentDetailView_delete
        (policies_views.PolicyAssignmentListCreateView_post Fixtures.db_fleet
           Fixtures.admin
           (policies_serializers.mk_assignment_data (Some 2%nat) (Some 1%nat) None None)
           9000).1 (PolicyAssignment.id row)
      = (Fixtures.db_fleet, mkResponse 204 []).
Proof.
  destruct (X23_create_then_delete Fixtures.db_fleet Fixtures.admin
              (policies_serializers.mk_assignment_data (Some 2%nat) (Some 1%nat) None None)
              9000 eq_refl) as (row & Hdb1 & _ & _ & Hdelete & _).
  exists row. split; [by rewrite Hdb1|exact Hdelete].
Defined.

Section RegisterDelete.
Import devices_serializers devices_views events_models.

Lemma registration_writes valid_ip db user client_ip data uuid token now :
  registration_is_valid valid_ip data = true →
  uuid ∉ Device.device_id <$> devices db →
  token ∉ DeviceToken.token <$> device_tokens db →
  (DeviceListCreateView_post valid_ip db user client_ip data uuid token now).1
  = set_events
      (λ l, l ++ [Event.mk "device_registered"
                    (Some (next_pk (Device.id <$> devices db))) (Some (User.id user))
                    now "info"
                    ("Device " +:+ default "" (name data) +:+ " registered") "api"])
      (set_device_tokens
         (λ l, l ++ [DeviceToken.mk (next_pk (Device.id <$> devices db)) token])
         (set_devices (λ l, l ++ [registered_device db data uuid now]) db)).
Proof.
  intros Hvalid Huuid Htoken.
  unfold DeviceListCreateView_post. rewrite Hvalid.
  unfold create, mbind, M_bind, gets, modify, raise, mret, M_ret. simpl.
  rewrite (existsb_uuid_fresh _ _ Huuid). simpl.
  rewrite (existsb_token_fresh _ _ Htoken). simpl.
  by destruct client_ip.
Qed.

Lemma filter_drops_last {A} (P : A → Prop) `{∀ x, Decision (P x)} (l : list A) x :
  (∀ y, y ∈ l → P y) → ¬ P x → filter P (l ++ [x]) = l.
Proof.
  intros Hl Hx.
  rewrite filter_app, filter_cons_False, filter_nil, app_nil_r by done.
  by apply filter_all.
Qed.

End RegisterDelete.

(** X24.  Registering a device and deleting it.  A registration with valid
    fields (texts as the serializer has stripped them) writes three rows:
    the device, under a key that was not in use, its token and an event
    [device_registered] for it.  When the foreign keys of the database
    point to devices that exist, [DeviceDetailView] DELETE on the key of the
    new device is answered 204 and gives the tables of before the
    registration back: the token and the registration event are deleted
    with the device, by [on_delete=CASCADE].  The UUID is then unknown again
    to the heartbeat endpoint. *)
Theorem X24_register_then_delete (valid_ip : string → bool) (db : Store)
    (user : User.t) (client_ip : option string)
    (data : devices_serializers.registration) (uuid : N) (token : string) (now : Z) :
  devices_serializers.registration_is_valid valid_ip data = true →
  registration_trimmed data = true →
  uuid ∉ Device.device_id <$> devices db →
  token ∉ DeviceToken.token <$> device_tokens db →
  device_refs_exist db →
  let db1 :=
    (devices_views.DeviceListCreateView_post valid_ip db user client_ip data uuid
       token now).1 in
  ∃ device,
    devices db1 = devices db ++ [device]
    ∧ Device.device_id device = uuid
    ∧ (Device.id device ∉ Device.id <$> devices db)
    ∧ (∃ event,
         events db1 = events db ++ [event]
         ∧ Event.event_type event = "device_registered"
         ∧ Event.device event = Some (Device.id device))
    ∧ device_tokens db1 = device_tokens db ++ [DeviceToken.mk (Device.id device) token]
    ∧ DeviceDetailView_delete db1 (Device.id device) = (db, mkResponse 204 [])
    ∧ (∀ beat t,
         (devices_views.device_heartbeat db uuid beat t).1 = db
         ∧ status_code (devices_views.device_heartbeat db uuid beat t).2 = 404%nat).
Proof.
  intros Hvalid _ Huuid Htoken
    (Hgroups & Htokens & Hactions & Hassign & Hevents & Hbeats) db1.
  pose proof (registration_writes valid_ip db user client_ip data uuid token now
                Hvalid Huuid Htoken) as Hdb1.
  fold db1 in Hdb1.
  exists (registered_device db data uuid now).
  change (Device.id (registered_device db data uuid now))
    with (next_pk (Device.id <$> devices db)).
  set (pk := next_pk (Device.id <$> devices db)) in *.
  assert (∀ d, d ∈ Device.id <$> devices db → d ≠ pk) as Hknown.
  { intros d Hd. assert (d < pk)%nat; [by apply next_pk_above|lia]. }
  assert (find (λ d, Nat.eqb (Device.id d) pk) (devices db) = None) as Hnone.
  { destruct (find _ _) as [d|] eqn:Hfind; [|done].
    apply find_some in Hfind as [Hin Heq]. apply Nat.eqb_eq in Heq.
    destruct (Hknown (Device.id d)); [|done].
    apply list_elem_of_fmap. exists d. split; [done|]. by apply list_elem_of_In. }
  split; [by rewrite Hdb1|]. split; [done|]. split; [apply next_pk_new|].
  split; [|split; [|split]].
  - rewrite Hdb1. eexists. split; [reflexivity|]. done.
  - by rewrite Hdb1.
  - unfold DeviceDetailView_delete, get_device. rewrite Hdb1. simpl.
    rewrite find_app_None by exact Hnone. simpl. fold pk. rewrite Nat.eqb_refl.
    f_equal. unfold Device_delete. simpl. fold pk.
    rewrite !filter_drops_last.
    + rewrite (filter_all _ (device_actions db)), (filter_all _ (policy_assignments db)),
        (filter_all _ (device_heartbeats db)).
      * assert ((λ g, DeviceGroup.mk (DeviceGroup.id g) (DeviceGroup.name g)
                        (filter (λ d, d ≠ pk) (DeviceGroup.devices g)))
                <$> device_groups db = device_groups db) as ->; [|by destruct db].
        induction Hgroups as [|g groups Hg _ IH]; [done|].
        rewrite fmap_cons, IH. f_equal. destruct g as [gid gname members]. simpl.
        f_equal. apply filter_all. intros d Hd. apply Hknown.
        rewrite Forall_forall in Hg. by apply Hg.
      * intros h Hh. apply Hknown. rewrite Forall_forall in Hbeats. by apply Hbeats.
      * intros a Ha Heq. rewrite Forall_forall in Hassign.
        by destruct (Hknown pk (Hassign a Ha pk Heq)).
      * intros a Ha. apply Hknown. rewrite Forall_forall in Hactions. by apply Hactions.
    + intros e He Heq. rewrite Forall_forall in Hevents.
      by destruct (Hknown pk (Hevents e He pk Heq)).
    + by intros ?.
    + intros t Ht. apply Hknown. rewrite Forall_forall in Htokens. by apply Htokens.
    + by intros ?.
    + intros d Hd. apply Hknown. apply list_elem_of_fmap. eauto.
    + by intros ?.
  - intros beat t. rewrite heartbeat_unknown; [done|]. unfold get_device_by_uuid.
    destruct (find (λ d, N.eqb (Device.device_id d) uuid) (devices db))
      as [d|] eqn:Hfind; [|done].
    apply find_some in Hfind as [Hin Heq]. apply N.eqb_eq in Heq.
    destruct Huuid. rewrite <- Heq. apply list_elem_of_fmap. exists d.
    split; [done|]. by apply list_elem_of_In.
Qed.

(** The theorem on [db_one_device] with the registration [pc1_again]. *)
Lemma X24_register_then_delete_witness :
  device_refs_exist Fixtures.db_one_device
  ∧ ∃ device,
      devices
        (devices_views.DeviceListCreateView_post (λ _, true) Fixtures.db_one_device
           Fixtures.admin (Some "10.0.0.5") Fixtures.pc1_again 202 "token-2" 8000).1
      = [Fixtures.pc1; device]
      ∧ DeviceDetailView_delete
          (devices_views.DeviceListCreateView_post (λ _, true) Fixtures.db_one_device
             Fixtures.admin (Some "10.0.0.5") Fixtures.pc1_again 202 "token-2" 8000).1
          (Device.id device)
        = (Fixtures.db_one_device, mkResponse 204 []).
Proof.
  assert (device_refs_exist Fixtures.db_one_device) as Hrefs
    by (repeat split; constructor).
  split; [exact Hrefs|].
  destruct (X24_register_then_delete (λ _, true) Fixtures.db_one_device Fixtures.admin
              (Some "10.0.0.5") Fixtures.pc1_again 202 "token-2" 8000 eq_refl eq_refl)
    as (device & Hdevices & _ & _ & _ & _ & Hdelete & _).
  - apply (bool_decide_unpack _). vm_compute. done.
  - apply (bool_decide_unpack _). vm_compute. done.
  - exact Hrefs.
  - exists device. split; [by rewrite Hdevices|exact Hdelete].
Defined.

(** X25.  How an assignment names its target.  For a row with a target whose
    policy exists, [PolicyAssignment.__str__] is the name of the policy, an
    arrow and the name that the serializer gives as [target_name], and
    [target_type] is [device] exactly when the row has a device, also when
    it has a group as well.  For a row with no target, which an update can
    leave behind, the serializer answers [Unknown] and [unknown] while
    [__str__] raises. *)
Theorem X25_target_display (db : Store) (obj : PolicyAssignment.t) (policy : Policy.t) :
  get_policy db (PolicyAssignment.policy obj) = Some policy →
  match PolicyAssignment.device obj, PolicyAssignment.device_group obj with
  | None, None =>
      get_target_name db obj = inr "Unknown"
      ∧ get_target_type obj = "unknown"
      ∧ ∃ e, PolicyAssignment_str db obj = inl e
  | device, _ =>
      PolicyAssignment_str db obj
      = (λ target, Policy.name policy +:+ " -> " +:+ target) <$> get_target_name db obj
      ∧ get_target_type obj = match device with Some _ => "device" | None => "group" end
  end.
Proof.
  intros Hpolicy. unfold PolicyAssignment_str, get_target_name, get_target_type.
  rewrite Hpolicy.
  destruct (PolicyAssignment.device obj) as [d|],
    (PolicyAssignment.device_group obj) as [g|]; simpl.
  - split; [|done]. by destruct (get_device db d).
  - split; [|done]. by destruct (get_device db d).
  - split; [|done]. by destruct (get_group db g).
  - split; [done|]. split; [done|]. by eexists.
Qed.

Lemma X25_target_display_witness :
  PolicyAssignment_str Fixtures.db_fleet Fixtures.relaxed_on_office
  = inr "Relaxed -> Office"
  ∧ get_target_name Fixtures.db_fleet Fixtures.relaxed_on_office = inr "Office".
Proof.
  split; [|reflexivity].
  exact (proj1 (X25_target_display Fixtures.db_fleet Fixtures.relaxed_on_office
                  Fixtures.relaxed eq_refl)).
Defined.
